(** * diy-tools-mcp example entry points: a shallow embedding

    The Python modules under [src/examples/python] are embedded here:

    - [simple_math.py]    as [Module SimpleMath],
    - [web_scraper.py]    as [Module WebScraper],
    - [text_analyzer.py]  as [Module TextAnalyzer],
    - [data_processor.py] as [Module DataProcessor] (its JSON half).

    Python values are the inductive [pyval]; a Python [dict] is an
    association list in insertion order; code that can raise lives in the
    error monad [result].  Strings are Rocq strings, read as sequences of
    ASCII characters.  What the Python standard library computes
    ([html.parser], [urllib.parse], [re], [json], float formatting) is not
    part of the repository: each module takes it as a record of functions
    and every theorem holds for all of them. *)

From Stdlib Require Import List String Ascii ZArith Lia Bool Arith.
From Stdlib Require Import SpecFloat DecimalString.
From Stdlib Require Import Permutation Sorted.
From Stdlib Require Znumtheory.
Import ListNotations.

Set Warnings "-register-all".
Open Scope string_scope.
Open Scope list_scope.

(** ** Exceptions and the error monad *)

(** An instance of Python's [Exception]: its class name and [str(e)]. *)
Record exn : Type := mk_exn { exn_type : string; exn_msg : string }.

Inductive result (A : Type) : Type :=
| Ok (a : A)
| Raise (e : exn).

Arguments Ok {A} a.
Arguments Raise {A} e.

Definition bind {A B : Type} (c : result A) (k : A -> result B) : result B :=
  match c with
  | Ok a => k a
  | Raise e => Raise e
  end.

Notation "x <- c ;; k" := (bind c (fun x => k))
  (at level 61, c at next level, right associativity).

(** [try: c  except Exception as e: return handler(e)]. *)
Definition try_except {A : Type} (c : result A) (handler : exn -> A) : result A :=
  match c with
  | Ok a => Ok a
  | Raise e => Ok (handler e)
  end.

(** A [for] loop that updates [a] and stops at the first raise. *)
Fixpoint foldM {A B : Type} (f : A -> B -> result A) (xs : list B) (a : A) : result A :=
  match xs with
  | [] => Ok a
  | x :: xs' => a' <- f a x ;; foldM f xs' a'
  end.

(** [for x in xs: f(x)] collecting the values, stopping at the first raise. *)
Fixpoint mapM {A B : Type} (f : A -> result B) (xs : list A) : result (list B) :=
  match xs with
  | [] => Ok []
  | x :: xs' => y <- f x ;; ys <- mapM f xs' ;; Ok (y :: ys)
  end.

(** [[x for x in xs if f(x)]] with a test that can raise. *)
Fixpoint filterM {A : Type} (f : A -> result bool) (xs : list A) : result (list A) :=
  match xs with
  | [] => Ok []
  | x :: xs' =>
      b <- f x ;; ys <- filterM f xs' ;; Ok (if b then x :: ys else ys)
  end.

(** Closes [~ In x [a; b; ...]] for closed strings. *)
Ltac not_listed :=
  let H := fresh "H" in
  simpl; intros H; repeat (destruct H as [H | H]; [discriminate H|]); exact H.

(** ** Python values *)

Inductive pyval : Type :=
| PNone
| PBool (b : bool)
| PInt (z : Z)
| PFloat (f : spec_float)
| PStr (s : string)
| PList (l : list pyval)
| PDict (d : list (string * pyval)).

(** A [dict] with string keys, in insertion order. *)
Definition dict : Type := list (string * pyval).

Fixpoint dict_get (d : dict) (k : string) : option pyval :=
  match d with
  | [] => None
  | (k', v) :: d' => if String.eqb k' k then Some v else dict_get d' k
  end.

(** [d[k] = v]: an existing key keeps its place, a new one goes last. *)
Fixpoint dict_set (d : dict) (k : string) (v : pyval) : dict :=
  match d with
  | [] => [(k, v)]
  | (k', v') :: d' =>
      if String.eqb k' k then (k', v) :: d' else (k', v') :: dict_set d' k v
  end.

(** [(k, v)] in front of [d], unless [d] sets [k] again later. *)
Definition dict_set_first (k : string) (v : pyval) (d : dict) : dict :=
  match dict_get d k with
  | Some v' => (k, v') :: filter (fun kv => negb (String.eqb (fst kv) k)) d
  | None => (k, v) :: d
  end.

(** [d.get(k, default)]. *)
Definition dict_get_default (d : dict) (k : string) (default : pyval) : pyval :=
  match dict_get d k with
  | Some v => v
  | None => default
  end.

(** [k in d]. *)
Definition dict_mem (d : dict) (k : string) : bool :=
  match dict_get d k with
  | Some _ => true
  | None => false
  end.

(** A list of strings and a list of dicts as values. *)
Definition strs (l : list string) : pyval := PList (map PStr l).
Definition dicts (l : list dict) : pyval := PList (map PDict l).

(** [type(v).__name__]. *)
Definition type_name (v : pyval) : string :=
  match v with
  | PNone => "NoneType"
  | PBool _ => "bool"
  | PInt _ => "int"
  | PFloat _ => "float"
  | PStr _ => "str"
  | PList _ => "list"
  | PDict _ => "dict"
  end.

(** Truth value of an object ([if v:]). *)
Definition truthy (v : pyval) : bool :=
  match v with
  | PNone => false
  | PBool b => b
  | PInt z => negb (Z.eqb z 0)
  | PFloat (S754_zero _) => false
  | PFloat _ => true
  | PStr s => negb (String.eqb s "")
  | PList l => match l with [] => false | _ => true end
  | PDict d => match d with [] => false | _ => true end
  end.

(** [v == 0]: numbers compare by value ([False], [0], [0.0] and [-0.0] are
    all equal to [0]); any other object is different from [0]. *)
Definition py_eq_zero (v : pyval) : bool :=
  match v with
  | PBool b => negb b
  | PInt z => Z.eqb z 0
  | PFloat (S754_zero _) => true
  | _ => false
  end.

(** [isinstance(v, int)]: [bool] is a subclass of [int]. *)
Definition isinstance_int (v : pyval) : bool :=
  match v with
  | PBool _ | PInt _ => true
  | _ => false
  end.

(** The value of an [int] instance ([int(v)] for such a [v]). *)
Definition int_value (v : pyval) : Z :=
  match v with
  | PBool b => Z.b2z b
  | PInt z => z
  | _ => 0%Z
  end.

(** [str(n)] for an [int]: decimal digits, a leading minus sign. *)
Definition str_of_int (z : Z) : string := NilZero.string_of_int (Z.to_int z).

Definition len {A : Type} (l : list A) : Z := Z.of_nat (List.length l).
Definition str_len (s : string) : Z := Z.of_nat (String.length s).

(** [l[:n]] for a non-negative literal [n]. *)
Definition take {A : Type} (n : nat) (l : list A) : list A := firstn n l.

(** ** Python's [str] methods and the regular expressions that need no
    backtracking, on ASCII strings *)

(** [c.isspace()], which is also what [\s] matches. *)
Definition is_space (c : ascii) : bool :=
  let n := nat_of_ascii c in
  (((9 <=? n) && (n <=? 13)) || ((28 <=? n) && (n <=? 32)))%nat.

Fixpoint lstrip (s : string) : string :=
  match s with
  | EmptyString => EmptyString
  | String c s' => if is_space c then lstrip s' else s
  end.

Fixpoint rstrip (s : string) : string :=
  match s with
  | EmptyString => EmptyString
  | String c s' =>
      match rstrip s' with
      | EmptyString => if is_space c then EmptyString else String c EmptyString
      | r => String c r
      end
  end.

(** [s.strip()]. *)
Definition strip (s : string) : string := lstrip (rstrip s).

Definition lower_ascii (c : ascii) : ascii :=
  let n := nat_of_ascii c in
  if ((65 <=? n) && (n <=? 90))%nat then ascii_of_nat (n + 32) else c.

(** [s.lower()]. *)
Fixpoint lower (s : string) : string :=
  match s with
  | EmptyString => EmptyString
  | String c s' => String (lower_ascii c) (lower s')
  end.

(** [sep.join(parts)]. *)
Fixpoint join (sep : string) (parts : list string) : string :=
  match parts with
  | [] => ""
  | [x] => x
  | x :: rest => x ++ sep ++ join sep rest
  end.

Definition nonempty (s : string) : bool := negb (String.eqb s "").

(** The maximal runs of characters of [s] that satisfy [keep].
    [runs_from keep s] is the run that starts [s] (empty when [s] does not
    start with one) and the runs after it. *)
Fixpoint runs_from (keep : ascii -> bool) (s : string) : string * list string :=
  match s with
  | EmptyString => ("", [])
  | String c s' =>
      let (w, ws) := runs_from keep s' in
      if keep c then (String c w, ws)
      else ("", if nonempty w then w :: ws else ws)
  end.

Definition runs (keep : ascii -> bool) (s : string) : list string :=
  let (w, ws) := runs_from keep s in if nonempty w then w :: ws else ws.

(** [s.split()]: the maximal runs of characters that are not whitespace. *)
Definition split_ws (s : string) : list string :=
  runs (fun c => negb (is_space c)) s.

Definition is_digit (c : ascii) : bool :=
  let n := nat_of_ascii c in ((48 <=? n) && (n <=? 57))%nat.

(** What [\w] matches. *)
Definition is_word_char (c : ascii) : bool :=
  let n := nat_of_ascii c in
  (((97 <=? n) && (n <=? 122)) || ((65 <=? n) && (n <=? 90))
   || ((48 <=? n) && (n <=? 57)) || (n =? 95))%nat.

(** [re.findall(r'\b\w+\b', s)]: the maximal runs of word characters. *)
Definition findall_words (s : string) : list string := runs is_word_char s.

(** [counter[x] += 1], a new key going last. *)
Fixpoint count_up (counter : list (string * Z)) (x : string) : list (string * Z) :=
  match counter with
  | [] => [(x, 1%Z)]
  | (k, n) :: rest =>
      if k =? x then (k, (n + 1)%Z) :: rest else (k, n) :: count_up rest x
  end.

(** Insertion behind every entry that counts at least as much. *)
Fixpoint insert_by_count (x : string * Z) (sorted : list (string * Z))
  : list (string * Z) :=
  match sorted with
  | [] => [x]
  | y :: rest =>
      if (snd y <? snd x)%Z then x :: y :: rest else y :: insert_by_count x rest
  end.

(** [sorted(items, key=lambda x: x[1], reverse=True)]: by count, largest
    first, equal counts in their order in [items]. *)
Definition sorted_by_count (items : list (string * Z)) : list (string * Z) :=
  fold_left (fun sorted x => insert_by_count x sorted) items [].

(** [re.sub(r'\s+', ' ', s)]. *)
Fixpoint collapse_ws_from (in_run : bool) (s : string) : string :=
  match s with
  | EmptyString => EmptyString
  | String c s' =>
      if is_space c
      then if in_run then collapse_ws_from true s'
           else String " " (collapse_ws_from true s')
      else String c (collapse_ws_from false s')
  end.

Definition collapse_ws (s : string) : string := collapse_ws_from false s.

Definition is_sentence_end (c : ascii) : bool :=
  (c =? ".")%char || (c =? "!")%char || (c =? "?")%char.

(** [re.split(r'[.!?]+', s)]: the pieces between the maximal runs of
    [.], [!] and [?]; a run at either end leaves an empty piece.
    [re_split_from in_run s] is the piece that starts [s] (after the rest
    of the current run, when [in_run]) and the pieces after it. *)
Fixpoint re_split_from (in_run : bool) (s : string) : string * list string :=
  match s with
  | EmptyString => ("", [])
  | String c s' =>
      if is_sentence_end c
      then if in_run then re_split_from true s'
           else let (w, ws) := re_split_from true s' in ("", w :: ws)
      else let (w, ws) := re_split_from false s' in (String c w, ws)
  end.

Definition re_split_sentences (s : string) : list string :=
  let (w, ws) := re_split_from false s in w :: ws.

(** [len([s for s in sentences if s.strip()])]'s list. *)
Definition nonblank (pieces : list string) : list string :=
  filter (fun s => nonempty (strip s)) pieces.

(** [s.count(pat)] for a non-empty [pat]: occurrences that do not overlap,
    from the left; [skip] characters still belong to the last one found. *)
Fixpoint count_from (pat : string) (skip : nat) (s : string) : nat :=
  match s with
  | EmptyString => 0
  | String _ s' =>
      match skip with
      | S k => count_from pat k s'
      | O =>
          if String.prefix pat s
          then S (count_from pat (String.length pat - 1) s')
          else count_from pat 0 s'
      end
  end.

Definition str_count (s pat : string) : nat := count_from pat 0 s.

(** [pat in s]. *)
Fixpoint contains (pat s : string) : bool :=
  String.prefix pat s
  || match s with
     | EmptyString => false
     | String _ s' => contains pat s'
     end.

(** [s[:n]] for an integer [n]: a negative [n] counts from the end. *)
Definition str_slice_to (s : string) (n : Z) : string :=
  if (n <? 0)%Z
  then String.substring 0 (Z.to_nat (str_len s + n)) s
  else String.substring 0 (Z.to_nat n) s.

(** The exact comparison [n > f] of an [int] with a [float]. *)
Definition int_gt_float (n : Z) (f : spec_float) : bool :=
  match f with
  | S754_nan => false
  | S754_infinity negative => negative
  | S754_zero _ => (0 <? n)%Z
  | S754_finite negative m e =>
      let v := if negative then Z.neg m else Z.pos m in
      if (0 <=? e)%Z then (v * 2 ^ e <? n)%Z else (v <? n * 2 ^ (- e))%Z
  end.

(** [n > v] for an [int] [n]. *)
Definition int_gt (n : Z) (v : pyval) : result bool :=
  match v with
  | PBool b => Ok (Z.b2z b <? n)%Z
  | PInt z => Ok (z <? n)%Z
  | PFloat f => Ok (int_gt_float n f)
  | _ =>
      Raise (mk_exn "TypeError"
               ("'>' not supported between instances of 'int' and '"
                  ++ type_name v ++ "'"))
  end.

(** [s[:v]]. *)
Definition py_slice_to (s : string) (v : pyval) : result string :=
  match v with
  | PNone => Ok s
  | PBool b => Ok (str_slice_to s (Z.b2z b))
  | PInt z => Ok (str_slice_to s z)
  | _ =>
      Raise (mk_exn "TypeError"
               "slice indices must be integers or None or have an __index__ method")
  end.

Definition attribute_error (v : pyval) (attribute : string) : exn :=
  mk_exn "AttributeError"
    ("'" ++ type_name v ++ "' object has no attribute '" ++ attribute ++ "'").

(** [v.startswith(prefix)]. *)
Definition py_startswith (v : pyval) (prefix : string) : result bool :=
  match v with
  | PStr s => Ok (String.prefix prefix s)
  | _ => Raise (attribute_error v "startswith")
  end.

(** [v.lower()]. *)
Definition py_lower (v : pyval) : result string :=
  match v with
  | PStr s => Ok (lower s)
  | _ => Raise (attribute_error v "lower")
  end.

(** [d[k]]. *)
Definition dict_item (d : dict) (k : string) : result pyval :=
  match dict_get d k with
  | Some v => Ok v
  | None => Raise (mk_exn "KeyError" ("'" ++ k ++ "'"))
  end.

(** The float nearest to an [int] (the [int] itself below 2^53). *)
Definition float_of_int (z : Z) : spec_float := binary_normalize 53 1024 z 0 false.

(** [a / b] for two counts (lengths of lists and strings, which convert to
    float exactly): ZeroDivisionError for a zero divisor, the binary64
    quotient otherwise. *)
Definition count_truediv (a b : Z) : result spec_float :=
  if (b =? 0)%Z then Raise (mk_exn "ZeroDivisionError" "division by zero")
  else Ok (SFdiv 53 1024 (float_of_int a) (float_of_int b)).

(** [sum(len(w) for w in words)]. *)
Definition total_length (words : list string) : Z :=
  fold_right (fun w n => (str_len w + n)%Z) 0%Z words.

(** [sum(len(w) for w in words) / len(words) if words else 0]. *)
Definition average_word_length (words : list string) : result pyval :=
  match words with
  | [] => Ok (PInt 0)
  | _ => q <- count_truediv (total_length words) (len words) ;; Ok (PFloat q)
  end.

Example split_ws_example :
  split_ws "  hello   big world " = ["hello"; "big"; "world"].
Proof. reflexivity. Qed.

Example re_split_example :
  re_split_sentences "One. Two?! Three" = ["One"; " Two"; " Three"]
  /\ re_split_sentences "End." = ["End"; ""]
  /\ re_split_sentences "" = [""].
Proof. repeat split. Qed.

Example collapse_ws_example :
  strip (collapse_ws "  a 	 b  ") = "a b".
Proof. reflexivity. Qed.

Example str_count_example : str_count "aaaa itemscope" "aa" = 2%nat.
Proof. reflexivity. Qed.

Example str_slice_example :
  str_slice_to "abcdef" 2 = "ab" /\ str_slice_to "abcdef" (-2) = "abcd"
  /\ str_slice_to "ab" (-5) = "".
Proof. repeat split. Qed.

Example int_gt_float_example :
  int_gt_float 3 (S754_finite false 5629499534213120 (-51)) = true
  /\ int_gt_float 2 (S754_finite false 5629499534213120 (-51)) = false.
Proof. split; reflexivity. Qed.

(** ** Facts about dicts *)

(** [list(d.keys())]. *)
Definition dict_keys (d : dict) : list string := map fst d.

Lemma dict_set_new (d : dict) (k : string) (v : pyval) :
  ~ In k (dict_keys d) -> dict_set d k v = d ++ [(k, v)].
Proof.
  induction d as [|[k' v'] d IH]; simpl; [reflexivity|].
  intros Hnew. destruct (String.eqb_spec k' k) as [->|_]; [tauto|].
  rewrite IH by tauto. reflexivity.
Qed.

Lemma dict_set_Forall (R : string * pyval -> Prop) (d : dict) (k : string) (v : pyval) :
  Forall R d -> R (k, v) -> Forall R (dict_set d k v).
Proof.
  intros Hd Hkv. induction Hd as [|[k' v'] d Hx Hd IH]; simpl.
  - now constructor.
  - destruct (String.eqb_spec k' k) as [->|_]; constructor; assumption.
Qed.

Lemma dict_set_keys (d : dict) (k : string) (v : pyval) :
  dict_keys (dict_set d k v) = if dict_mem d k then dict_keys d else dict_keys d ++ [k].
Proof.
  unfold dict_mem. induction d as [|[k' v'] d IH]; simpl; [reflexivity|].
  destruct (String.eqb_spec k' k) as [->|Hne]; simpl; [reflexivity|].
  rewrite IH. now destruct (dict_get d k).
Qed.

Lemma dict_mem_keys (d : dict) (k : string) :
  dict_mem d k = true <-> In k (dict_keys d).
Proof.
  unfold dict_mem. induction d as [|[k' v'] d IH]; simpl.
  - split; [discriminate | tauto].
  - destruct (String.eqb_spec k' k) as [->|Hne]; [tauto|].
    rewrite IH. tauto.
Qed.

Lemma dict_set_nodup (d : dict) (k : string) (v : pyval) :
  NoDup (dict_keys d) -> NoDup (dict_keys (dict_set d k v)).
Proof.
  intros Hd. rewrite dict_set_keys. destruct (dict_mem d k) eqn:Hmem; [exact Hd|].
  apply NoDup_app; [exact Hd | repeat constructor; simpl; tauto |].
  intros x Hx [<-|[]]. apply dict_mem_keys in Hx. congruence.
Qed.

Lemma dict_get_set (d : dict) (k k' : string) (v : pyval) :
  dict_get (dict_set d k v) k' = if k =? k' then Some v else dict_get d k'.
Proof.
  induction d as [|[k0 v0] d IH]; simpl.
  - destruct (k =? k'); reflexivity.
  - destruct (String.eqb_spec k0 k) as [->|Hne]; simpl.
    + destruct (k =? k'); reflexivity.
    + rewrite IH. destruct (String.eqb_spec k0 k') as [->|_]; [|reflexivity].
      destruct (String.eqb_spec k k') as [->|_]; [contradiction | reflexivity].
Qed.

(** ** Facts about strings *)

Lemma prefix_app (a b : string) : String.prefix a (a ++ b) = true.
Proof.
  induction a as [|c a IH]; simpl; [now destruct b|].
  destruct (ascii_dec c c); [exact IH | contradiction].
Qed.

Lemma prefix_app_r (a b c : string) :
  String.prefix a b = true -> String.prefix a (b ++ c) = true.
Proof.
  revert b. induction a as [|x a IH]; intros [|y b]; simpl; try reflexivity;
    try discriminate.
  - now destruct c.
  - destruct (ascii_dec x y); [apply IH | discriminate].
Qed.

Lemma prefix_trans (a b c : string) :
  String.prefix a b = true -> String.prefix b c = true -> String.prefix a c = true.
Proof.
  revert b c. induction a as [|x a IH]; intros [|y b] [|z c]; simpl;
    try reflexivity; try discriminate.
  destruct (ascii_dec x y) as [->|]; [|discriminate].
  destruct (ascii_dec y z) as [->|]; [|discriminate].
  destruct (ascii_dec z z); [apply IH | contradiction].
Qed.

Lemma string_app_assoc (a b c : string) : ((a ++ b) ++ c = a ++ b ++ c)%string.
Proof. induction a as [|x a IH]; simpl; [reflexivity | now rewrite IH]. Qed.

Lemma length_append (a b : string) :
  String.length (a ++ b) = String.length a + String.length b.
Proof. induction a as [|c a IH]; simpl; [reflexivity | now rewrite IH]. Qed.

Lemma length_substring_0 (n : nat) (s : string) :
  String.length (String.substring 0 n s) = Nat.min n (String.length s).
Proof.
  revert n. induction s as [|c s IH]; intros [|n]; simpl; try reflexivity.
  now rewrite IH.
Qed.

Lemma str_len_append (a b : string) : str_len (a ++ b) = (str_len a + str_len b)%Z.
Proof. unfold str_len. rewrite length_append. lia. Qed.

Lemma str_slice_to_length (s : string) (n : Z) :
  (0 <= n)%Z -> (str_len (str_slice_to s n) <= n)%Z.
Proof.
  intros Hn. unfold str_slice_to, str_len.
  destruct (Z.ltb_spec n 0); [lia|]. rewrite length_substring_0. lia.
Qed.

Lemma average_word_length_returns (words : list string) :
  exists v, average_word_length words = Ok v.
Proof.
  destruct words as [|w ws]; [simpl; eauto|].
  unfold average_word_length, count_truediv.
  destruct (Z.eqb_spec (len (w :: ws)) 0) as [Hlen|_]; [|cbn [bind]; eauto].
  unfold len in Hlen. simpl List.length in Hlen. lia.
Qed.

(** ** Facts about loops in the error monad *)

Lemma foldM_invariant {A B : Type} (f : A -> B -> result A) (P : A -> Prop)
  (xs : list B) (a a' : A) :
  (forall a x a', In x xs -> P a -> f a x = Ok a' -> P a') ->
  P a -> foldM f xs a = Ok a' -> P a'.
Proof.
  revert a. induction xs as [|x xs IH]; intros a Hstep Ha; simpl.
  - now intros [= <-].
  - destruct (f a x) as [a1|e] eqn:Hx; [|discriminate]. cbn [bind].
    apply IH.
    + intros b y b' Hy. apply Hstep. now right.
    + apply (Hstep a x a1); [now left | exact Ha | exact Hx].
Qed.

(** ** Facts about counters and [sorted] *)

(** [counter.get(k, 0)]. *)
Fixpoint count_of (counter : list (string * Z)) (k : string) : Z :=
  match counter with
  | [] => 0
  | (k', n) :: rest => if k' =? k then n else count_of rest k
  end.

(** [xs.count(x)]. *)
Definition occurrences (x : string) (xs : list string) : Z :=
  len (filter (String.eqb x) xs).

Lemma occurrences_cons (k x : string) (xs : list string) :
  occurrences k (x :: xs) = ((if (x =? k)%string then 1 else 0) + occurrences k xs)%Z.
Proof.
  unfold occurrences, len. simpl. rewrite (String.eqb_sym k x).
  destruct (x =? k); simpl List.length; lia.
Qed.

Lemma occurrences_In (k : string) (xs : list string) :
  In k xs <-> (1 <= occurrences k xs)%Z.
Proof.
  induction xs as [|x xs IH].
  - unfold occurrences, len. simpl. split; [tauto | lia].
  - rewrite occurrences_cons. simpl.
    assert (0 <= occurrences k xs)%Z by (unfold occurrences, len; lia).
    destruct (String.eqb_spec x k) as [->|Hne].
    + split; [lia | tauto].
    + rewrite <- IH. split; [intros [?|?]; [congruence | assumption] | tauto].
Qed.

Lemma count_of_count_up (c : list (string * Z)) (x k : string) :
  count_of (count_up c x) k = (count_of c k + if (x =? k)%string then 1 else 0)%Z.
Proof.
  induction c as [|[k' n] c IH]; simpl.
  - destruct (x =? k); reflexivity.
  - destruct (String.eqb_spec k' x) as [->|Hne]; simpl.
    + destruct (x =? k); lia.
    + destruct (String.eqb_spec k' k) as [->|Hk]; [|exact IH].
      destruct (String.eqb_spec x k) as [->|_]; [contradiction | lia].
Qed.

Lemma count_up_keys (c : list (string * Z)) (x k : string) :
  In k (map fst (count_up c x)) <-> In k (map fst c) \/ k = x.
Proof.
  induction c as [|[k' n] c IH]; simpl.
  - intuition congruence.
  - destruct (String.eqb_spec k' x) as [->|Hne]; simpl.
    + intuition congruence.
    + rewrite IH. tauto.
Qed.

Lemma count_up_nodup (c : list (string * Z)) (x : string) :
  NoDup (map fst c) -> NoDup (map fst (count_up c x)).
Proof.
  induction c as [|[k' n] c IH]; simpl; intros Hc.
  - repeat constructor. simpl. tauto.
  - inversion Hc as [|? ? Hout Hrest]; subst.
    destruct (String.eqb_spec k' x) as [->|Hne]; simpl.
    + now constructor.
    + constructor; [|now apply IH].
      rewrite count_up_keys. intuition congruence.
Qed.

Lemma count_of_In (c : list (string * Z)) (k : string) (n : Z) :
  NoDup (map fst c) -> In (k, n) c -> count_of c k = n.
Proof.
  induction c as [|[k' n'] c IH]; simpl; [tauto|].
  intros Hc Hin. inversion Hc as [|? ? Hout Hrest]; subst.
  destruct Hin as [[= -> ->]|Hin].
  - now rewrite String.eqb_refl.
  - destruct (String.eqb_spec k' k) as [->|_]; [|now apply IH].
    exfalso. apply Hout. now apply (in_map fst) in Hin.
Qed.

(** What the loop [counter[x] += 1] over [xs] leaves in a counter. *)
Lemma count_up_all (xs : list string) (c : list (string * Z)) :
  NoDup (map fst c) ->
  NoDup (map fst (fold_left count_up xs c))
  /\ (forall k, count_of (fold_left count_up xs c) k
                = (count_of c k + occurrences k xs)%Z)
  /\ (forall k, In k (map fst (fold_left count_up xs c))
                <-> In k (map fst c) \/ In k xs).
Proof.
  revert c. induction xs as [|x xs IH]; intros c Hc; simpl.
  - split; [exact Hc|]. split; intros k.
    + unfold occurrences, len. simpl. lia.
    + tauto.
  - destruct (IH (count_up c x) (count_up_nodup c x Hc)) as (Hn & Hcount & Hkeys).
    split; [exact Hn|]. split; intros k.
    + rewrite Hcount, count_of_count_up, occurrences_cons. lia.
    + rewrite Hkeys, count_up_keys. intuition congruence.
Qed.

(** [c] counts the elements of [xs]: one entry for each of them, with the
    number of its occurrences. *)
Definition counted (xs : list string) (c : list (string * Z)) : Prop :=
  NoDup (map fst c)
  /\ (forall k, In k (map fst c) <-> In k xs)
  /\ (forall k n, In (k, n) c -> n = occurrences k xs).

Lemma count_up_counted (xs : list string) : counted xs (fold_left count_up xs []).
Proof.
  destruct (count_up_all xs [] (NoDup_nil _)) as (Hn & Hcount & Hkeys).
  split; [exact Hn|]. split.
  - intros k. rewrite Hkeys. simpl. tauto.
  - intros k n Hin. apply (count_of_In _ _ _ Hn) in Hin.
    rewrite Hcount in Hin. simpl in Hin. lia.
Qed.

(** The order of [sorted(items, key=lambda x: x[1], reverse=True)]. *)
Definition by_count (a b : string * Z) : Prop := (snd b <= snd a)%Z.

Lemma insert_by_count_perm (x : string * Z) (s : list (string * Z)) :
  Permutation (insert_by_count x s) (x :: s).
Proof.
  induction s as [|y s IH]; simpl; [reflexivity|].
  destruct (snd y <? snd x)%Z; [reflexivity|].
  rewrite IH. apply perm_swap.
Qed.

Lemma insert_by_count_sorted (x : string * Z) (s : list (string * Z)) :
  StronglySorted by_count s -> StronglySorted by_count (insert_by_count x s).
Proof.
  induction 1 as [|y s Hs IH Hy]; simpl.
  - repeat constructor.
  - destruct (Z.ltb_spec (snd y) (snd x)) as [Hlt|Hge].
    + constructor; [now constructor|].
      constructor; [unfold by_count; lia|].
      eapply Forall_impl; [|exact Hy]. unfold by_count. intros z Hz. simpl in Hz. lia.
    + constructor; [exact IH|].
      rewrite (insert_by_count_perm x s). now constructor.
Qed.

Lemma sorted_by_count_from (items acc : list (string * Z)) :
  StronglySorted by_count acc ->
  Permutation (fold_left (fun sorted x => insert_by_count x sorted) items acc)
    (acc ++ items)
  /\ StronglySorted by_count
       (fold_left (fun sorted x => insert_by_count x sorted) items acc).
Proof.
  revert acc. induction items as [|x items IH]; intros acc Hacc; simpl.
  - now rewrite app_nil_r.
  - destruct (IH _ (insert_by_count_sorted x acc Hacc)) as [Hp Hs].
    split; [|exact Hs].
    rewrite Hp, insert_by_count_perm. apply Permutation_middle.
Qed.

Lemma sorted_by_count_perm (items : list (string * Z)) :
  Permutation (sorted_by_count items) items.
Proof. exact (proj1 (sorted_by_count_from items [] (SSorted_nil _))). Qed.

Lemma sorted_by_count_sorted (items : list (string * Z)) :
  StronglySorted by_count (sorted_by_count items).
Proof. exact (proj2 (sorted_by_count_from items [] (SSorted_nil _))). Qed.

Lemma sorted_app_inv {A : Type} (R : A -> A -> Prop) (a b : list A) :
  StronglySorted R (a ++ b) ->
  StronglySorted R a /\ Forall (fun x => Forall (R x) b) a.
Proof.
  induction a as [|x a IH]; simpl; intros Hs.
  - split; constructor.
  - inversion Hs as [|? ? Hrest Hx]; subst.
    destruct (IH Hrest) as [Ha Hb].
    apply Forall_app in Hx. destruct Hx as [Hxa Hxb].
    split; constructor; assumption.
Qed.

(** [top] lists, largest count first, at most [n] of the distinct elements
    of [xs], each with the number of its occurrences; an element that is
    left out occurs no more often than any that is listed. *)
Definition most_frequent (n : nat) (xs : list string) (top : list (string * Z))
  : Prop :=
  (List.length top <= n)%nat
  /\ NoDup (map fst top)
  /\ (forall k m, In (k, m) top -> In k xs /\ m = occurrences k xs)
  /\ StronglySorted by_count top
  /\ (forall k, In k xs -> ~ In k (map fst top) ->
        List.length top = n
        /\ forall kv, In kv top -> (occurrences k xs <= snd kv)%Z).

Lemma take_sorted_most_frequent (n : nat) (xs : list string)
  (c : list (string * Z)) :
  counted xs c -> most_frequent n xs (take n (sorted_by_count c)).
Proof.
  intros (Hnodup & Hkeys & Hcount). unfold take.
  pose proof (sorted_by_count_perm c) as Hperm.
  pose proof (sorted_by_count_sorted c) as Hsorted.
  set (s := sorted_by_count c) in *.
  rewrite <- (firstn_skipn n s) in Hsorted.
  apply sorted_app_inv in Hsorted. destruct Hsorted as [Htop Hrest].
  assert (Hin : forall kv, In kv (firstn n s) -> In kv c).
  { intros kv Hkv. apply (Permutation_in _ Hperm).
    rewrite <- (firstn_skipn n s). apply in_or_app. now left. }
  split; [apply firstn_le_length|]. split; [|split; [|split]].
  - assert (Hs : NoDup (map fst s)).
    { apply (Permutation_NoDup (l := map fst c)); [|exact Hnodup].
      apply Permutation_map. now symmetry. }
    rewrite <- (firstn_skipn n s), map_app in Hs.
    now apply NoDup_app_remove_r in Hs.
  - intros k m Hkm. apply Hin in Hkm. split; [|now apply Hcount].
    apply Hkeys. now apply (in_map fst) in Hkm.
  - exact Htop.
  - intros k Hk Hout.
    apply Hkeys, in_map_iff in Hk. destruct Hk as ([k' m] & Hfst & Hkm).
    simpl in Hfst. subst k'.
    pose proof (Hcount _ _ Hkm) as Hm.
    apply (Permutation_in _ (Permutation_sym Hperm)) in Hkm.
    rewrite <- (firstn_skipn n s) in Hkm. apply in_app_or in Hkm.
    destruct Hkm as [Hkm|Hkm].
    { exfalso. apply Hout. now apply (in_map fst) in Hkm. }
    split.
    + apply firstn_length_le.
      destruct (Nat.le_gt_cases n (List.length s)) as [Hle|Hgt]; [exact Hle|].
      rewrite skipn_all2 in Hkm by lia. destruct Hkm.
    + intros kv Hkv. rewrite Forall_forall in Hrest.
      specialize (Hrest kv Hkv). rewrite Forall_forall in Hrest.
      specialize (Hrest _ Hkm). unfold by_count in Hrest. simpl in Hrest. lia.
Qed.

(** ** simple_math.py *)

Module SimpleMath.

(** [math.factorial(n)] for [n >= 0]. *)
Fixpoint math_factorial (n : nat) : Z :=
  match n with
  | O => 1%Z
  | S k => (Z.of_nat n * math_factorial k)%Z
  end.

(** What the module takes from the interpreter: true division [a / b], the
    formatting of a value inside an f-string, and the fourteen operations
    other than [divide] and [factorial] (none of the statements below is
    about them; the comparisons of [operation] with string literals are
    mutually exclusive, so their place in the chain does not matter). *)
Record Lib : Type := {
  truediv : pyval -> pyval -> result pyval;
  py_str : pyval -> string;
  other_operation : string -> pyval -> pyval -> result dict
}.

Section Main.

Variable L : Lib.

(** The branch [elif operation == "divide":]. *)
Definition divide (a b : pyval) : result dict :=
  match b with
  | PNone => Ok [("error", PStr "Division requires two operands")]
  | _ =>
      if py_eq_zero b then Ok [("error", PStr "Division by zero is undefined")]
      else
        q <- truediv L a b ;;
        Ok [("result", q);
            ("operation", PStr (py_str L a ++ " ÷ " ++ py_str L b))]
  end.

(** The branch [elif operation == "factorial":]. *)
Definition factorial (a : pyval) : result dict :=
  if negb (isinstance_int a) || (int_value a <? 0)%Z
  then Ok [("error", PStr "Factorial requires a non-negative integer")]
  else
    Ok [("result", PInt (math_factorial (Z.to_nat (int_value a))));
        ("operation", PStr (str_of_int (int_value a) ++ "!"))].

(** The body of [try:] in [main]. *)
Definition main_body (operation : string) (a b : pyval) : result dict :=
  if operation =? "divide" then divide a b
  else if operation =? "factorial" then factorial a
  else other_operation L operation a b.

(** [main(operation, a, b=None)]; [b = PNone] is the missing operand. *)
Definition main (operation : string) (a b : pyval) : result dict :=
  try_except (main_body operation a b)
    (fun e => [("error", PStr (exn_msg e)); ("operation", PStr operation)]).

End Main.

(** *** The interpreter on the operands of the worked examples

    Binary64 division of [int] and [float] operands (an [int] is converted
    first, which is exact below 2^53) and the notation of [None], [bool],
    [int] and [str] values; the examples format no other value.  Only the
    closed examples use it. *)

Definition as_float (v : pyval) : option spec_float :=
  match v with
  | PBool b => Some (float_of_int (Z.b2z b))
  | PInt z => Some (float_of_int z)
  | PFloat f => Some f
  | _ => None
  end.

Definition example_truediv (a b : pyval) : result pyval :=
  match as_float a, as_float b with
  | Some x, Some y =>
      if py_eq_zero b then Raise (mk_exn "ZeroDivisionError" "division by zero")
      else Ok (PFloat (SFdiv 53 1024 x y))
  | _, _ =>
      Raise (mk_exn "TypeError"
               ("unsupported operand type(s) for /: '" ++ type_name a
                  ++ "' and '" ++ type_name b ++ "'"))
  end.

Definition example_str (v : pyval) : string :=
  match v with
  | PBool true => "True"
  | PBool false => "False"
  | PInt z => str_of_int z
  | PStr s => s
  | PNone => "None"
  | _ => "<" ++ type_name v ++ ">"
  end.

Definition ExampleLib : Lib :=
  {| truediv := example_truediv;
     py_str := example_str;
     other_operation := fun operation _ _ =>
       Raise (mk_exn "NotImplementedError" operation) |}.

(** 5.0, 2.0 and 0.0 as binary64 numbers. *)
Definition float_5 : spec_float := S754_finite false 5629499534213120 (-50).
Definition float_2 : spec_float := S754_finite false 4503599627370496 (-51).

(** *** Theorems *)




Example float_5_is_5 : float_of_int 5 = float_5.
Proof. reflexivity. Qed.

Example example_divide_6_3 :
  main ExampleLib "divide" (PInt 6) (PInt 3)
  = Ok [("result", PFloat float_2); ("operation", PStr "6 ÷ 3")].
Proof. reflexivity. Qed.

Example example_divide_1_0 :
  truediv ExampleLib (PInt 1) (PInt 0)
  = Raise (mk_exn "ZeroDivisionError" "division by zero").
Proof. reflexivity. Qed.





(** *** The other fourteen operations *)

(** [int(f)] for a float: the integer part, towards zero. *)
Definition int_of_float (f : spec_float) : result Z :=
  match f with
  | S754_zero _ => Ok 0%Z
  | S754_finite negative m e =>
      let magnitude :=
        if (0 <=? e)%Z then (Z.pos m * 2 ^ e)%Z else (Z.pos m / 2 ^ (- e))%Z in
      Ok (if negative then (- magnitude)%Z else magnitude)
  | S754_infinity _ =>
      Raise (mk_exn "OverflowError" "cannot convert float infinity to integer")
  | S754_nan => Raise (mk_exn "ValueError" "cannot convert float NaN to integer")
  end.

(** What these operations take from the interpreter: [int(s)] for a
    string, [int(math.sqrt(n))] for an [int], [math.sqrt(a)], the binary
    operators of add, subtract, multiply and power, and the arithmetic of
    the five statistics on a list that passed the checks. *)
Record Numeric : Type := {
  int_of_str : string -> result Z;
  int_sqrt : Z -> result Z;
  math_sqrt : pyval -> result pyval;
  binary : string -> pyval -> pyval -> result pyval;
  statistic : string -> list pyval -> result dict
}.

(** The Fibonacci numbers F(0) = 0, F(1) = 1, F(k+2) = F(k+1) + F(k). *)
Fixpoint fibonacci_number (k : nat) : Z :=
  match k with
  | O => 0%Z
  | S k' =>
      match k' with
      | O => 1%Z
      | S k'' => (fibonacci_number k' + fibonacci_number k'')%Z
      end
  end.

(** [fib.append(fib[-1] + fib[-2])]. *)
Definition fib_append (fib : list Z) : list Z :=
  fib ++ [(nth (List.length fib - 1) fib 0 + nth (List.length fib - 2) fib 0)%Z].

(** [range(2, stop)]. *)
Definition range_from_2 (stop : Z) : list Z :=
  map Z.of_nat (seq 2 (Z.to_nat stop - 2)).

(** [a < 0]. *)
Definition lt_zero (v : pyval) : result bool :=
  match v with
  | PBool _ => Ok false
  | PInt z => Ok (z <? 0)%Z
  | PFloat (S754_finite negative _ _) => Ok negative
  | PFloat (S754_infinity negative) => Ok negative
  | PFloat _ => Ok false
  | _ =>
      Raise (mk_exn "TypeError"
               ("'<' not supported between instances of '" ++ type_name v
                  ++ "' and 'int'"))
  end.

Definition operations : list string :=
  ["add"; "subtract"; "multiply"; "divide"; "power"; "sqrt";
   "factorial"; "gcd"; "lcm"; "mean"; "median"; "mode";
   "variance"; "stddev"; "prime_check"; "fibonacci"].

(** The mapping of the final [else:]. *)
Definition unknown_operation (operation : string) : dict :=
  [("error", PStr ("Unknown operation: " ++ operation));
   ("available", strs operations)].

Section Operations.

Variable L : Lib.
Variable N : Numeric.

(** [int(v)]. *)
Definition py_int (v : pyval) : result Z :=
  match v with
  | PBool b => Ok (Z.b2z b)
  | PInt z => Ok z
  | PFloat f => int_of_float f
  | PStr s => int_of_str N s
  | _ =>
      Raise (mk_exn "TypeError"
               ("int() argument must be a string, a bytes-like object or a real number, not '"
                  ++ type_name v ++ "'"))
  end.

(** The branches add, subtract, multiply and power: [symbol] stands
    between the operands in the f-string. *)
Definition two_operands (operation missing symbol : string) (a b : pyval)
  : result dict :=
  match b with
  | PNone => Ok [("error", PStr missing)]
  | _ =>
      r <- binary N operation a b ;;
      Ok [("result", r);
          ("operation", PStr (py_str L a ++ symbol ++ py_str L b))]
  end.

Definition sqrt_operation (a : pyval) : result dict :=
  negative <- lt_zero a ;;
  if negative : bool
  then Ok [("error", PStr "Cannot calculate square root of negative number")]
  else
    r <- math_sqrt N a ;;
    Ok [("result", r); ("operation", PStr ("√" ++ py_str L a))].

Definition gcd_operation (a b : pyval) : result dict :=
  match b with
  | PNone => Ok [("error", PStr "GCD requires two operands")]
  | _ =>
      x <- py_int a ;;
      y <- py_int b ;;
      Ok [("result", PInt (Z.gcd x y));
          ("operation",
           PStr ("gcd(" ++ str_of_int x ++ ", " ++ str_of_int y ++ ")"))]
  end.

(** [abs(int(a) * int(b)) // gcd_val if gcd_val != 0 else 0]. *)
Definition lcm_val (x y : Z) : Z :=
  if (Z.gcd x y =? 0)%Z then 0%Z else (Z.abs (x * y) / Z.gcd x y)%Z.

Definition lcm_operation (a b : pyval) : result dict :=
  match b with
  | PNone => Ok [("error", PStr "LCM requires two operands")]
  | _ =>
      x <- py_int a ;;
      y <- py_int b ;;
      Ok [("result", PInt (lcm_val x y));
          ("operation",
           PStr ("lcm(" ++ str_of_int x ++ ", " ++ str_of_int y ++ ")"))]
  end.

(** The branches mean, median and mode ([minimum = 1]: [if not a]) and
    variance and stddev ([minimum = 2]: [if len(a) < 2]). *)
Definition list_operation (operation not_a_list too_short : string)
  (minimum : Z) (a : pyval) : result dict :=
  match a with
  | PList l =>
      if (len l <? minimum)%Z then Ok [("error", PStr too_short)]
      else statistic N operation l
  | _ => Ok [("error", PStr not_a_list)]
  end.

Definition prime_check (a : pyval) : result dict :=
  n <- py_int a ;;
  if (n <? 2)%Z then
    Ok [("result", PBool false); ("number", PInt n); ("reason", PStr "Less than 2")]
  else
    root <- int_sqrt N n ;;
    match find (fun i => (n mod i =? 0)%Z) (range_from_2 (root + 1)) with
    | Some i => Ok [("result", PBool false); ("number", PInt n); ("factor", PInt i)]
    | None => Ok [("result", PBool true); ("number", PInt n)]
    end.

Definition fibonacci (a : pyval) : result dict :=
  n <- py_int a ;;
  if (n <? 0)%Z then
    Ok [("error", PStr "Fibonacci requires a non-negative integer")]
  else if (n =? 0)%Z then Ok [("result", PList []); ("count", PInt 0)]
  else if (n =? 1)%Z then Ok [("result", PList [PInt 0]); ("count", PInt 1)]
  else
    let fib := Nat.iter (Z.to_nat n - 2) fib_append [0%Z; 1%Z] in
    Ok [("result", PList (map PInt fib));
        ("count", PInt n);
        ("last", PInt (nth (List.length fib - 1) fib 0%Z))].

(** The chain of [elif]s without [divide] and [factorial]. *)
Definition other_operations (operation : string) (a b : pyval) : result dict :=
  if operation =? "add" then
    two_operands "add" "Addition requires two operands" " + " a b
  else if operation =? "subtract" then
    two_operands "subtract" "Subtraction requires two operands" " - " a b
  else if operation =? "multiply" then
    two_operands "multiply" "Multiplication requires two operands" " × " a b
  else if operation =? "power" then
    two_operands "power" "Power operation requires two operands" "^" a b
  else if operation =? "sqrt" then sqrt_operation a
  else if operation =? "gcd" then gcd_operation a b
  else if operation =? "lcm" then lcm_operation a b
  else if operation =? "mean" then
    list_operation "mean" "Mean requires a list of numbers"
      "Cannot calculate mean of empty list" 1 a
  else if operation =? "median" then
    list_operation "median" "Median requires a list of numbers"
      "Cannot calculate median of empty list" 1 a
  else if operation =? "mode" then
    list_operation "mode" "Mode requires a list of numbers"
      "Cannot calculate mode of empty list" 1 a
  else if operation =? "variance" then
    list_operation "variance" "Variance requires a list of numbers"
      "Variance requires at least 2 numbers" 2 a
  else if operation =? "stddev" then
    list_operation "stddev" "Standard deviation requires a list of numbers"
      "Standard deviation requires at least 2 numbers" 2 a
  else if operation =? "prime_check" then prime_check a
  else if operation =? "fibonacci" then fibonacci a
  else Ok (unknown_operation operation).

(** The interpreter of [main] with the fourteen operations in place. *)
Definition with_operations : Lib :=
  {| truediv := truediv L; py_str := py_str L; other_operation := other_operations |}.

End Operations.

(** The interpreter on the operands of the worked examples: decimal
    numerals, and small numbers, for which [int(math.sqrt(n))] is the
    integer square root; the examples use no float arithmetic. *)
Definition ExampleNumeric : Numeric :=
  {| int_of_str := fun s =>
       match NilZero.int_of_string s with
       | Some n => Ok (Z.of_int n)
       | None =>
           Raise (mk_exn "ValueError"
                    ("invalid literal for int() with base 10: '" ++ s ++ "'"))
       end;
     int_sqrt := fun n => Ok (Z.sqrt n);
     math_sqrt := fun _ => Raise (mk_exn "NotImplementedError" "math.sqrt");
     binary := fun operation _ _ => Raise (mk_exn "NotImplementedError" operation);
     statistic := fun operation _ => Raise (mk_exn "NotImplementedError" operation) |}.

Definition Example : Lib := with_operations ExampleLib ExampleNumeric.

(** 6.9 as a binary64 number; [int(6.9)] is 6. *)
Definition float_6_9 : spec_float :=
  SFdiv 53 1024 (float_of_int 69) (float_of_int 10).

(** *** Theorems about the other operations *)

Lemma main_other (L : Lib) (N : Numeric) (operation : string) (a b : pyval) :
  operation <> "divide" -> operation <> "factorial" ->
  main (with_operations L N) operation a b
  = try_except (other_operations L N operation a b)
      (fun e => [("error", PStr (exn_msg e)); ("operation", PStr operation)]).
Proof.
  intros Hd Hf. unfold main, main_body.
  apply String.eqb_neq in Hd, Hf. rewrite Hd, Hf. reflexivity.
Qed.

Lemma nth_fibonacci (i n : nat) :
  (i < n)%nat -> nth i (map fibonacci_number (seq 0 n)) 0%Z = fibonacci_number i.
Proof.
  intros Hi.
  rewrite (nth_indep _ 0%Z (fibonacci_number 0)) by (rewrite length_map, length_seq; lia).
  rewrite map_nth, seq_nth by lia. reflexivity.
Qed.

Lemma fib_append_sequence (k : nat) :
  fib_append (map fibonacci_number (seq 0 (S (S k))))
  = map fibonacci_number (seq 0 (S (S (S k)))).
Proof.
  unfold fib_append. rewrite length_map, length_seq.
  rewrite (seq_S (S (S k)) 0), map_app. f_equal.
  replace (S (S k) - 1)%nat with (S k) by lia.
  replace (S (S k) - 2)%nat with k by lia.
  rewrite !nth_fibonacci by lia. reflexivity.
Qed.

(** The loop of [fibonacci] builds the Fibonacci numbers in order. *)
Lemma fib_loop_sequence (k : nat) :
  Nat.iter k fib_append [0%Z; 1%Z] = map fibonacci_number (seq 0 (S (S k))).
Proof.
  induction k as [|k IH]; [reflexivity|].
  rewrite Nat.iter_succ, IH. apply fib_append_sequence.
Qed.

(** X1. For an operand whose integer value [n] is not negative, the
    fibonacci operation returns the first [n] Fibonacci numbers F(0), ...,
    F(n-1) in order with count = n; the key last (the number F(n-1)) is
    there only from n = 2 on.  A negative [n] gives the error mapping. *)
Theorem fibonacci_lists_the_sequence (L : Lib) (N : Numeric) (a b : pyval) (n : Z) :
  py_int N a = Ok n ->
  ((n < 0)%Z ->
   main (with_operations L N) "fibonacci" a b
   = Ok [("error", PStr "Fibonacci requires a non-negative integer")])
  /\ ((0 <= n)%Z ->
      exists d,
        main (with_operations L N) "fibonacci" a b = Ok d
        /\ dict_get d "result"
           = Some (PList (map PInt (map fibonacci_number (seq 0 (Z.to_nat n)))))
        /\ dict_get d "count" = Some (PInt n)
        /\ dict_get d "last"
           = if (n <? 2)%Z then None
             else Some (PInt (fibonacci_number (Z.to_nat n - 1)))).
Proof.
  intros Hn. rewrite main_other by discriminate.
  unfold other_operations. cbn [String.eqb Ascii.eqb Bool.eqb].
  unfold fibonacci. rewrite Hn. cbn [bind]. split.
  - intros Hneg. apply Z.ltb_lt in Hneg. rewrite Hneg. reflexivity.
  - intros Hpos. destruct (Z.ltb_spec n 0); [lia|].
    destruct (Z.eqb_spec n 0) as [->|H0].
    { eexists. repeat split. }
    destruct (Z.eqb_spec n 1) as [->|H1].
    { eexists. repeat split. }
    destruct (Z.ltb_spec n 2); [lia|].
    rewrite fib_loop_sequence.
    replace (S (S (Z.to_nat n - 2))) with (Z.to_nat n) by lia.
    eexists. split; [reflexivity|]. split; [reflexivity|]. split; [reflexivity|].
    cbn [dict_get String.eqb Ascii.eqb Bool.eqb]. do 2 f_equal.
    rewrite length_map, length_seq. apply nth_fibonacci. lia.
Qed.

Lemma fibonacci_lists_the_sequence_witness :
  main Example "fibonacci" (PInt (-1)) PNone
  = Ok [("error", PStr "Fibonacci requires a non-negative integer")]
  /\ exists d,
       main Example "fibonacci" (PStr "7") PNone = Ok d
       /\ dict_get d "result"
          = Some (PList (map PInt [0; 1; 1; 2; 3; 5; 8]%Z))
       /\ dict_get d "count" = Some (PInt 7)
       /\ dict_get d "last" = Some (PInt 8).
Proof.
  split.
  - apply (fibonacci_lists_the_sequence ExampleLib ExampleNumeric
             (PInt (-1)) PNone (-1)); [reflexivity | lia].
  - apply (fibonacci_lists_the_sequence ExampleLib ExampleNumeric
             (PStr "7") PNone 7); [reflexivity | lia].
Defined.




Example lcm_4_6 :
  main Example "lcm" (PInt 4) (PFloat float_6_9)
  = Ok [("result", PInt 12); ("operation", PStr "lcm(4, 6)")]
  /\ main Example "lcm" (PInt 0) (PInt 0)
     = Ok [("result", PInt 0); ("operation", PStr "lcm(0, 0)")]
  /\ main Example "lcm" (PInt 4) PNone
     = Ok [("error", PStr "LCM requires two operands")]
  /\ main Example "gcd" (PStr "six") (PInt 4)
     = Ok [("error", PStr "invalid literal for int() with base 10: 'six'");
           ("operation", PStr "gcd")].
Proof. repeat split. Qed.

Lemma in_range_from_2 (stop i : Z) :
  In i (range_from_2 stop) <-> (2 <= i < stop)%Z.
Proof.
  unfold range_from_2. rewrite in_map_iff. split.
  - intros [k [<- Hk]]. apply in_seq in Hk. lia.
  - intros Hi. exists (Z.to_nat i). split; [lia|]. apply in_seq. lia.
Qed.

Lemma find_first_from (f : Z -> bool) (count start : nat) (i : Z) :
  find f (map Z.of_nat (seq start count)) = Some i ->
  f i = true /\ forall j, (Z.of_nat start <= j < i)%Z -> f j = false.
Proof.
  revert start. induction count as [|count IH]; intros start; simpl; [discriminate|].
  destruct (f (Z.of_nat start)) eqn:Hstart.
  - intros [= <-]. split; [exact Hstart | lia].
  - intros Hfind. destruct (IH _ Hfind) as [Hi Hbefore]. split; [exact Hi|].
    intros j Hj. destruct (Z.eq_dec j (Z.of_nat start)) as [->|Hne]; [exact Hstart|].
    apply Hbefore. lia.
Qed.

Lemma no_divisor_up_to_root (n : Z) :
  (2 <= n)%Z ->
  (forall i, (2 <= i <= Z.sqrt n)%Z -> ~ (i | n)%Z) -> Z.prime n.
Proof.
  intros Hn Hnone. split; [lia|]. intros d Hd [q Hq].
  pose proof (Z.sqrt_spec n ltac:(lia)) as Hroot. cbv zeta in Hroot.
  assert (Hqpos : (1 < q < n)%Z) by nia.
  destruct (Z.le_gt_cases d (Z.sqrt n)) as [Hsmall|Hbig].
  - apply (Hnone d); [lia|]. exists q. exact Hq.
  - destruct (Z.le_gt_cases q (Z.sqrt n)) as [Hsmall'|Hbig'].
    + apply (Hnone q); [lia|]. exists d. lia.
    + nia.
Qed.

(** X3. For an operand with integer value [n]: below 2 the prime check
    answers False with the reason "Less than 2"; from 2 on, and where
    [int(math.sqrt(n))] is the integer square root of [n], it answers True
    exactly when [n] is prime, and otherwise False with the least divisor
    of [n] greater than 1 as the factor. *)
Theorem prime_check_decides_primality (L : Lib) (N : Numeric) (a b : pyval) (n : Z) :
  py_int N a = Ok n ->
  ((n < 2)%Z ->
   main (with_operations L N) "prime_check" a b
   = Ok [("result", PBool false); ("number", PInt n); ("reason", PStr "Less than 2")])
  /\ ((2 <= n)%Z -> int_sqrt N n = Ok (Z.sqrt n) ->
      (Z.prime n
       /\ main (with_operations L N) "prime_check" a b
          = Ok [("result", PBool true); ("number", PInt n)])
      \/ (exists i,
            main (with_operations L N) "prime_check" a b
            = Ok [("result", PBool false); ("number", PInt n); ("factor", PInt i)]
            /\ (1 < i < n)%Z /\ (i | n)%Z
            /\ (forall j, (1 < j < i)%Z -> ~ (j | n)%Z)
            /\ ~ Z.prime n)).
Proof.
  intros Hn. rewrite main_other by discriminate.
  unfold other_operations. cbn [String.eqb Ascii.eqb Bool.eqb].
  unfold prime_check. rewrite Hn. cbn [bind]. split.
  - intros Hsmall. apply Z.ltb_lt in Hsmall. rewrite Hsmall. reflexivity.
  - intros Hbig Hroot. destruct (Z.ltb_spec n 2); [lia|].
    rewrite Hroot. cbn [bind].
    pose proof (Z.sqrt_spec n ltac:(lia)) as Hspec. cbv zeta in Hspec.
    destruct (find _ (range_from_2 (Z.sqrt n + 1))) as [i|] eqn:Hfind.
    + right. exists i. split; [reflexivity|].
      pose proof (find_some _ _ Hfind) as [Hin Hdiv].
      apply in_range_from_2 in Hin. apply Z.eqb_eq in Hdiv.
      apply Z.mod_divide in Hdiv; [|lia].
      assert (Hi : (1 < i < n)%Z) by nia.
      split; [exact Hi|]. split; [exact Hdiv|]. split.
      * intros j Hj Hjn. unfold range_from_2 in Hfind.
        destruct (find_first_from _ _ _ _ Hfind) as [_ Hbefore].
        specialize (Hbefore j ltac:(simpl; lia)). apply Z.eqb_neq in Hbefore.
        apply Hbefore, Z.mod_divide; [lia | exact Hjn].
      * intros [_ Hprime]. exact (Hprime i Hi Hdiv).
    + left. split; [|reflexivity].
      apply no_divisor_up_to_root; [exact Hbig|].
      intros i Hi Hdiv.
      assert (Hin : In i (range_from_2 (Z.sqrt n + 1))) by (apply in_range_from_2; lia).
      pose proof (find_none _ _ Hfind i Hin) as Hno. apply Z.eqb_neq in Hno.
      apply Hno, Z.mod_divide; [lia | exact Hdiv].
Qed.

Lemma prime_check_decides_primality_witness :
  main Example "prime_check" (PInt 1) PNone
  = Ok [("result", PBool false); ("number", PInt 1); ("reason", PStr "Less than 2")]
  /\ ((Z.prime 91
       /\ main Example "prime_check" (PInt 91) PNone
          = Ok [("result", PBool true); ("number", PInt 91)])
      \/ (exists i,
            main Example "prime_check" (PInt 91) PNone
            = Ok [("result", PBool false); ("number", PInt 91); ("factor", PInt i)]
            /\ (1 < i < 91)%Z /\ (i | 91)%Z
            /\ (forall j, (1 < j < i)%Z -> ~ (j | 91)%Z)
            /\ ~ Z.prime 91)).
Proof.
  split.
  - apply (prime_check_decides_primality ExampleLib ExampleNumeric (PInt 1) PNone 1);
      [reflexivity | lia].
  - apply (prime_check_decides_primality ExampleLib ExampleNumeric (PInt 91) PNone 91);
      [reflexivity | lia | reflexivity].
Defined.

Example prime_check_examples :
  main Example "prime_check" (PInt 91) PNone
  = Ok [("result", PBool false); ("number", PInt 91); ("factor", PInt 7)]
  /\ main Example "prime_check" (PInt 97) PNone
     = Ok [("result", PBool true); ("number", PInt 97)].
Proof. split; reflexivity. Qed.

(** X4. The checks on the operands come before any arithmetic, whatever
    the other operand is: each of the seven operations on two operands
    returns its own error mapping when [b] is missing; sqrt returns the
    error mapping for a negative number; and each of the five statistics
    returns one error mapping for an operand that is not a list and
    another for a list that is too short (empty for mean, median and mode,
    fewer than 2 entries for variance and stddev). *)
Theorem operand_checks_come_first (L : Lib) (N : Numeric) (a : pyval) :
  (main (with_operations L N) "add" a PNone
   = Ok [("error", PStr "Addition requires two operands")]
   /\ main (with_operations L N) "subtract" a PNone
      = Ok [("error", PStr "Subtraction requires two operands")]
   /\ main (with_operations L N) "multiply" a PNone
      = Ok [("error", PStr "Multiplication requires two operands")]
   /\ main (with_operations L N) "divide" a PNone
      = Ok [("error", PStr "Division requires two operands")]
   /\ main (with_operations L N) "power" a PNone
      = Ok [("error", PStr "Power operation requires two operands")]
   /\ main (with_operations L N) "gcd" a PNone
      = Ok [("error", PStr "GCD requires two operands")]
   /\ main (with_operations L N) "lcm" a PNone
      = Ok [("error", PStr "LCM requires two operands")])
  /\ (forall b, lt_zero a = Ok true ->
        main (with_operations L N) "sqrt" a b
        = Ok [("error", PStr "Cannot calculate square root of negative number")])
  /\ (forall b, (forall l, a <> PList l) ->
        main (with_operations L N) "mean" a b
        = Ok [("error", PStr "Mean requires a list of numbers")]
        /\ main (with_operations L N) "median" a b
           = Ok [("error", PStr "Median requires a list of numbers")]
        /\ main (with_operations L N) "mode" a b
           = Ok [("error", PStr "Mode requires a list of numbers")]
        /\ main (with_operations L N) "variance" a b
           = Ok [("error", PStr "Variance requires a list of numbers")]
        /\ main (with_operations L N) "stddev" a b
           = Ok [("error", PStr "Standard deviation requires a list of numbers")])
  /\ (forall b l, a = PList l -> (List.length l < 2)%nat ->
        main (with_operations L N) "variance" a b
        = Ok [("error", PStr "Variance requires at least 2 numbers")]
        /\ main (with_operations L N) "stddev" a b
           = Ok [("error", PStr "Standard deviation requires at least 2 numbers")]
        /\ (l = [] ->
            main (with_operations L N) "mean" a b
            = Ok [("error", PStr "Cannot calculate mean of empty list")]
            /\ main (with_operations L N) "median" a b
               = Ok [("error", PStr "Cannot calculate median of empty list")]
            /\ main (with_operations L N) "mode" a b
               = Ok [("error", PStr "Cannot calculate mode of empty list")])).
Proof.
  split; [repeat split|]. split; [|split].
  - intros b Hneg. rewrite main_other by discriminate.
    unfold other_operations. cbn [String.eqb Ascii.eqb Bool.eqb].
    unfold sqrt_operation. rewrite Hneg. reflexivity.
  - intros b Hnot. repeat split; rewrite main_other by discriminate;
      unfold other_operations; cbn [String.eqb Ascii.eqb Bool.eqb];
      unfold list_operation; destruct a; try reflexivity; now elim (Hnot l).
  - intros b l -> Hshort.
    assert (Hlen : (len l <? 2)%Z = true) by (apply Z.ltb_lt; unfold len; lia).
    split; [|split].
    + rewrite main_other by discriminate.
      unfold other_operations. cbn [String.eqb Ascii.eqb Bool.eqb].
      unfold list_operation. rewrite Hlen. reflexivity.
    + rewrite main_other by discriminate.
      unfold other_operations. cbn [String.eqb Ascii.eqb Bool.eqb].
      unfold list_operation. rewrite Hlen. reflexivity.
    + intros ->. repeat split.
Qed.

Lemma operand_checks_come_first_witness :
  main Example "sqrt" (PInt (-4)) PNone
  = Ok [("error", PStr "Cannot calculate square root of negative number")]
  /\ main Example "median" (PStr "1, 2") PNone
     = Ok [("error", PStr "Median requires a list of numbers")]
  /\ main Example "variance" (PList [PInt 3]) PNone
     = Ok [("error", PStr "Variance requires at least 2 numbers")]
  /\ main Example "mode" (PList []) PNone
     = Ok [("error", PStr "Cannot calculate mode of empty list")].
Proof.
  split; [|split; [|split]].
  - apply (operand_checks_come_first ExampleLib ExampleNumeric (PInt (-4))).
    reflexivity.
  - apply (operand_checks_come_first ExampleLib ExampleNumeric (PStr "1, 2")).
    discriminate.
  - apply (operand_checks_come_first ExampleLib ExampleNumeric (PList [PInt 3]))
      with (l := [PInt 3]); [reflexivity | simpl; lia].
  - apply (operand_checks_come_first ExampleLib ExampleNumeric (PList []))
      with (l := []); [reflexivity | simpl; lia | reflexivity].
Defined.

(** X5. An operation name that is none of the sixteen gets the mapping
    with the message "Unknown operation: <name>" and, under available, the
    sixteen names in the order of the chain; no operand is looked at. *)
Theorem unknown_operation_lists_the_sixteen (L : Lib) (N : Numeric)
  (operation : string) (a b : pyval) :
  ~ In operation operations ->
  main (with_operations L N) operation a b
  = Ok [("error", PStr ("Unknown operation: " ++ operation));
        ("available",
         strs ["add"; "subtract"; "multiply"; "divide"; "power"; "sqrt";
               "factorial"; "gcd"; "lcm"; "mean"; "median"; "mode";
               "variance"; "stddev"; "prime_check"; "fibonacci"])].
Proof.
  intros Hno.
  assert (Hne : forall name, In name operations -> (operation =? name) = false).
  { intros name Hin. apply String.eqb_neq. intros ->. contradiction. }
  unfold main, main_body.
  rewrite (Hne "divide"), (Hne "factorial") by (simpl; tauto).
  cbn [other_operation with_operations]. unfold other_operations.
  rewrite (Hne "add"), (Hne "subtract"), (Hne "multiply"), (Hne "power"),
    (Hne "sqrt"), (Hne "gcd"), (Hne "lcm"), (Hne "mean"), (Hne "median"),
    (Hne "mode"), (Hne "variance"), (Hne "stddev"), (Hne "prime_check"),
    (Hne "fibonacci") by (simpl; tauto).
  reflexivity.
Qed.

Lemma unknown_operation_lists_the_sixteen_witness :
  main Example "frobnicate" (PInt 1) PNone
  = Ok [("error", PStr "Unknown operation: frobnicate");
        ("available",
         strs ["add"; "subtract"; "multiply"; "divide"; "power"; "sqrt";
               "factorial"; "gcd"; "lcm"; "mean"; "median"; "mode";
               "variance"; "stddev"; "prime_check"; "fibonacci"])].
Proof.
  apply (unknown_operation_lists_the_sixteen ExampleLib ExampleNumeric
           "frobnicate" (PInt 1) PNone).
  not_listed.
Defined.

End SimpleMath.

(** ** web_scraper.py *)

Module WebScraper.

(** *** [SimpleHTMLParser] *)

(** The calls [HTMLParser.feed] makes to the three handlers the class
    overrides, in order.  An attribute without a value has the value
    [None]; [<br/>] is a start tag followed by an end tag. *)
Inductive event : Type :=
| StartTag (tag : string) (attrs : list (string * option string))
| Data (data : string)
| EndTag (tag : string).

Inductive level : Type := H1 | H2 | H3 | H4 | H5 | H6.

Definition levels : list level := [H1; H2; H3; H4; H5; H6].

Definition level_name (l : level) : string :=
  match l with
  | H1 => "h1" | H2 => "h2" | H3 => "h3" | H4 => "h4" | H5 => "h5" | H6 => "h6"
  end.

(** The key of [self.headings] that [tag] is, if it is one. *)
Definition level_of_tag (tag : string) : option level :=
  find (fun l => String.eqb (level_name l) tag) levels.

Definition level_eqb (a b : level) : bool :=
  String.eqb (level_name a) (level_name b).

(** The attributes of the instance.  [headings] is the dict with the six
    keys h1 to h6 that [__init__] builds; no method adds or removes a key. *)
Record parser : Type := mk_parser {
  links : list dict;
  images : list dict;
  headings : level -> list string;
  paragraphs : list string;
  meta_tags : list dict;
  current_tag : option string;
  current_data : string
}.

(** [__init__]. *)
Definition new_parser : parser :=
  {| links := []; images := []; headings := fun _ => [];
     paragraphs := []; meta_tags := [];
     current_tag := None; current_data := "" |}.

Definition attr_value (v : option string) : pyval :=
  match v with
  | Some s => PStr s
  | None => PNone
  end.

(** [dict(attrs)]: a repeated name keeps its first place and its last
    value. *)
Definition dict_of_attrs (attrs : list (string * option string)) : dict :=
  fold_left (fun d kv => dict_set d (fst kv) (attr_value (snd kv))) attrs [].

Definition append_heading (h : level -> list string) (l : level) (text : string)
  : level -> list string :=
  fun l' => if level_eqb l l' then h l' ++ [text] else h l'.

Definition handle_starttag (p : parser) (tag : string)
  (attrs : list (string * option string)) : parser :=
  let attrs_dict := dict_of_attrs attrs in
  if (tag =? "a") && dict_mem attrs_dict "href" then
    {| links := links p ++
         [[("href", dict_get_default attrs_dict "href" PNone);
           ("title", dict_get_default attrs_dict "title" (PStr ""));
           ("rel", dict_get_default attrs_dict "rel" (PStr ""))]];
       images := images p; headings := headings p; paragraphs := paragraphs p;
       meta_tags := meta_tags p;
       current_tag := current_tag p; current_data := current_data p |}
  else if (tag =? "img") && dict_mem attrs_dict "src" then
    {| links := links p;
       images := images p ++
         [[("src", dict_get_default attrs_dict "src" PNone);
           ("alt", dict_get_default attrs_dict "alt" (PStr ""));
           ("title", dict_get_default attrs_dict "title" (PStr ""))]];
       headings := headings p; paragraphs := paragraphs p;
       meta_tags := meta_tags p;
       current_tag := current_tag p; current_data := current_data p |}
  else if tag =? "meta" then
    {| links := links p; images := images p; headings := headings p;
       paragraphs := paragraphs p;
       meta_tags := meta_tags p ++ [attrs_dict];
       current_tag := current_tag p; current_data := current_data p |}
  else
    match level_of_tag tag with
    | Some _ =>
        {| links := links p; images := images p; headings := headings p;
           paragraphs := paragraphs p; meta_tags := meta_tags p;
           current_tag := Some tag; current_data := "" |}
    | None =>
        if tag =? "p" then
          {| links := links p; images := images p; headings := headings p;
             paragraphs := paragraphs p; meta_tags := meta_tags p;
             current_tag := Some "p"; current_data := "" |}
        else p
    end.

(** [if self.current_tag:]. *)
Definition capturing (p : parser) : bool :=
  match current_tag p with
  | Some t => nonempty t
  | None => false
  end.

Definition handle_data (p : parser) (data : string) : parser :=
  if capturing p then
    {| links := links p; images := images p; headings := headings p;
       paragraphs := paragraphs p; meta_tags := meta_tags p;
       current_tag := current_tag p;
       current_data := current_data p ++ strip data |}
  else p.

(** [self.current_tag == tag and self.current_data]. *)
Definition closes_capture (p : parser) (tag : string) : bool :=
  match current_tag p with
  | Some t => (t =? tag) && nonempty (current_data p)
  | None => false
  end.

Definition handle_endtag (p : parser) (tag : string) : parser :=
  let recorded :=
    if closes_capture p tag then
      match level_of_tag tag with
      | Some l => (append_heading (headings p) l (current_data p), paragraphs p)
      | None =>
          if tag =? "p" then (headings p, paragraphs p ++ [current_data p])
          else (headings p, paragraphs p)
      end
    else (headings p, paragraphs p) in
  {| links := links p; images := images p;
     headings := fst recorded; paragraphs := snd recorded;
     meta_tags := meta_tags p;
     current_tag := None; current_data := "" |}.

Definition handle (p : parser) (e : event) : parser :=
  match e with
  | StartTag tag attrs => handle_starttag p tag attrs
  | Data data => handle_data p data
  | EndTag tag => handle_endtag p tag
  end.

(** The parser after [feed] has made the calls [events]. *)
Definition feed (p : parser) (events : list event) : parser :=
  fold_left handle events p.

(** *** The standard library, as the module uses it

    [html_events] is the sequence of handler calls of
    [HTMLParser.feed(content)]; [netloc url] is [urlparse(url).netloc];
    [search_title] is group 1 of the first match of the title pattern;
    the [findall_] functions are [re.findall] with the pattern of the
    extractor named; [list_of_set xs] is [list(set(xs))], whose order is
    the interpreter's.  A function that can raise returns a [result]. *)
Record Lib : Type := {
  html_events : string -> result (list event);
  urljoin : pyval -> pyval -> result pyval;
  netloc : pyval -> result string;
  search_title : string -> option string;
  findall_json_ld : string -> list string;
  json_loads : string -> result pyval;
  findall_email : string -> list string;
  findall_phone_us : string -> list string;
  findall_phone_international : string -> list string;
  findall_phone_simple : string -> list string;
  findall_url : string -> list string;
  list_of_set : list string -> list string
}.

Section Extractors.

Variable L : Lib.

(** *** [extract_links] *)

Record categories : Type := mk_categories {
  internal : list dict;
  external : list dict;
  anchors : list dict
}.

(** [link.get("absolute_href", link["href"])]: both arguments are
    evaluated. *)
Definition link_href (link : dict) : result pyval :=
  href <- dict_item link "href" ;;
  Ok (dict_get_default link "absolute_href" href).

(** [link["absolute_href"] = urljoin(base_url, link["href"])]. *)
Definition resolve (base_url : pyval) (link : dict) : result dict :=
  href <- dict_item link "href" ;;
  absolute <- urljoin L base_url href ;;
  Ok (dict_set link "absolute_href" absolute).

Definition same_domain (base_domain : string) (link : dict) : result bool :=
  href <- link_href link ;;
  domain <- netloc L href ;;
  Ok (domain =? base_domain).

(** One turn of the loop [for link in links:] that categorizes. *)
Definition categorize (base_url : pyval) (c : categories) (link : dict)
  : result categories :=
  href <- link_href link ;;
  is_anchor <- py_startswith href "#" ;;
  if is_anchor then
    Ok (mk_categories (internal c) (external c) (anchors c ++ [link]))
  else
    is_http <- py_startswith href "http://" ;;
    is_https <- (if is_http then Ok true else py_startswith href "https://") ;;
    if is_https then
      same <- (if truthy base_url then
                 domain <- netloc L href ;;
                 base_domain <- netloc L base_url ;;
                 Ok (domain =? base_domain)
               else Ok false) ;;
      if same then
        Ok (mk_categories (internal c ++ [link]) (external c) (anchors c))
      else
        Ok (mk_categories (internal c) (external c ++ [link]) (anchors c))
    else
      Ok (mk_categories (internal c ++ [link]) (external c) (anchors c)).

(** The links after the block [if base_url:]. *)
Definition resolved_links (p : parser) (options : dict) : result (list dict) :=
  let base_url := dict_get_default options "base_url" (PStr "") in
  let filter_external := dict_get_default options "filter_external" (PBool false) in
  if truthy base_url then
    links' <- mapM (resolve base_url) (links p) ;;
    if truthy filter_external then
      base_domain <- netloc L base_url ;;
      filterM (same_domain base_domain) links'
    else Ok links'
  else Ok (links p).

Definition links_result (links' : list dict) (c : categories) : dict :=
  [("success", PBool true);
   ("total_links", PInt (len links'));
   ("internal_links", dicts (take 20 (internal c)));
   ("external_links", dicts (take 20 (external c)));
   ("anchor_links", dicts (take 10 (anchors c)));
   ("stats", PDict [("internal_count", PInt (len (internal c)));
                    ("external_count", PInt (len (external c)));
                    ("anchor_count", PInt (len (anchors c)))])].

Definition extract_links (p : parser) (content : string) (options : dict)
  : result dict :=
  let base_url := dict_get_default options "base_url" (PStr "") in
  links' <- resolved_links p options ;;
  c <- foldM (categorize base_url) links' (mk_categories [] [] []) ;;
  Ok (links_result links' c).

(** *** [extract_text] *)

(** The loop over the levels h1 to h6 that collects the headings that are
    not empty. *)
Definition heading_texts (p : parser) : list string :=
  flat_map (fun l => filter nonempty (headings p l)) levels.

(** [{level: headings[:5] for level, headings in parser.headings.items()
    if headings}]. *)
Definition headings_summary (p : parser) : dict :=
  flat_map (fun l =>
              match headings p l with
              | [] => []
              | hs => [(level_name l, strs (take 5 hs))]
              end) levels.

Definition extract_text (p : parser) (content : string) (options : dict)
  : result dict :=
  let include_headings := dict_get_default options "include_headings" (PBool true) in
  let max_length := dict_get_default options "max_length" (PInt 5000) in
  let text_parts :=
    (if truthy include_headings then heading_texts p else []) ++ paragraphs p in
  let joined := strip (collapse_ws (join " " text_parts)) in
  too_long <- int_gt (str_len joined) max_length ;;
  full_text <- (if too_long : bool
                then cut <- py_slice_to joined max_length ;; Ok (cut ++ "...")%string
                else Ok joined) ;;
  let words := split_ws full_text in
  let sentences := re_split_sentences full_text in
  average <- average_word_length words ;;
  Ok [("success", PBool true);
      ("text", PStr full_text);
      ("stats", PDict [("character_count", PInt (str_len full_text));
                       ("word_count", PInt (len words));
                       ("sentence_count", PInt (len (nonblank sentences)));
                       ("average_word_length", average)]);
      ("headings_summary", PDict (headings_summary p))].

(** *** [extract_metadata] *)

Record metadata : Type := mk_metadata {
  md_title : pyval;
  md_description : pyval;
  md_keywords : pyval;
  md_author : pyval;
  md_viewport : pyval;
  md_charset : pyval;
  md_og_tags : dict;
  md_twitter_tags : dict;
  md_other : list dict
}.

Definition metadata_dict (m : metadata) : dict :=
  [("title", md_title m);
   ("description", md_description m);
   ("keywords", md_keywords m);
   ("author", md_author m);
   ("viewport", md_viewport m);
   ("charset", md_charset m);
   ("og_tags", PDict (md_og_tags m));
   ("twitter_tags", PDict (md_twitter_tags m));
   ("other", dicts (md_other m))].

(** One turn of the loop [for tag in meta_tags:]. *)
Definition classify_meta (m : metadata) (tag : dict) : result metadata :=
  name <- py_lower (dict_get_default tag "name" (PStr "")) ;;
  property_name <- py_lower (dict_get_default tag "property" (PStr "")) ;;
  let content_val := dict_get_default tag "content" (PStr "") in
  let charset := dict_get_default tag "charset" PNone in
  Ok (if name =? "description" then
        mk_metadata (md_title m) content_val (md_keywords m) (md_author m)
          (md_viewport m) (md_charset m) (md_og_tags m) (md_twitter_tags m) (md_other m)
      else if name =? "keywords" then
        mk_metadata (md_title m) (md_description m) content_val (md_author m)
          (md_viewport m) (md_charset m) (md_og_tags m) (md_twitter_tags m) (md_other m)
      else if name =? "author" then
        mk_metadata (md_title m) (md_description m) (md_keywords m) content_val
          (md_viewport m) (md_charset m) (md_og_tags m) (md_twitter_tags m) (md_other m)
      else if name =? "viewport" then
        mk_metadata (md_title m) (md_description m) (md_keywords m) (md_author m)
          content_val (md_charset m) (md_og_tags m) (md_twitter_tags m) (md_other m)
      else if truthy charset then
        mk_metadata (md_title m) (md_description m) (md_keywords m) (md_author m)
          (md_viewport m) charset (md_og_tags m) (md_twitter_tags m) (md_other m)
      else if String.prefix "og:" property_name then
        mk_metadata (md_title m) (md_description m) (md_keywords m) (md_author m)
          (md_viewport m) (md_charset m)
          (dict_set (md_og_tags m) property_name content_val)
          (md_twitter_tags m) (md_other m)
      else if String.prefix "twitter:" property_name then
        mk_metadata (md_title m) (md_description m) (md_keywords m) (md_author m)
          (md_viewport m) (md_charset m) (md_og_tags m)
          (dict_set (md_twitter_tags m) property_name content_val) (md_other m)
      else
        mk_metadata (md_title m) (md_description m) (md_keywords m) (md_author m)
          (md_viewport m) (md_charset m) (md_og_tags m) (md_twitter_tags m)
          (md_other m ++ [tag])).

Definition extract_metadata (p : parser) (content : string) (options : dict)
  : result dict :=
  let title :=
    match search_title L content with
    | Some inner => strip inner
    | None => ""
    end in
  let start :=
    mk_metadata (PStr title) (PStr "") (PStr "") (PStr "") (PStr "") (PStr "")
      [] [] [] in
  m <- foldM classify_meta (meta_tags p) start ;;
  Ok [("success", PBool true);
      ("metadata", PDict (metadata_dict m));
      ("total_meta_tags", PInt (len (meta_tags p)));
      ("has_og_tags", PBool (0 <? len (md_og_tags m))%Z);
      ("has_twitter_tags", PBool (0 <? len (md_twitter_tags m))%Z)].

(** *** [extract_structured] *)

(** One turn of [for match in json_ld_matches:]; the [except] clause
    catches [json.JSONDecodeError] and nothing else. *)
Definition parse_block (structured_data : list pyval) (block : string)
  : result (list pyval) :=
  match json_loads L (strip block) with
  | Ok data => Ok (structured_data ++ [data])
  | Raise e =>
      if exn_type e =? "JSONDecodeError" then Ok structured_data else Raise e
  end.

Definition outline_entry (l : level) (heading : string) : dict :=
  [("level", PStr (level_name l)); ("text", PStr heading)].

(** The loop that builds [outline]. *)
Definition outline (p : parser) : list dict :=
  flat_map (fun l => map (outline_entry l) (filter nonempty (headings p l))) levels.

(** [sum(1 for img in parser.images if img.get("alt"))]. *)
Definition images_with_alt (p : parser) : Z :=
  len (filter (fun img => truthy (dict_get_default img "alt" PNone)) (images p)).

Definition extract_structured (p : parser) (content : string) (options : dict)
  : result dict :=
  let json_ld_matches := findall_json_ld L content in
  structured_data <- foldM parse_block json_ld_matches [] ;;
  let itemscope_count := str_count content "itemscope" in
  Ok [("success", PBool true);
      ("json_ld", PList (take 5 structured_data));
      ("has_json_ld", PBool (0 <? len structured_data)%Z);
      ("microdata_indicators", PInt (Z.of_nat itemscope_count));
      ("document_outline", dicts (take 20 (outline p)));
      ("images_with_alt", PInt (images_with_alt p));
      ("total_images", PInt (len (images p)))].

(** *** The extractors that work on the raw content *)

Definition extract_emails (content : string) : result dict :=
  let emails := list_of_set L (findall_email L content) in
  Ok [("success", PBool true);
      ("emails", strs (take 20 emails));
      ("total_found", PInt (len emails))].

Definition extract_phone_numbers (content : string) : result dict :=
  let found :=
    findall_phone_us L content ++ findall_phone_international L content
      ++ findall_phone_simple L content in
  let phone_numbers := list_of_set L (map strip found) in
  Ok [("success", PBool true);
      ("phone_numbers", strs (take 20 phone_numbers));
      ("total_found", PInt (len phone_numbers))].

Definition count_domain (domains : list (string * Z)) (url : string)
  : result (list (string * Z)) :=
  domain <- netloc L (PStr url) ;;
  Ok (if nonempty domain then count_up domains domain else domains).

Definition counts (items : list (string * Z)) : dict :=
  map (fun kv => (fst kv, PInt (snd kv))) items.

Definition extract_urls (content : string) : result dict :=
  let urls := list_of_set L (findall_url L content) in
  domains <- foldM count_domain urls [] ;;
  Ok [("success", PBool true);
      ("urls", strs (take 30 urls));
      ("total_found", PInt (len urls));
      ("unique_domains", strs (take 20 (map fst domains)));
      ("domain_frequency", PDict (counts (take 10 (sorted_by_count domains))))].

(** *** [main] *)

Definition extraction_types : list string :=
  ["all"; "links"; "text"; "metadata"; "structured";
   "emails"; "phone_numbers"; "urls"].

(** [parser.headings] as a value. *)
Definition headings_dict (p : parser) : dict :=
  map (fun l => (level_name l, strs (headings p l))) levels.

(** [sum(len(h) for h in parser.headings.values())]. *)
Definition total_headings (p : parser) : Z :=
  fold_right (fun l n => (len (headings p l) + n)%Z) 0%Z levels.

(** The mapping of the branch [elif extract_type == "all":]. *)
Definition all_result (p : parser) : dict :=
  [("success", PBool true);
   ("links", dicts (links p));
   ("images", dicts (images p));
   ("headings", PDict (headings_dict p));
   ("paragraphs", strs (take 10 (paragraphs p)));
   ("meta_tags", dicts (meta_tags p));
   ("stats", PDict [("total_links", PInt (len (links p)));
                    ("total_images", PInt (len (images p)));
                    ("total_headings", PInt (total_headings p));
                    ("total_paragraphs", PInt (len (paragraphs p)))])].

Definition unknown_type_result (extract_type : string) : dict :=
  [("error", PStr ("Unknown extraction type: " ++ extract_type));
   ("available_types", strs extraction_types)].

(** The body of [try:] in [main]. *)
Definition main_body (content extract_type : string) (options : dict)
  : result dict :=
  events <- html_events L content ;;
  let p := feed new_parser events in
  if extract_type =? "links" then extract_links p content options
  else if extract_type =? "text" then extract_text p content options
  else if extract_type =? "metadata" then extract_metadata p content options
  else if extract_type =? "structured" then extract_structured p content options
  else if extract_type =? "emails" then extract_emails content
  else if extract_type =? "phone_numbers" then extract_phone_numbers content
  else if extract_type =? "urls" then extract_urls content
  else if extract_type =? "all" then Ok (all_result p)
  else Ok (unknown_type_result extract_type).

(** The mapping of [except Exception as e:]. *)
Definition exception_result (extract_type : string) (e : exn) : dict :=
  [("error", PStr (exn_msg e)); ("extract_type", PStr extract_type)].

(** [main(content, extract_type="all", options=None)]. *)
Definition main (content extract_type : string) (options : option dict)
  : result dict :=
  let options := match options with Some o => o | None => [] end in
  try_except (main_body content extract_type options)
    (exception_result extract_type).

End Extractors.

(** *** The scan, heading by heading *)






(** What the two lists that [handle_endtag] appends to hold. *)
Definition same_captures (p q : parser) : Prop :=
  headings q = headings p /\ paragraphs q = paragraphs p.

(** *** Theorems about the scanner *)

Lemma level_eqb_eq (a b : level) : level_eqb a b = true <-> a = b.
Proof.
  split.
  - destruct a, b; intros H; try reflexivity; discriminate H.
  - intros ->. destruct b; reflexivity.
Qed.

Lemma level_eqb_refl (a : level) : level_eqb a a = true.
Proof. apply level_eqb_eq. reflexivity. Qed.

Lemma handle_starttag_headings (p : parser) (tag : string) attrs :
  headings (handle_starttag p tag attrs) = headings p.
Proof.
  unfold handle_starttag.
  destruct ((tag =? "a") && _); [reflexivity|].
  destruct ((tag =? "img") && _); [reflexivity|].
  destruct (tag =? "meta"); [reflexivity|].
  destruct (level_of_tag tag); [reflexivity|].
  destruct (tag =? "p"); reflexivity.
Qed.

Lemma handle_data_headings (p : parser) (data : string) :
  headings (handle_data p data) = headings p.
Proof. unfold handle_data. destruct (capturing p); reflexivity. Qed.








Lemma feed_app (p : parser) (a b : list event) :
  feed p (a ++ b) = feed (feed p a) b.
Proof. apply fold_left_app. Qed.

Lemma feed_data_idle (texts : list string) (p : parser) :
  current_tag p = None -> feed p (map Data texts) = p.
Proof.
  intros Hidle. induction texts as [|t rest IH]; [reflexivity|].
  simpl. unfold handle_data, capturing. rewrite Hidle. exact IH.
Qed.

Lemma closes_capture_other (p : parser) (tag : string) :
  current_tag p <> Some tag -> closes_capture p tag = false.
Proof.
  unfold closes_capture. destruct (current_tag p) as [t|]; [|reflexivity].
  intros Hne. destruct (String.eqb_spec t tag) as [->|_]; [|reflexivity].
  now contradiction Hne.
Qed.

Lemma handle_endtag_other (p : parser) (tag : string) :
  current_tag p <> Some tag -> same_captures p (handle_endtag p tag).
Proof.
  intros Hne. unfold same_captures, handle_endtag.
  rewrite (closes_capture_other p tag Hne). split; reflexivity.
Qed.

Lemma handle_endtag_idle (p : parser) (tag : string) :
  current_tag p = None -> handle_endtag p tag
  = mk_parser (links p) (images p) (headings p) (paragraphs p) (meta_tags p) None "".
Proof.
  intros Hidle. unfold handle_endtag, closes_capture. rewrite Hidle. reflexivity.
Qed.

(** C9. Every closing tag, whether or not it is the tag being captured,
    leaves the scanner with [current_tag = None] and [current_data = ""].
    A closing tag other than the one being captured appends nothing to
    the headings and the paragraphs.  After a closing tag the text that
    follows is not captured, and the next closing tag records nothing: the
    scanner is unchanged by them.  Hence a capture of [t] that a closing
    tag [tag <> t] interrupts is dropped entirely, text behind the nested
    element included. *)
Theorem endtag_always_resets (p : parser) (tag : string) :
  (current_tag (handle_endtag p tag) = None
   /\ current_data (handle_endtag p tag) = "")
  /\ (current_tag p <> Some tag -> same_captures p (handle_endtag p tag))
  /\ (forall texts tag',
        feed (handle_endtag p tag) (map Data texts ++ [EndTag tag'])
        = handle_endtag p tag)
  /\ (forall t texts,
        current_tag p = Some t -> t <> tag ->
        same_captures p (feed p (EndTag tag :: map Data texts ++ [EndTag t]))).
Proof.
  assert (Hrest : forall texts tag',
             feed (handle_endtag p tag) (map Data texts ++ [EndTag tag'])
             = handle_endtag p tag).
  { intros texts tag'. rewrite feed_app, feed_data_idle by reflexivity.
    simpl. rewrite handle_endtag_idle by reflexivity. reflexivity. }
  split; [split; reflexivity|]. split; [apply handle_endtag_other|].
  split; [exact Hrest|].
  intros t texts Ht Hne.
  change (feed p (EndTag tag :: map Data texts ++ [EndTag t]))
    with (feed (handle_endtag p tag) (map Data texts ++ [EndTag t])).
  rewrite Hrest. apply handle_endtag_other. rewrite Ht. congruence.
Qed.

(** The scanner inside [<p>Hello <b>world], before [</b>]. *)
Definition inside_bold : parser :=
  feed new_parser
    [StartTag "p" []; Data "Hello "; StartTag "b" []; Data "world"].

Example inside_bold_state :
  current_tag inside_bold = Some "p" /\ current_data inside_bold = "Helloworld".
Proof. split; reflexivity. Qed.

Lemma endtag_always_resets_witness :
  same_captures inside_bold (handle_endtag inside_bold "b")
  /\ same_captures inside_bold
       (feed inside_bold (EndTag "b" :: map Data [" again"] ++ [EndTag "p"]))
  /\ paragraphs (feed inside_bold [EndTag "b"; Data " again"; EndTag "p"]) = [].
Proof.
  split; [|split].
  - apply (endtag_always_resets inside_bold "b"). discriminate.
  - apply (endtag_always_resets inside_bold "b") with (t := "p").
    + reflexivity.
    + discriminate.
  - reflexivity.
Defined.

(** A closing tag that matches records the text captured so far. *)
Example matching_endtag_records :
  paragraphs (feed new_parser [StartTag "p" []; Data " Hello "; Data "you"; EndTag "p"])
  = ["Helloyou"].
Proof. reflexivity. Qed.

(** *** Theorems about [extract_links] *)

Inductive category : Type := Internal | External | Anchor.

(** Where [link] goes. *)
Definition place (c : categories) (k : category) (link : dict) : categories :=
  match k with
  | Internal => mk_categories (internal c ++ [link]) (external c) (anchors c)
  | External => mk_categories (internal c) (external c ++ [link]) (anchors c)
  | Anchor => mk_categories (internal c) (external c) (anchors c ++ [link])
  end.

(** The category the loop body chooses; it does not depend on the lists
    built so far. *)
Definition category_of (L : Lib) (base_url : pyval) (link : dict) : result category :=
  href <- link_href link ;;
  is_anchor <- py_startswith href "#" ;;
  if is_anchor then Ok Anchor
  else
    is_http <- py_startswith href "http://" ;;
    is_https <- (if is_http then Ok true else py_startswith href "https://") ;;
    if is_https then
      same <- (if truthy base_url then
                 domain <- netloc L href ;;
                 base_domain <- netloc L base_url ;;
                 Ok (domain =? base_domain)
               else Ok false) ;;
      Ok (if same then Internal else External)
    else Ok Internal.

Definition category_eqb (a b : category) : bool :=
  match a, b with
  | Internal, Internal | External, External | Anchor, Anchor => true
  | _, _ => false
  end.

(** The loop body chooses the category [k] for [link]. *)
Definition in_category (L : Lib) (base_url : pyval) (k : category) (link : dict)
  : bool :=
  match category_of L base_url link with
  | Ok k' => category_eqb k k'
  | Raise _ => false
  end.


Lemma categorize_place (L : Lib) (base_url : pyval) (c : categories) (link : dict) :
  categorize L base_url c link
  = (k <- category_of L base_url link ;; Ok (place c k link)).
Proof.
  unfold categorize, category_of.
  destruct (link_href link) as [href|e]; [|reflexivity]. simpl.
  destruct (py_startswith href "#") as [[|]|e]; try reflexivity. simpl.
  destruct (py_startswith href "http://") as [[|]|e]; try reflexivity; simpl.
  - destruct (truthy base_url); simpl; [|reflexivity].
    destruct (netloc L href) as [d|e]; [|reflexivity]. simpl.
    destruct (netloc L base_url) as [b|e]; [|reflexivity]. simpl.
    destruct (d =? b); reflexivity.
  - destruct (py_startswith href "https://") as [[|]|e]; try reflexivity; simpl.
    destruct (truthy base_url); simpl; [|reflexivity].
    destruct (netloc L href) as [d|e]; [|reflexivity]. simpl.
    destruct (netloc L base_url) as [b|e]; [|reflexivity]. simpl.
    destruct (d =? b); reflexivity.
Qed.

Definition total (c : categories) : nat :=
  List.length (internal c) + List.length (external c) + List.length (anchors c).

Lemma place_total (c : categories) (k : category) (link : dict) :
  total (place c k link) = S (total c).
Proof.
  unfold total. destruct k; simpl; rewrite length_app; simpl; lia.
Qed.

(** Every link lands in exactly one of the three lists. *)
Lemma categorize_all_total (L : Lib) (base_url : pyval) (links' : list dict) :
  forall c c', foldM (categorize L base_url) links' c = Ok c' ->
               total c' = List.length links' + total c.
Proof.
  induction links' as [|link rest IH]; intros c c'; simpl.
  - intros [= <-]. reflexivity.
  - rewrite categorize_place.
    destruct (category_of L base_url link) as [k|e]; [|discriminate]. simpl.
    intros H. rewrite (IH _ _ H), place_total. lia.
Qed.

Lemma dict_get_set_same (d : dict) (k : string) (v : pyval) :
  dict_get (dict_set d k v) k = Some v.
Proof.
  induction d as [|[k' v'] d IH]; simpl.
  - now rewrite String.eqb_refl.
  - destruct (k' =? k) eqn:E; simpl; now rewrite E.
Qed.

Lemma dict_get_set_other (d : dict) (k k' : string) (v : pyval) :
  k <> k' -> dict_get (dict_set d k v) k' = dict_get d k'.
Proof.
  intros Hne. induction d as [|[k0 v0] d IH]; simpl.
  - destruct (String.eqb_spec k k'); [contradiction|reflexivity].
  - destruct (String.eqb_spec k0 k) as [->|_]; simpl.
    + destruct (String.eqb_spec k k'); [contradiction|reflexivity].
    + now rewrite IH.
Qed.



Definition members (k : category) (c : categories) : list dict :=
  match k with
  | Internal => internal c
  | External => external c
  | Anchor => anchors c
  end.

Lemma members_place (k k' : category) (c : categories) (link x : dict) :
  In x (members k' (place c k link))
  <-> In x (members k' c) \/ (x = link /\ k = k').
Proof.
  destruct k, k'; simpl; rewrite ?in_app_iff; simpl;
    intuition (try discriminate; auto).
Qed.

(** A link is in a category exactly when the loop body chose that
    category for it. *)
Lemma categorize_all_members (L : Lib) (base_url : pyval) (links' : list dict) :
  forall c c', foldM (categorize L base_url) links' c = Ok c' ->
  forall k x,
    In x (members k c')
    <-> In x (members k c) \/ (In x links' /\ category_of L base_url x = Ok k).
Proof.
  induction links' as [|link rest IH]; intros c c'; simpl.
  - intros [= <-] k x. intuition.
  - rewrite categorize_place.
    destruct (category_of L base_url link) as [k0|e] eqn:Hk; [|discriminate].
    cbn [bind]. intros H k x. rewrite (IH _ _ H k x), members_place.
    split.
    + intros [[Hin | [-> <-]] | [Hin Hc]]; auto.
    + intros [Hin | [[<- | Hin] Hc]]; auto.
      left. right. split; [reflexivity|]. congruence.
Qed.

(** Each category is the sublist of the links chosen for it, in the order
    of the links. *)
Lemma categorize_all_filter (L : Lib) (base_url : pyval) (links' : list dict) :
  forall c c', foldM (categorize L base_url) links' c = Ok c' ->
  forall k, members k c' = members k c ++ filter (in_category L base_url k) links'.
Proof.
  induction links' as [|link rest IH]; intros c c'; simpl.
  - intros [= <-] k. now rewrite app_nil_r.
  - rewrite categorize_place. unfold in_category at 1.
    destruct (category_of L base_url link) as [k0|e]; [|discriminate].
    cbn [bind]. intros H k. rewrite (IH _ _ H k).
    destruct k, k0; simpl; rewrite <- ?app_assoc; reflexivity.
Qed.


Lemma mapM_In {A B : Type} (f : A -> result B) (xs : list A) (ys : list B) (x : A) :
  mapM f xs = Ok ys -> In x xs -> exists y, f x = Ok y /\ In y ys.
Proof.
  revert ys. induction xs as [|a xs IH]; intros ys; simpl; [intros _ []|].
  destruct (f a) as [b|e] eqn:Hb; [|discriminate]. cbn [bind].
  destruct (mapM f xs) as [bs|e]; [|discriminate]. cbn [bind].
  intros [= <-] [<- | Hin].
  - exists b. split; [exact Hb | now left].
  - destruct (IH bs eq_refl Hin) as [y [Hy Hin']]. exists y. split; [exact Hy | now right].
Qed.

Lemma filterM_In {A : Type} (f : A -> result bool) (xs ys : list A) (x : A) :
  filterM f xs = Ok ys -> In x xs -> f x = Ok true -> In x ys.
Proof.
  revert ys. induction xs as [|a xs IH]; intros ys; simpl; [intros _ []|].
  destruct (f a) as [b|e] eqn:Hb; [|discriminate]. cbn [bind].
  destruct (filterM f xs) as [bs|e]; [|discriminate]. cbn [bind].
  intros [= <-] [<- | Hin] Hx.
  - rewrite Hx in Hb. injection Hb as <-. now left.
  - specialize (IH bs eq_refl Hin Hx). destruct b; [now right | exact IH].
Qed.

(** C4. With base_url "http://x.com", a link of the content whose href is
    "/foo" gets the absolute_href "http://x.com/foo" and is put in the
    internal category, not in the external and not in the anchor one
    (given what [urljoin] and [urlparse] return on these two URLs); the
    mapping returns the first entries of each category. *)
Theorem relative_link_is_internal (L : Lib) (p : parser) (content : string)
  (options : dict) (link : dict) (d : dict) :
  dict_get options "base_url" = Some (PStr "http://x.com") ->
  urljoin L (PStr "http://x.com") (PStr "/foo") = Ok (PStr "http://x.com/foo") ->
  netloc L (PStr "http://x.com/foo") = Ok "x.com" ->
  netloc L (PStr "http://x.com") = Ok "x.com" ->
  In link (links p) ->
  dict_get link "href" = Some (PStr "/foo") ->
  extract_links L p content options = Ok d ->
  exists c,
    dict_get d "internal_links" = Some (dicts (firstn 20 (internal c)))
    /\ dict_get d "external_links" = Some (dicts (firstn 20 (external c)))
    /\ dict_get d "anchor_links" = Some (dicts (firstn 10 (anchors c)))
    /\ In (dict_set link "absolute_href" (PStr "http://x.com/foo")) (internal c)
    /\ ~ In (dict_set link "absolute_href" (PStr "http://x.com/foo")) (external c)
    /\ ~ In (dict_set link "absolute_href" (PStr "http://x.com/foo")) (anchors c)
    /\ dict_get (dict_set link "absolute_href" (PStr "http://x.com/foo"))
         "absolute_href" = Some (PStr "http://x.com/foo").
Proof.
  intros Hbase Hjoin Hfoo Hx Hin Hhref.
  set (link' := dict_set link "absolute_href" (PStr "http://x.com/foo")).
  assert (Hhref' : link_href link' = Ok (PStr "http://x.com/foo")).
  { unfold link_href, dict_item, dict_get_default, link'.
    rewrite dict_get_set_other by discriminate.
    rewrite Hhref, dict_get_set_same. reflexivity. }
  assert (Hcat : category_of L (PStr "http://x.com") link' = Ok Internal).
  { unfold category_of. rewrite Hhref'. cbn. rewrite Hfoo, Hx. reflexivity. }
  unfold extract_links, resolved_links, dict_get_default. rewrite Hbase.
  cbn [truthy String.eqb Ascii.eqb Bool.eqb negb].
  destruct (mapM _ (links p)) as [resolved|e] eqn:Hmap; [|discriminate].
  cbn [bind].
  destruct (mapM_In _ _ _ _ Hmap Hin) as [y [Hy Hin']].
  unfold resolve, dict_item in Hy. rewrite Hhref in Hy. cbn [bind] in Hy.
  rewrite Hjoin in Hy. cbn [bind] in Hy. injection Hy as <-. fold link' in Hin'.
  assert (Hkept : forall links',
             (if truthy match dict_get options "filter_external" with
                        | Some v => v
                        | None => PBool false
                        end
              then base_domain <- netloc L (PStr "http://x.com") ;;
                   filterM (same_domain L base_domain) resolved
              else Ok resolved) = Ok links' -> In link' links').
  { intros links'. destruct (truthy _).
    - rewrite Hx. cbn [bind]. intros Hf. apply (filterM_In _ _ _ _ Hf Hin').
      unfold same_domain. rewrite Hhref'. cbn [bind]. rewrite Hfoo. reflexivity.
    - now intros [= <-]. }
  destruct (if truthy _ then _ else _) as [links'|e]; [|discriminate].
  specialize (Hkept links' eq_refl). cbn [bind].
  destruct (foldM _ links' _) as [c|e] eqn:Hc; [|discriminate]. cbn [bind].
  intros [= <-]. exists c.
  pose proof (categorize_all_members L _ links' _ _ Hc) as Hmem.
  repeat (split; [reflexivity|]).
  split; [apply (Hmem Internal); right; split; assumption|].
  split; [|split].
  - intros Hext. apply (Hmem External) in Hext.
    destruct Hext as [[] | [_ Hk]]. congruence.
  - intros Hanc. apply (Hmem Anchor) in Hanc.
    destruct Hanc as [[] | [_ Hk]]. congruence.
  - apply dict_get_set_same.
Qed.

(** *** Theorems about [extract_structured] *)








(** *** Theorems about [main] *)



Lemma unknown_type_falls_through (t : string) :
  ~ In t extraction_types ->
  (t =? "links") = false /\ (t =? "text") = false /\ (t =? "metadata") = false
  /\ (t =? "structured") = false /\ (t =? "emails") = false
  /\ (t =? "phone_numbers") = false /\ (t =? "urls") = false
  /\ (t =? "all") = false.
Proof.
  intros Hno. repeat split; apply String.eqb_neq; intros ->; apply Hno;
    simpl; tauto.
Qed.

(** C1, as the code has it. For every content, extraction type and options
    [main] returns a mapping and raises nothing.  It returns what the
    extraction returns; when the content was scanned and the type is none
    of the eight, that is the mapping with the error message and the list
    of the eight types; when the scan or the extraction raises an
    exception [e], it is [{error: str(e), extract_type: <the type>}]. *)
Theorem main_never_raises (L : Lib) (content extract_type : string)
  (options : option dict) :
  (exists d, main L content extract_type options = Ok d)
  /\ (forall d,
        main_body L content extract_type
          match options with Some o => o | None => [] end = Ok d ->
        main L content extract_type options = Ok d)
  /\ (forall events,
        html_events L content = Ok events ->
        ~ In extract_type extraction_types ->
        main L content extract_type options
        = Ok [("error", PStr ("Unknown extraction type: " ++ extract_type));
              ("available_types",
               strs ["all"; "links"; "text"; "metadata"; "structured";
                     "emails"; "phone_numbers"; "urls"])])
  /\ (forall e,
        main_body L content extract_type
          match options with Some o => o | None => [] end = Raise e ->
        main L content extract_type options
        = Ok [("error", PStr (exn_msg e)); ("extract_type", PStr extract_type)]).
Proof.
  unfold main. split; [|split; [|split]].
  - destruct (main_body _ _ _ _); eexists; reflexivity.
  - intros d ->. reflexivity.
  - intros events Hscan Hno. unfold main_body. rewrite Hscan. cbn [bind].
    destruct (unknown_type_falls_through _ Hno)
      as (-> & -> & -> & -> & -> & -> & -> & ->).
    reflexivity.
  - intros e ->. reflexivity.
Qed.

(** *** The standard library on the inputs of the worked examples

    A small reference for the closed examples below: tags with plain names
    and quoted attribute values; URLs that are absolute, or an absolute
    path, or a fragment; JSON without floats and escapes.  The contents of
    the examples hold no e-mail address, phone number or URL. *)

Definition quote : ascii := ascii_of_nat 34.
Definition apostrophe : ascii := ascii_of_nat 39.

Definition after (n : nat) (s : string) : string :=
  String.substring n (String.length s - n) s.

Fixpoint take_until (stop : ascii -> bool) (s : string) : string :=
  match s with
  | EmptyString => EmptyString
  | String c s' => if stop c then EmptyString else String c (take_until stop s')
  end.

Definition is_quote (c : ascii) : bool := ((c =? quote) || (c =? apostrophe))%char.

Definition unquote (s : string) : string :=
  match s with
  | String c s' => if is_quote c then take_until is_quote s' else s
  | EmptyString => EmptyString
  end.

Definition example_attr (word : string) : string * option string :=
  match String.index 0 "=" word with
  | Some i => (lower (String.substring 0 i word), Some (unquote (after (i + 1) word)))
  | None => (lower word, None)
  end.

Definition example_tag (inside : string) : list event :=
  match inside with
  | String "/" name => [EndTag (lower (strip name))]
  | _ =>
      match split_ws inside with
      | [] => []
      | name :: attrs => [StartTag (lower name) (map example_attr attrs)]
      end
  end.

Fixpoint example_tokens (fuel : nat) (s : string) : list event :=
  match fuel with
  | O => []
  | S fuel' =>
      match s with
      | EmptyString => []
      | String "<" rest =>
          match String.index 0 ">" rest with
          | Some i =>
              example_tag (String.substring 0 i rest)
                ++ example_tokens fuel' (after (i + 1) rest)
          | None => []
          end
      | _ =>
          match String.index 0 "<" s with
          | Some i => Data (String.substring 0 i s) :: example_tokens fuel' (after i s)
          | None => [Data s]
          end
      end
  end.

Definition example_events (content : string) : result (list event) :=
  Ok (example_tokens (String.length content) content).

Definition not_covered {A : Type} (what : string) : result A :=
  Raise (mk_exn "NotImplementedError" what).

Definition is_scheme_char (c : ascii) : bool :=
  let n := nat_of_ascii c in
  (((97 <=? n) && (n <=? 122)) || ((65 <=? n) && (n <=? 90))
   || ((48 <=? n) && (n <=? 57)))%nat
  || (c =? "+")%char || (c =? "-")%char || (c =? ".")%char.

Fixpoint all_chars (f : ascii -> bool) (s : string) : bool :=
  match s with
  | EmptyString => true
  | String c s' => f c && all_chars f s'
  end.

(** The scheme of [url] and what follows its colon. *)
Definition split_scheme (url : string) : string * string :=
  match String.index 0 ":" url with
  | Some (S i) =>
      let scheme := String.substring 0 (S i) url in
      if all_chars is_scheme_char scheme then (lower scheme, after (S (S i)) url)
      else ("", url)
  | _ => ("", url)
  end.

Definition ends_netloc (c : ascii) : bool :=
  ((c =? "/") || (c =? "?") || (c =? "#"))%char.

Definition example_netloc (url : pyval) : result string :=
  match url with
  | PStr s =>
      let rest := snd (split_scheme s) in
      Ok (if String.prefix "//" rest then take_until ends_netloc (after 2 rest) else "")
  | _ => Raise (attribute_error url "decode")
  end.

Definition example_urljoin (base url : pyval) : result pyval :=
  if negb (truthy base) then Ok url
  else if negb (truthy url) then Ok base
  else
    match base, url with
    | PStr b, PStr u =>
        if nonempty (fst (split_scheme u)) then Ok url
        else if String.prefix "//" u then not_covered "urljoin"
        else if String.prefix "/" u then
          match example_netloc base with
          | Ok host => Ok (PStr (fst (split_scheme b) ++ "://" ++ host ++ u))
          | Raise e => Raise e
          end
        else if String.prefix "#" u then Ok (PStr (take_until (Ascii.eqb "#") b ++ u))
        else not_covered "urljoin"
    | _, _ => Raise (mk_exn "TypeError" "Cannot mix str and non-str arguments")
    end.

Definition example_search_title (content : string) : option string :=
  match String.index 0 "<title>" (lower content) with
  | Some i =>
      let rest := after (i + 7) content in
      match String.index 0 "</title>" (lower rest) with
      | Some j => Some (String.substring 0 j rest)
      | None => None
      end
  | None => None
  end.

Definition json_ld_type (open close : ascii) : string :=
  "type=" ++ String open ("application/ld+json" ++ String close "").

Definition has_json_ld_type (attrs : string) : bool :=
  contains (json_ld_type quote quote) attrs
  || contains (json_ld_type quote apostrophe) attrs
  || contains (json_ld_type apostrophe quote) attrs
  || contains (json_ld_type apostrophe apostrophe) attrs.

Fixpoint example_json_ld_blocks (fuel : nat) (s : string) : list string :=
  match fuel with
  | O => []
  | S fuel' =>
      match String.index 0 "<script" (lower s) with
      | None => []
      | Some i =>
          let rest := after (i + 7) s in
          match String.index 0 ">" rest with
          | None => []
          | Some j =>
              if has_json_ld_type (lower (String.substring 0 j rest)) then
                let body := after (j + 1) rest in
                match String.index 0 "</script>" (lower body) with
                | Some k =>
                    String.substring 0 k body
                      :: example_json_ld_blocks fuel' (after (k + 9) body)
                | None => []
                end
              else example_json_ld_blocks fuel' (after (i + 1) s)
          end
      end
  end.

Definition is_json_space (c : ascii) : bool :=
  let n := nat_of_ascii c in ((n =? 32) || (n =? 9) || (n =? 10) || (n =? 13))%nat.

Fixpoint skip_spaces (s : string) : string :=
  match s with
  | String c s' => if is_json_space c then skip_spaces s' else s
  | EmptyString => EmptyString
  end.

(** The value of the digits that start [s], after [acc], and the rest. *)
Fixpoint digits (acc : Z) (s : string) : Z * string :=
  match s with
  | String c s' =>
      if is_digit c then digits (10 * acc + Z.of_nat (nat_of_ascii c - 48))%Z s'
      else (acc, s)
  | EmptyString => (acc, s)
  end.

Definition json_int (s : string) : option (pyval * string) :=
  match s with
  | String "-" (String c _ as s') =>
      if is_digit c then let (n, rest) := digits 0 s' in Some (PInt (- n), rest)
      else None
  | String c _ =>
      if is_digit c then let (n, rest) := digits 0 s in Some (PInt n, rest)
      else None
  | EmptyString => None
  end.

(** A string without escapes, behind its opening quote. *)
Definition json_string (s : string) : option (string * string) :=
  let body := take_until (fun c => (c =? quote)%char || (c =? "\")%char) s in
  match after (String.length body) s with
  | String c rest => if (c =? quote)%char then Some (body, rest) else None
  | EmptyString => None
  end.

Definition json_word (word : string) (v : pyval) (s : string)
  : option (pyval * string) :=
  if String.prefix word s then Some (v, after (String.length word) s) else None.

Fixpoint json_value (fuel : nat) (s : string) : option (pyval * string) :=
  match fuel with
  | O => None
  | S fuel' =>
      match skip_spaces s with
      | String "n" _ as w => json_word "null" PNone w
      | String "t" _ as w => json_word "true" (PBool true) w
      | String "f" _ as w => json_word "false" (PBool false) w
      | String "[" rest =>
          match skip_spaces rest with
          | String "]" rest' => Some (PList [], rest')
          | _ =>
              match json_elements fuel' rest with
              | Some (l, rest') => Some (PList l, rest')
              | None => None
              end
          end
      | String "{" rest =>
          match skip_spaces rest with
          | String "}" rest' => Some (PDict [], rest')
          | _ =>
              match json_members fuel' rest with
              | Some (d, rest') => Some (PDict d, rest')
              | None => None
              end
          end
      | String c rest as w =>
          if (c =? quote)%char then
            match json_string rest with
            | Some (text, rest') => Some (PStr text, rest')
            | None => None
            end
          else json_int w
      | EmptyString => None
      end
  end
with json_elements (fuel : nat) (s : string) : option (list pyval * string) :=
  match fuel with
  | O => None
  | S fuel' =>
      match json_value fuel' s with
      | Some (v, rest) =>
          match skip_spaces rest with
          | String "," rest' =>
              match json_elements fuel' rest' with
              | Some (l, rest'') => Some (v :: l, rest'')
              | None => None
              end
          | String "]" rest' => Some ([v], rest')
          | _ => None
          end
      | None => None
      end
  end
with json_members (fuel : nat) (s : string) : option (dict * string) :=
  match fuel with
  | O => None
  | S fuel' =>
      match skip_spaces s with
      | String c rest =>
          if (c =? quote)%char then
            match json_string rest with
            | Some (key, rest1) =>
                match skip_spaces rest1 with
                | String ":" rest2 =>
                    match json_value fuel' rest2 with
                    | Some (v, rest3) =>
                        match skip_spaces rest3 with
                        | String "," rest4 =>
                            match json_members fuel' rest4 with
                            | Some (d, rest5) => Some (dict_set_first key v d, rest5)
                            | None => None
                            end
                        | String "}" rest4 => Some ([(key, v)], rest4)
                        | _ => None
                        end
                    | None => None
                    end
                | _ => None
                end
            | None => None
            end
          else None
      | EmptyString => None
      end
  end.

Definition example_json_loads (s : string) : result pyval :=
  match json_value (S (String.length s)) s with
  | Some (v, rest) =>
      match skip_spaces rest with
      | EmptyString => Ok v
      | _ => Raise (mk_exn "JSONDecodeError" "Extra data")
      end
  | None => Raise (mk_exn "JSONDecodeError" "Expecting value")
  end.

Definition ExampleLib : Lib :=
  {| html_events := example_events;
     urljoin := example_urljoin;
     netloc := example_netloc;
     search_title := example_search_title;
     findall_json_ld := fun content =>
       example_json_ld_blocks (String.length content) content;
     json_loads := example_json_loads;
     findall_email := fun _ => [];
     findall_phone_us := fun _ => [];
     findall_phone_international := fun _ => [];
     findall_phone_simple := fun _ => [];
     findall_url := fun _ => [];
     list_of_set := nodup string_dec |}.


(** *** Worked examples *)

Definition two_headings : string := "<h2>A</h2><h1>B</h1>".

Definition two_headings_events : list event :=
  [StartTag "h2" []; Data "A"; EndTag "h2";
   StartTag "h1" []; Data "B"; EndTag "h1"].

Example two_headings_scan : html_events ExampleLib two_headings = Ok two_headings_events.
Proof. reflexivity. Qed.



Definition valueless_href : string := "<a href>x</a>".

(** C1, as the specification states it, fails where the extraction raises:
    an [href] without a value is [None] for the scanner, link extraction
    raises AttributeError on it, and the mapping [main] returns has the
    keys error and extract_type, and no success field. *)
Lemma exception_mapping_has_no_success_field :
  html_events ExampleLib valueless_href
  = Ok [StartTag "a" [("href", None)]; Data "x"; EndTag "a"]
  /\ main_body ExampleLib valueless_href "links" []
     = Raise (mk_exn "AttributeError"
                "'NoneType' object has no attribute 'startswith'")
  /\ main ExampleLib valueless_href "links" None
     = Ok [("error", PStr "'NoneType' object has no attribute 'startswith'");
           ("extract_type", PStr "links")]
  /\ main ExampleLib valueless_href "links" None
     <> Ok [("success", PBool false);
            ("error", PStr "'NoneType' object has no attribute 'startswith'")].
Proof.
  repeat (split; [reflexivity|]). vm_compute. intros H. discriminate H.
Qed.

Lemma main_never_raises_witness :
  main ExampleLib valueless_href "frobnicate" None
  = Ok [("error", PStr "Unknown extraction type: frobnicate");
        ("available_types",
         strs ["all"; "links"; "text"; "metadata"; "structured";
               "emails"; "phone_numbers"; "urls"])]
  /\ main ExampleLib valueless_href "links" None
     = Ok [("error", PStr "'NoneType' object has no attribute 'startswith'");
           ("extract_type", PStr "links")].
Proof.
  split.
  - apply (main_never_raises ExampleLib valueless_href "frobnicate" None)
      with (events := [StartTag "a" [("href", None)]; Data "x"; EndTag "a"]).
    + reflexivity.
    + not_listed.
  - apply (main_never_raises ExampleLib valueless_href "links" None)
      with (e := mk_exn "AttributeError"
                   "'NoneType' object has no attribute 'startswith'").
    reflexivity.
Defined.

Definition foo_link : string := "<a href='/foo'>x</a>".
Definition foo_link_dict : dict :=
  [("href", PStr "/foo"); ("title", PStr ""); ("rel", PStr "")].
Definition x_com : dict := [("base_url", PStr "http://x.com")].

Example foo_link_scan :
  html_events ExampleLib foo_link
  = Ok [StartTag "a" [("href", Some "/foo")]; Data "x"; EndTag "a"]
  /\ links (feed new_parser [StartTag "a" [("href", Some "/foo")]; Data "x"; EndTag "a"])
     = [foo_link_dict].
Proof. split; reflexivity. Qed.

Example foo_link_result :
  main ExampleLib foo_link "links" (Some x_com)
  = Ok [("success", PBool true);
        ("total_links", PInt 1);
        ("internal_links",
         dicts [foo_link_dict ++ [("absolute_href", PStr "http://x.com/foo")]]);
        ("external_links", dicts []);
        ("anchor_links", dicts []);
        ("stats", PDict [("internal_count", PInt 1);
                         ("external_count", PInt 0);
                         ("anchor_count", PInt 0)])].
Proof. reflexivity. Qed.

Definition foo_link_resolved : dict :=
  foo_link_dict ++ [("absolute_href", PStr "http://x.com/foo")].

Lemma relative_link_is_internal_witness :
  exists c,
    dict_get (links_result [foo_link_resolved]
                (mk_categories [foo_link_resolved] [] [])) "internal_links"
    = Some (dicts (firstn 20 (internal c)))
    /\ dict_get (links_result [foo_link_resolved]
                   (mk_categories [foo_link_resolved] [] [])) "external_links"
       = Some (dicts (firstn 20 (external c)))
    /\ dict_get (links_result [foo_link_resolved]
                   (mk_categories [foo_link_resolved] [] [])) "anchor_links"
       = Some (dicts (firstn 10 (anchors c)))
    /\ In foo_link_resolved (internal c)
    /\ ~ In foo_link_resolved (external c)
    /\ ~ In foo_link_resolved (anchors c)
    /\ dict_get foo_link_resolved "absolute_href" = Some (PStr "http://x.com/foo").
Proof.
  apply (relative_link_is_internal ExampleLib
           (feed new_parser
              [StartTag "a" [("href", Some "/foo")]; Data "x"; EndTag "a"])
           foo_link x_com foo_link_dict
           (links_result [foo_link_resolved]
              (mk_categories [foo_link_resolved] [] [])));
    try reflexivity.
  left. reflexivity.
Defined.





Definition two_blocks : string :=
  "<script type='application/ld+json'> [1, 2] </script>"
  ++ "<script type='application/ld+json'>{oops</script>".

Example two_blocks_found :
  findall_json_ld ExampleLib two_blocks = [" [1, 2] "; "{oops"]
  /\ json_loads ExampleLib (strip " [1, 2] ") = Ok (PList [PInt 1; PInt 2])
  /\ json_loads ExampleLib (strip "{oops")
     = Raise (mk_exn "JSONDecodeError" "Expecting value").
Proof. repeat split. Qed.




(** *** More about the scanner *)

(** No empty text among the headings and the paragraphs. *)
Definition no_empty_text (p : parser) : Prop :=
  (forall l, Forall (fun t => nonempty t = true) (headings p l))
  /\ Forall (fun t => nonempty t = true) (paragraphs p).

Lemma handle_starttag_paragraphs (p : parser) (tag : string) attrs :
  paragraphs (handle_starttag p tag attrs) = paragraphs p.
Proof.
  unfold handle_starttag.
  destruct ((tag =? "a") && _); [reflexivity|].
  destruct ((tag =? "img") && _); [reflexivity|].
  destruct (tag =? "meta"); [reflexivity|].
  destruct (level_of_tag tag); [reflexivity|].
  destruct (tag =? "p"); reflexivity.
Qed.

Lemma handle_data_paragraphs (p : parser) (data : string) :
  paragraphs (handle_data p data) = paragraphs p.
Proof. unfold handle_data. destruct (capturing p); reflexivity. Qed.

Lemma closes_capture_nonempty (p : parser) (tag : string) :
  closes_capture p tag = true -> nonempty (current_data p) = true.
Proof.
  unfold closes_capture. destruct (current_tag p); [|discriminate].
  intros H. apply andb_prop in H. tauto.
Qed.

Lemma handle_no_empty_text (p : parser) (e : event) :
  no_empty_text p -> no_empty_text (handle p e).
Proof.
  intros [Hh Hp]. destruct e as [tag attrs|data|tag]; simpl.
  - split; [intros l; now rewrite handle_starttag_headings
           | now rewrite handle_starttag_paragraphs].
  - split; [intros l; now rewrite handle_data_headings
           | now rewrite handle_data_paragraphs].
  - unfold handle_endtag. destruct (closes_capture p tag) eqn:Hc; [|now split].
    apply closes_capture_nonempty in Hc.
    destruct (level_of_tag tag) as [l'|]; simpl.
    + split; [|exact Hp]. intros l. cbn [headings fst]. unfold append_heading.
      destruct (level_eqb l' l); [|apply Hh].
      apply Forall_app. split; [apply Hh | now repeat constructor].
    + destruct (tag =? "p"); cbn [headings paragraphs fst snd]; split;
        try assumption.
      apply Forall_app. split; [exact Hp | now repeat constructor].
Qed.

(** X12. Whatever the document, the scan records no empty heading and no
    empty paragraph: an element without text, or with whitespace only,
    leaves no entry. *)
Theorem scan_records_no_empty_text (events : list event) :
  (forall l, ~ In "" (headings (feed new_parser events) l))
  /\ ~ In "" (paragraphs (feed new_parser events)).
Proof.
  assert (H : forall p, no_empty_text p -> no_empty_text (feed p events)).
  { induction events as [|e rest IH]; intros p Hp; [exact Hp|].
    apply (IH (handle p e)), handle_no_empty_text, Hp. }
  destruct (H new_parser) as [Hh Hp].
  { split; [intros l|]; constructor. }
  split; [intros l Hin | intros Hin].
  - specialize (Hh l). rewrite Forall_forall in Hh. now apply Hh in Hin.
  - rewrite Forall_forall in Hp. now apply Hp in Hin.
Qed.

(** The link, the image and the meta tag that a start tag records. *)
Definition link_of (e : event) : list dict :=
  match e with
  | StartTag tag attrs =>
      if (tag =? "a") && dict_mem (dict_of_attrs attrs) "href" then
        [[("href", dict_get_default (dict_of_attrs attrs) "href" PNone);
          ("title", dict_get_default (dict_of_attrs attrs) "title" (PStr ""));
          ("rel", dict_get_default (dict_of_attrs attrs) "rel" (PStr ""))]]
      else []
  | _ => []
  end.

Definition image_of (e : event) : list dict :=
  match e with
  | StartTag tag attrs =>
      if (tag =? "img") && dict_mem (dict_of_attrs attrs) "src" then
        [[("src", dict_get_default (dict_of_attrs attrs) "src" PNone);
          ("alt", dict_get_default (dict_of_attrs attrs) "alt" (PStr ""));
          ("title", dict_get_default (dict_of_attrs attrs) "title" (PStr ""))]]
      else []
  | _ => []
  end.

Definition meta_of (e : event) : list dict :=
  match e with
  | StartTag tag attrs => if tag =? "meta" then [dict_of_attrs attrs] else []
  | _ => []
  end.

Lemma handle_records (p : parser) (e : event) :
  links (handle p e) = links p ++ link_of e
  /\ images (handle p e) = images p ++ image_of e
  /\ meta_tags (handle p e) = meta_tags p ++ meta_of e.
Proof.
  destruct e as [tag attrs|data|tag]; simpl.
  - unfold handle_starttag.
    destruct (String.eqb_spec tag "a") as [->|Ha]; simpl.
    + destruct (dict_mem (dict_of_attrs attrs) "href"); simpl;
        now rewrite ?app_nil_r.
    + destruct (String.eqb_spec tag "img") as [->|Hi]; simpl.
      * destruct (dict_mem (dict_of_attrs attrs) "src"); simpl;
          now rewrite ?app_nil_r.
      * destruct (String.eqb_spec tag "meta") as [->|Hm]; simpl.
        { now rewrite ?app_nil_r. }
        destruct (level_of_tag tag); simpl; [now rewrite ?app_nil_r|].
        destruct (tag =? "p"); simpl; now rewrite ?app_nil_r.
  - unfold handle_data. destruct (capturing p); simpl; now rewrite ?app_nil_r.
  - now rewrite ?app_nil_r.
Qed.

Lemma feed_records (p : parser) (events : list event) :
  links (feed p events) = links p ++ flat_map link_of events
  /\ images (feed p events) = images p ++ flat_map image_of events
  /\ meta_tags (feed p events) = meta_tags p ++ flat_map meta_of events.
Proof.
  revert p. induction events as [|e rest IH]; intros p.
  - simpl. now rewrite !app_nil_r.
  - change (feed p (e :: rest)) with (feed (handle p e) rest).
    destruct (IH (handle p e)) as (-> & -> & ->).
    destruct (handle_records p e) as (-> & -> & ->).
    simpl. now rewrite <- !app_assoc.
Qed.

(** X13. The links, the images and the meta tags of a scanned document
    are exactly what its start tags give, in document order, whatever
    closing tags and text lie between: one link per [a] tag that has an
    href attribute, one image per [img] tag that has a src attribute, one
    entry per [meta] tag.  A link has the keys href, title and rel, an
    image the keys src, alt and title. *)
Theorem scan_records_every_start_tag (events : list event) :
  links (feed new_parser events) = flat_map link_of events
  /\ images (feed new_parser events) = flat_map image_of events
  /\ meta_tags (feed new_parser events) = flat_map meta_of events
  /\ Forall (fun link => dict_keys link = ["href"; "title"; "rel"])
       (links (feed new_parser events))
  /\ Forall (fun image => dict_keys image = ["src"; "alt"; "title"])
       (images (feed new_parser events)).
Proof.
  destruct (feed_records new_parser events) as (Hl & Hi & Hm).
  simpl in Hl, Hi, Hm.
  rewrite Hl, Hi, Hm. repeat (split; [reflexivity|]). split.
  - apply Forall_flat_map, Forall_forall. intros e _.
    destruct e as [tag attrs|data|tag]; simpl; try constructor.
    destruct ((tag =? "a") && _); repeat constructor.
  - apply Forall_flat_map, Forall_forall. intros e _.
    destruct e as [tag attrs|data|tag]; simpl; try constructor.
    destruct ((tag =? "img") && _); repeat constructor.
Qed.

(** [tag] is h1, ..., h6 or p. *)
Definition capturable (tag : string) : bool :=
  match level_of_tag tag with
  | Some _ => true
  | None => tag =? "p"
  end.

(** The pieces of text of an element, each stripped, one after the
    other. *)
Definition captured (texts : list string) : string :=
  fold_right String.append "" (map strip texts).

Definition with_capture (p : parser) (tag : option string) (data : string) : parser :=
  mk_parser (links p) (images p) (headings p) (paragraphs p) (meta_tags p) tag data.

Lemma level_of_tag_name (tag : string) (l : level) :
  level_of_tag tag = Some l -> tag = level_name l.
Proof.
  intros H. apply find_some in H. destruct H as [_ H].
  apply String.eqb_eq in H. now symmetry.
Qed.

Lemma capturable_cases (tag : string) :
  capturable tag = true ->
  In tag ["h1"; "h2"; "h3"; "h4"; "h5"; "h6"; "p"].
Proof.
  unfold capturable. destruct (level_of_tag tag) as [l|] eqn:Hl.
  - intros _. apply level_of_tag_name in Hl. subst tag. destruct l; simpl; tauto.
  - intros H. apply String.eqb_eq in H. subst tag. simpl. tauto.
Qed.

Lemma handle_starttag_capturable (p : parser) (tag : string) attrs :
  capturable tag = true ->
  handle_starttag p tag attrs = with_capture p (Some tag) "".
Proof.
  intros H. apply capturable_cases in H. simpl in H.
  decompose [or] H; subst; try contradiction; reflexivity.
Qed.

Lemma feed_data_capturing (texts : list string) (p : parser) (tag data : string) :
  nonempty tag = true ->
  feed (with_capture p (Some tag) data) (map Data texts)
  = with_capture p (Some tag) (data ++ captured texts).
Proof.
  intros Htag. revert data. induction texts as [|t rest IH]; intros data; simpl.
  - unfold captured. simpl. 
    replace (data ++ "")%string with data; [reflexivity|].
    clear. induction data as [|c d IHd]; simpl; [reflexivity | now rewrite <- IHd].
  - unfold handle_data, capturing. cbn [current_tag with_capture]. rewrite Htag.
    cbn [links images headings paragraphs meta_tags current_data current_tag with_capture].
    fold (with_capture p (Some tag) (data ++ strip t)).
    rewrite IH. unfold captured. simpl. now rewrite string_app_assoc.
Qed.
(** X14. An element [<tag>...</tag>] with tag h1, ..., h6 or p and only
    text inside is recorded as one entry under its tag: the pieces of its
    text, each stripped of surrounding whitespace and joined without a
    separator; nothing is recorded when that text is empty.  What the
    scanner was capturing before the element does not matter, and the
    links, images and meta tags are left alone. *)
Theorem element_text_is_captured (p : parser) (tag : string) attrs
  (texts : list string) :
  capturable tag = true ->
  (forall l,
     headings (feed p (StartTag tag attrs :: map Data texts ++ [EndTag tag])) l
     = headings p l
         ++ (if (level_name l =? tag) && nonempty (captured texts)
             then [captured texts] else []))
  /\ paragraphs (feed p (StartTag tag attrs :: map Data texts ++ [EndTag tag]))
     = paragraphs p
         ++ (if (tag =? "p") && nonempty (captured texts)
             then [captured texts] else [])
  /\ links (feed p (StartTag tag attrs :: map Data texts ++ [EndTag tag])) = links p
  /\ images (feed p (StartTag tag attrs :: map Data texts ++ [EndTag tag])) = images p
  /\ meta_tags (feed p (StartTag tag attrs :: map Data texts ++ [EndTag tag]))
     = meta_tags p
  /\ current_tag (feed p (StartTag tag attrs :: map Data texts ++ [EndTag tag]))
     = None.
Proof.
  intros Htag.
  change (feed p (StartTag tag attrs :: map Data texts ++ [EndTag tag]))
    with (feed (handle_starttag p tag attrs) (map Data texts ++ [EndTag tag])).
  rewrite handle_starttag_capturable by exact Htag.
  assert (Hname : nonempty tag = true).
  { apply capturable_cases in Htag. simpl in Htag.
    decompose [or] Htag; subst; try contradiction; reflexivity. }
  rewrite feed_app, feed_data_capturing by exact Hname.
  change (feed ?q [EndTag tag]) with (handle_endtag q tag).
  unfold handle_endtag, closes_capture.
  cbn [links images headings paragraphs meta_tags current_data current_tag
       with_capture String.append].
  rewrite String.eqb_refl. cbn [andb].
  apply capturable_cases in Htag. simpl in Htag.
  destruct (nonempty (captured texts));
    decompose [or] Htag; subst; try contradiction;
    (split; [intros l; destruct l; cbn; now rewrite ?app_nil_r|]);
    cbn; now rewrite ?app_nil_r.
Qed.

Lemma element_text_is_captured_witness :
  headings (feed inside_bold
              (StartTag "h2" [] :: map Data [" Getting "; "started "] ++ [EndTag "h2"]))
    H2
  = ["Gettingstarted"]
  /\ paragraphs (feed inside_bold
                   (StartTag "h2" [] :: map Data [" Getting "; "started "]
                      ++ [EndTag "h2"]))
     = [].
Proof.
  destruct (element_text_is_captured inside_bold "h2" [] [" Getting "; "started "]
              eq_refl) as (Hh & Hp & _).
  split; [exact (Hh H2) | exact Hp].
Defined.

(** *** More about [extract_links] *)

Lemma filterM_all {A : Type} (f : A -> result bool) (xs ys : list A) :
  filterM f xs = Ok ys -> Forall (fun y => f y = Ok true) ys.
Proof.
  revert ys. induction xs as [|a xs IH]; intros ys; simpl.
  - intros [= <-]. constructor.
  - destruct (f a) as [b|e] eqn:Hb; [|discriminate]. cbn [bind].
    destruct (filterM f xs) as [bs|e]; [|discriminate]. cbn [bind].
    intros [= <-]. specialize (IH bs eq_refl).
    destruct b; [constructor; assumption | exact IH].
Qed.

Lemma same_domain_not_external (L : Lib) (base_url : pyval) (base_domain : string)
  (link : dict) :
  truthy base_url = true ->
  netloc L base_url = Ok base_domain ->
  same_domain L base_domain link = Ok true ->
  in_category L base_url External link = false.
Proof.
  intros Hbase Hdomain. unfold same_domain, in_category, category_of.
  destruct (link_href link) as [href|e]; [|discriminate]. cbn [bind].
  destruct (netloc L href) as [domain|e]; [|discriminate]. cbn [bind].
  intros [= Hsame].
  destruct (py_startswith href "#") as [[|]|e]; try reflexivity. cbn [bind].
  rewrite Hbase, Hdomain. cbn [bind]. rewrite Hsame.
  destruct (py_startswith href "http://") as [[|]|e]; try reflexivity. cbn [bind].
  destruct (py_startswith href "https://") as [[|]|e]; reflexivity.
Qed.

(** X15. With a base_url and filter_external set, the mapping of link
    extraction never holds an external link: external_links is empty and
    external_count is 0, and the links that are left are all internal or
    anchors. *)
Theorem filter_external_leaves_no_external_link (L : Lib) (p : parser)
  (content : string) (options : dict) (d : dict) :
  truthy (dict_get_default options "base_url" (PStr "")) = true ->
  truthy (dict_get_default options "filter_external" (PBool false)) = true ->
  extract_links L p content options = Ok d ->
  dict_get d "external_links" = Some (dicts [])
  /\ exists i a,
       dict_get d "stats"
       = Some (PDict [("internal_count", PInt i);
                      ("external_count", PInt 0);
                      ("anchor_count", PInt a)])
       /\ dict_get d "total_links" = Some (PInt (i + a)).
Proof.
  intros Hbase Hfilter. unfold extract_links, resolved_links.
  rewrite Hbase, Hfilter.
  destruct (mapM _ (links p)) as [resolved|e]; [|discriminate]. cbn [bind].
  destruct (netloc L _) as [base_domain|e] eqn:Hdomain; [|discriminate]. cbn [bind].
  destruct (filterM _ resolved) as [links'|e] eqn:Hkept; [|discriminate]. cbn [bind].
  destruct (foldM _ links' _) as [c|e] eqn:Hc; [|discriminate]. cbn [bind].
  intros [= <-].
  pose proof (categorize_all_filter L _ links' _ _ Hc External) as Hext.
  pose proof (categorize_all_total L _ links' _ _ Hc) as Htotal.
  apply filterM_all in Hkept.
  assert (Hnone : external c = []).
  { simpl in Hext. rewrite Hext. clear Hext Hc Htotal.
    induction Hkept as [|x rest Hx _ IH]; [reflexivity|]. simpl.
    now rewrite (same_domain_not_external L _ base_domain x Hbase Hdomain Hx). }
  unfold links_result. cbn [dict_get String.eqb Ascii.eqb Bool.eqb].
  rewrite Hnone. split; [reflexivity|].
  exists (len (internal c)), (len (anchors c)). split; [reflexivity|].
  unfold total in Htotal. rewrite Hnone in Htotal. simpl in Htotal.
  do 2 f_equal. unfold len. lia.
Qed.

Definition mixed_links : string :=
  "<a href='/foo'>a</a><a href='http://other.org/x'>b</a><a href='#top'>c</a>".

Definition only_x_com : dict :=
  [("base_url", PStr "http://x.com"); ("filter_external", PBool true)].

Example mixed_links_unfiltered :
  exists d,
    main ExampleLib mixed_links "links" (Some x_com) = Ok d
    /\ dict_get d "stats"
       = Some (PDict [("internal_count", PInt 2);
                      ("external_count", PInt 1);
                      ("anchor_count", PInt 0)]).
Proof. eexists. split; reflexivity. Qed.

Lemma filter_external_leaves_no_external_link_witness :
  dict_get (links_result
              [foo_link_resolved;
               [("href", PStr "#top"); ("title", PStr ""); ("rel", PStr "");
                ("absolute_href", PStr "http://x.com#top")]]
              (mk_categories
                 [foo_link_resolved;
                  [("href", PStr "#top"); ("title", PStr ""); ("rel", PStr "");
                   ("absolute_href", PStr "http://x.com#top")]] [] []))
    "external_links" = Some (dicts []).
Proof.
  apply (filter_external_leaves_no_external_link ExampleLib
           (feed new_parser (example_tokens (String.length mixed_links) mixed_links))
           mixed_links only_x_com); reflexivity.
Defined.

(** *** About [extract_urls] *)

(** The loop over the URLs counts the hosts that are not empty. *)
Lemma count_domains (L : Lib) (urls : list string) (c domains : list (string * Z)) :
  foldM (count_domain L) urls c = Ok domains ->
  exists hosts,
    mapM (fun url => netloc L (PStr url)) urls = Ok hosts
    /\ domains = fold_left count_up (filter nonempty hosts) c.
Proof.
  revert c. induction urls as [|url urls IH]; intros c; simpl.
  - intros [= <-]. exists []. split; reflexivity.
  - unfold count_domain at 1.
    destruct (netloc L (PStr url)) as [host|e]; [|discriminate]. cbn [bind].
    intros Hrest. apply IH in Hrest. destruct Hrest as (hosts & -> & ->).
    exists (host :: hosts). cbn [bind]. split; [reflexivity|].
    simpl. now destruct (nonempty host).
Qed.

(** X16. When URL extraction returns, domain_frequency lists at most ten
    hosts of the URLs found, largest count first, each with the number of
    found URLs that have this host; a host that is left out has no more
    URLs than any host listed.  unique_domains holds the first twenty of
    the distinct hosts that are not empty, none of them twice. *)
Theorem domain_frequency_counts_hosts (L : Lib) (content : string) (d : dict) :
  extract_urls L content = Ok d ->
  exists hosts top unique,
    mapM (fun url => netloc L (PStr url)) (list_of_set L (findall_url L content))
    = Ok hosts
    /\ dict_get d "domain_frequency" = Some (PDict (counts top))
    /\ most_frequent 10 (filter nonempty hosts) top
    /\ dict_get d "unique_domains" = Some (strs (take 20 unique))
    /\ NoDup unique
    /\ (forall host, In host unique <-> In host hosts /\ host <> "").
Proof.
  unfold extract_urls.
  destruct (foldM _ _ _) as [domains|e] eqn:Hdomains; [|discriminate].
  cbn [bind]. intros [= <-].
  apply count_domains in Hdomains. destruct Hdomains as (hosts & Hhosts & ->).
  pose proof (count_up_counted (filter nonempty hosts)) as Hcounted.
  exists hosts, (take 10 (sorted_by_count (fold_left count_up (filter nonempty hosts) []))),
    (map fst (fold_left count_up (filter nonempty hosts) [])).
  split; [exact Hhosts|]. split; [reflexivity|].
  split; [now apply take_sorted_most_frequent|].
  split; [reflexivity|].
  destruct Hcounted as (Hnodup & Hkeys & _).
  split; [exact Hnodup|].
  intros host. rewrite Hkeys, filter_In. unfold nonempty.
  destruct (String.eqb_spec host ""); simpl; intuition congruence.
Qed.

(** The URL pattern, which needs no backtracking: the scheme, at least
    one host character, a port if a colon and digits follow, a path if a
    slash follows. *)
Definition is_host_char (c : ascii) : bool :=
  is_word_char c || (c =? "-")%char || (c =? ".")%char.

Definition take_while (keep : ascii -> bool) (s : string) : string :=
  take_until (fun c => negb (keep c)) s.

Definition url_at (s : string) : option string :=
  let scheme :=
    if String.prefix "http://" s then Some "http://"
    else if String.prefix "https://" s then Some "https://"
    else None in
  match scheme with
  | None => None
  | Some scheme =>
      let rest := after (String.length scheme) s in
      let host := take_while is_host_char rest in
      if nonempty host then
        let rest := after (String.length host) rest in
        let port :=
          match rest with
          | String ":" digits =>
              if nonempty (take_while is_digit digits)
              then (":" ++ take_while is_digit digits)%string else ""
          | _ => ""
          end in
        let rest := after (String.length port) rest in
        let path :=
          match rest with
          | String "/" tail =>
              ("/" ++ take_while (fun c => negb (is_space c)) tail)%string
          | _ => ""
          end in
        Some (scheme ++ host ++ port ++ path)%string
      else None
  end.

(** The matches from the left; [skip] characters still belong to the last
    match. *)
Fixpoint example_findall_url_from (skip : nat) (s : string) : list string :=
  match s with
  | EmptyString => []
  | String _ s' =>
      match skip with
      | S k => example_findall_url_from k s'
      | O =>
          match url_at s with
          | Some url => url :: example_findall_url_from (String.length url - 1) s'
          | None => example_findall_url_from 0 s'
          end
      end
  end.

Definition UrlLib : Lib :=
  {| html_events := example_events;
     urljoin := example_urljoin;
     netloc := example_netloc;
     search_title := example_search_title;
     findall_json_ld := fun content =>
       example_json_ld_blocks (String.length content) content;
     json_loads := example_json_loads;
     findall_email := fun _ => [];
     findall_phone_us := fun _ => [];
     findall_phone_international := fun _ => [];
     findall_phone_simple := fun _ => [];
     findall_url := example_findall_url_from 0;
     list_of_set := nodup string_dec |}.

Definition urls_text : string :=
  "See http://a.org/x, https://b.com:8080/y?q=1 and http://a.org/z or http://a.org/x again.".

Definition urls_text_result : dict :=
  [("success", PBool true);
   ("urls", strs ["http://a.org/x,"; "https://b.com:8080/y?q=1";
                  "http://a.org/z"; "http://a.org/x"]);
   ("total_found", PInt 4);
   ("unique_domains", strs ["a.org"; "b.com:8080"]);
   ("domain_frequency", PDict [("a.org", PInt 3); ("b.com:8080", PInt 1)])].

Example urls_text_urls : main UrlLib urls_text "urls" None = Ok urls_text_result.
Proof. reflexivity. Qed.

Lemma domain_frequency_counts_hosts_witness :
  exists hosts top unique,
    mapM (fun url => netloc UrlLib (PStr url))
      (list_of_set UrlLib (findall_url UrlLib urls_text)) = Ok hosts
    /\ dict_get urls_text_result "domain_frequency" = Some (PDict (counts top))
    /\ most_frequent 10 (filter nonempty hosts) top
    /\ dict_get urls_text_result "unique_domains" = Some (strs (take 20 unique))
    /\ NoDup unique
    /\ (forall host, In host unique <-> In host hosts /\ host <> "").
Proof.
  apply (domain_frequency_counts_hosts UrlLib urls_text). reflexivity.
Defined.

(** *** About [extract_text] *)

(** [full_text] before it is cut. *)
Definition joined_text (p : parser) (options : dict) : string :=
  strip (collapse_ws
           (join " "
              ((if truthy (dict_get_default options "include_headings" (PBool true))
                then heading_texts p else []) ++ paragraphs p))).

(** X20. With an integer max_length (or none, which is 5000) text
    extraction returns.  The text is the joined text when that is no
    longer than max_length, and else its cut followed by three dots; so
    for a max_length that is not negative the text has at most
    max_length + 3 characters, and for a negative one the three dots are
    always there. *)
Theorem text_is_cut_at_max_length (p : parser) (content : string)
  (options : dict) (n : Z) :
  dict_get_default options "max_length" (PInt 5000) = PInt n ->
  exists d text,
    extract_text p content options = Ok d
    /\ dict_get d "text" = Some (PStr text)
    /\ ((str_len (joined_text p options) <= n)%Z -> text = joined_text p options)
    /\ ((n < str_len (joined_text p options))%Z ->
        text = (str_slice_to (joined_text p options) n ++ "...")%string)
    /\ ((0 <= n)%Z -> (str_len text <= n + 3)%Z)
    /\ ((n < 0)%Z -> (3 <= str_len text)%Z).
Proof.
  intros Hmax. unfold extract_text. fold (joined_text p options).
  rewrite Hmax. unfold int_gt, py_slice_to. cbn [bind].
  set (joined := joined_text p options).
  destruct (Z.ltb_spec n (str_len joined)) as [Hlong|Hshort]; cbn [bind].
  - destruct (average_word_length_returns
                (split_ws (str_slice_to joined n ++ "..."))) as [v ->].
    cbn [bind]. do 2 eexists. split; [reflexivity|]. split; [reflexivity|].
    split; [lia|]. split; [reflexivity|].
    rewrite str_len_append. change (str_len "...") with 3%Z.
    split.
    + intros Hn. pose proof (str_slice_to_length joined n Hn). lia.
    + intros _. unfold str_len. lia.
  - destruct (average_word_length_returns (split_ws joined)) as [v ->].
    cbn [bind]. do 2 eexists. split; [reflexivity|]. split; [reflexivity|].
    split; [reflexivity|]. split; [lia|].
    unfold str_len in *. split; lia.
Qed.

Definition title_page : parser :=
  feed new_parser
    [StartTag "h1" []; Data "Title"; EndTag "h1";
     StartTag "p" []; Data "Hello big world."; EndTag "p"].

Example title_page_text :
  (forall d, extract_text title_page "" [] = Ok d ->
             dict_get d "text" = Some (PStr "Title Hello big world."))
  /\ (forall d, extract_text title_page "" [("max_length", PInt (-3))] = Ok d ->
               dict_get d "text" = Some (PStr "Title Hello big wor..."))
  /\ (forall d, extract_text new_parser "" [("max_length", PInt (-3))] = Ok d ->
               dict_get d "text" = Some (PStr "...")).
Proof. repeat split; intros d [= <-]; reflexivity. Qed.

Lemma text_is_cut_at_max_length_witness :
  exists d,
    extract_text title_page "" [("max_length", PInt 9)] = Ok d
    /\ dict_get d "text" = Some (PStr "Title Hel...").
Proof.
  destruct (text_is_cut_at_max_length title_page "" [("max_length", PInt 9)] 9 eq_refl)
    as (d & text & Hd & Htext & _ & Hcut & _).
  exists d. split; [exact Hd|].
  rewrite Htext, Hcut; reflexivity.
Defined.


(** *** About [extract_metadata] *)

(** What the loop over the meta tags keeps true. *)
Definition sorted_metadata (tags : list dict) (m : metadata) : Prop :=
  Forall (fun kv => String.prefix "og:" (fst kv) = true) (md_og_tags m)
  /\ Forall (fun kv => String.prefix "twitter:" (fst kv) = true) (md_twitter_tags m)
  /\ NoDup (dict_keys (md_og_tags m))
  /\ NoDup (dict_keys (md_twitter_tags m))
  /\ incl (md_other m) tags.

Lemma classify_meta_sorted (tags : list dict) (m m' : metadata) (tag : dict) :
  In tag tags -> sorted_metadata tags m -> classify_meta m tag = Ok m' ->
  sorted_metadata tags m'.
Proof.
  intros Htag (Hog & Htw & Hnog & Hntw & Hother). unfold classify_meta.
  destruct (py_lower (dict_get_default tag "name" _)) as [name|e]; [|discriminate].
  cbn [bind].
  destruct (py_lower (dict_get_default tag "property" _)) as [property_name|e];
    [|discriminate].
  cbn [bind]. intros [= <-]. unfold sorted_metadata.
  destruct (name =? "description"); [cbn; tauto|].
  destruct (name =? "keywords"); [cbn; tauto|].
  destruct (name =? "author"); [cbn; tauto|].
  destruct (name =? "viewport"); [cbn; tauto|].
  destruct (truthy _); [cbn; tauto|].
  destruct (String.prefix "og:" property_name) eqn:Hpo.
  { cbn [md_og_tags md_twitter_tags md_other].
    split; [now apply dict_set_Forall|]. split; [exact Htw|].
    split; [now apply dict_set_nodup|]. tauto. }
  destruct (String.prefix "twitter:" property_name) eqn:Hpt.
  { cbn [md_og_tags md_twitter_tags md_other].
    split; [exact Hog|]. split; [now apply dict_set_Forall|].
    split; [exact Hnog|]. split; [now apply dict_set_nodup | exact Hother]. }
  cbn [md_og_tags md_twitter_tags md_other].
  repeat (split; [assumption|]).
  apply incl_app; [exact Hother|]. intros x [<-|[]]. exact Htag.
Qed.

(** X21. When metadata extraction returns, every key of og_tags starts
    with og: and every key of twitter_tags with twitter:, no key is there
    twice, and every entry of other is one of the meta tags of the
    document. *)
Theorem metadata_buckets_hold_their_prefix (L : Lib) (p : parser)
  (content : string) (options : dict) (d : dict) :
  extract_metadata L p content options = Ok d ->
  exists m,
    dict_get d "metadata" = Some (PDict (metadata_dict m))
    /\ sorted_metadata (meta_tags p) m.
Proof.
  unfold extract_metadata.
  destruct (foldM classify_meta (meta_tags p) _) as [m|e] eqn:Hm; [|discriminate].
  cbn [bind]. intros [= <-]. exists m. split; [reflexivity|].
  refine (foldM_invariant classify_meta (sorted_metadata (meta_tags p)) _ _ _ _ _ Hm).
  - intros a x a' Hx Ha Hstep. exact (classify_meta_sorted _ _ _ _ Hx Ha Hstep).
  - repeat split; try constructor. intros x [].
Qed.

Definition meta_page : string :=
  "<title> Home </title><meta name='Description' content='d'><meta property='og:title' content='T'><meta property='OG:title' content='U'><meta property='twitter:card' content='s'><meta http-equiv='refresh' content='5'>".

Definition meta_page_metadata : metadata :=
  mk_metadata (PStr "Home") (PStr "d") (PStr "") (PStr "") (PStr "") (PStr "")
    [("og:title", PStr "U")] [("twitter:card", PStr "s")]
    [[("http-equiv", PStr "refresh"); ("content", PStr "5")]].

Example meta_page_result :
  main ExampleLib meta_page "metadata" None
  = Ok [("success", PBool true);
        ("metadata", PDict (metadata_dict meta_page_metadata));
        ("total_meta_tags", PInt 5);
        ("has_og_tags", PBool true);
        ("has_twitter_tags", PBool true)].
Proof. reflexivity. Qed.

Lemma metadata_buckets_hold_their_prefix_witness :
  exists m,
    dict_get [("success", PBool true);
              ("metadata", PDict (metadata_dict meta_page_metadata));
              ("total_meta_tags", PInt 5);
              ("has_og_tags", PBool true);
              ("has_twitter_tags", PBool true)] "metadata"
    = Some (PDict (metadata_dict m))
    /\ sorted_metadata
         (meta_tags (feed new_parser
                       (example_tokens (String.length meta_page) meta_page))) m.
Proof.
  apply (metadata_buckets_hold_their_prefix ExampleLib
           (feed new_parser (example_tokens (String.length meta_page) meta_page))
           meta_page []).
  reflexivity.
Defined.


(** [tag] has no [name] and no [property] attribute without a value. *)
Definition names_have_values (tag : dict) : bool :=
  match dict_get tag "name", dict_get tag "property" with
  | Some PNone, _ | _, Some PNone => false
  | _, _ => true
  end.

(** An attribute of a scanned tag is a string or [None]. *)
Definition is_attr_value (v : pyval) : Prop := v = PNone \/ exists s, v = PStr s.

Lemma dict_of_attrs_values (attrs : list (string * option string)) (k : string)
  (v : pyval) :
  dict_get (dict_of_attrs attrs) k = Some v -> is_attr_value v.
Proof.
  unfold dict_of_attrs.
  assert (H : forall d,
             (forall v, dict_get d k = Some v -> is_attr_value v) ->
             forall v,
               dict_get (fold_left
                           (fun d kv => dict_set d (fst kv) (attr_value (snd kv)))
                           attrs d) k = Some v ->
               is_attr_value v).
  { induction attrs as [|[k' v'] attrs IH]; intros d Hd v0; simpl; [apply Hd|].
    apply IH. intros v1. rewrite dict_get_set.
    destruct (k' =? k); [|apply Hd].
    intros [= <-]. destruct v' as [s|]; simpl; [right; now exists s | now left]. }
  apply H. discriminate.
Qed.

Lemma scanned_meta_tags (events : list event) (tag : dict) (k : string) (v : pyval) :
  In tag (meta_tags (feed new_parser events)) ->
  dict_get tag k = Some v -> is_attr_value v.
Proof.
  destruct (feed_records new_parser events) as (_ & _ & ->). simpl.
  rewrite in_flat_map. intros (e & _ & He).
  destruct e as [name attrs|data|name]; simpl in He; try contradiction.
  destruct (name =? "meta"); [|contradiction].
  destruct He as [<-|[]]. apply dict_of_attrs_values.
Qed.

Lemma classify_meta_returns (m : metadata) (tag : dict) :
  (forall k v, dict_get tag k = Some v -> is_attr_value v) ->
  if names_have_values tag
  then exists m', classify_meta m tag = Ok m'
  else classify_meta m tag = Raise (attribute_error PNone "lower").
Proof.
  intros Hvalues. unfold names_have_values, classify_meta, dict_get_default.
  destruct (dict_get tag "name") as [name|] eqn:Hname.
  - destruct (Hvalues _ _ Hname) as [->|[s ->]]; [reflexivity|].
    destruct (dict_get tag "property") as [prop|] eqn:Hprop.
    + destruct (Hvalues _ _ Hprop) as [->|[s' ->]]; [reflexivity|].
      cbn [py_lower bind]. eauto.
    + cbn [py_lower bind]. eauto.
  - destruct (dict_get tag "property") as [prop|] eqn:Hprop.
    + destruct (Hvalues _ _ Hprop) as [->|[s' ->]]; [reflexivity|].
      cbn [py_lower bind]. eauto.
    + cbn [py_lower bind]. eauto.
Qed.

Lemma classify_all_returns (tags : list dict) (m : metadata) :
  (forall tag k v, In tag tags -> dict_get tag k = Some v -> is_attr_value v) ->
  if forallb names_have_values tags
  then exists m', foldM classify_meta tags m = Ok m'
  else foldM classify_meta tags m = Raise (attribute_error PNone "lower").
Proof.
  revert m. induction tags as [|tag tags IH]; intros m Hvalues; simpl; [eauto|].
  pose proof (classify_meta_returns m tag (fun k v => Hvalues tag k v (or_introl eq_refl)))
    as Htag.
  destruct (names_have_values tag); simpl.
  - destruct Htag as [m' ->]. cbn [bind]. apply IH.
    intros t k v Ht. apply Hvalues. now right.
  - now rewrite Htag.
Qed.

(** X22. Metadata extraction of a scanned document returns exactly when no
    meta tag has a name or a property attribute without a value; a meta
    tag such as [<meta name>] makes it raise
    AttributeError: 'NoneType' object has no attribute 'lower', which
    [main] turns into the error mapping. *)
Theorem metadata_needs_valued_names (L : Lib) (content : string)
  (options : option dict) (events : list event) :
  html_events L content = Ok events ->
  if forallb names_have_values (meta_tags (feed new_parser events))
  then exists d,
         main L content "metadata" options = Ok d
         /\ dict_get d "success" = Some (PBool true)
  else main L content "metadata" options
       = Ok [("error", PStr "'NoneType' object has no attribute 'lower'");
             ("extract_type", PStr "metadata")].
Proof.
  intros Hscan. unfold main, main_body. rewrite Hscan. cbn [bind].
  change ("metadata" =? "links") with false.
  change ("metadata" =? "text") with false.
  change ("metadata" =? "metadata") with true. cbv iota.
  unfold extract_metadata.
  match goal with
  | |- context [foldM classify_meta ?tags ?m] =>
      pose proof (classify_all_returns tags m (scanned_meta_tags events)) as Hall
  end.
  destruct (forallb names_have_values _).
  - destruct Hall as [m' ->]. cbn [bind try_except]. eexists. split; reflexivity.
  - rewrite Hall. reflexivity.
Qed.

Lemma metadata_needs_valued_names_witness :
  main ExampleLib "<meta name content='x'>" "metadata" None
  = Ok [("error", PStr "'NoneType' object has no attribute 'lower'");
        ("extract_type", PStr "metadata")].
Proof.
  exact (metadata_needs_valued_names ExampleLib "<meta name content='x'>" None
           [StartTag "meta" [("name", None); ("content", Some "x")]] eq_refl).
Defined.


(** *** The shape of what [main] returns *)

Definition succeeded (d : dict) : Prop :=
  dict_get d "success" = Some (PBool true) /\ dict_get d "error" = None.

Definition failed (d : dict) : Prop :=
  dict_get d "success" = None /\ exists message, dict_get d "error" = Some (PStr message).

Lemma extract_links_succeeded (L : Lib) p content options d :
  extract_links L p content options = Ok d -> succeeded d.
Proof.
  unfold extract_links.
  destruct (resolved_links L p options); [|discriminate]. cbn [bind].
  destruct (foldM _ _ _); [|discriminate]. cbn [bind].
  intros [= <-]. split; reflexivity.
Qed.

Lemma extract_text_succeeded p content options d :
  extract_text p content options = Ok d -> succeeded d.
Proof.
  unfold extract_text.
  destruct (int_gt _ _) as [too_long|]; [|discriminate]. cbn [bind].
  destruct (if too_long then _ else _) as [full_text|]; [|discriminate]. cbn [bind].
  destruct (average_word_length _); [|discriminate]. cbn [bind].
  intros [= <-]. split; reflexivity.
Qed.

Lemma extract_metadata_succeeded (L : Lib) p content options d :
  extract_metadata L p content options = Ok d -> succeeded d.
Proof.
  unfold extract_metadata.
  destruct (foldM _ _ _); [|discriminate]. cbn [bind].
  intros [= <-]. split; reflexivity.
Qed.

Lemma extract_structured_succeeded (L : Lib) p content options d :
  extract_structured L p content options = Ok d -> succeeded d.
Proof.
  unfold extract_structured.
  destruct (foldM _ _ _); [|discriminate]. cbn [bind].
  intros [= <-]. split; reflexivity.
Qed.

Lemma extract_urls_succeeded (L : Lib) content d :
  extract_urls L content = Ok d -> succeeded d.
Proof.
  unfold extract_urls.
  destruct (foldM _ _ _); [|discriminate]. cbn [bind].
  intros [= <-]. split; reflexivity.
Qed.

(** X23. What [main] returns either has success: True and no error, or
    has an error message and no success field; the second happens for an
    extraction type that is none of the eight and when the scan or the
    extraction raises, and only then. *)
Theorem result_has_success_or_error (L : Lib) (content extract_type : string)
  (options : option dict) :
  exists d,
    main L content extract_type options = Ok d
    /\ (succeeded d \/ failed d)
    /\ (failed d <->
        ~ In extract_type extraction_types
        \/ exists e, main_body L content extract_type
                       match options with Some o => o | None => [] end = Raise e).
Proof.
  unfold main.
  destruct (main_body L content extract_type _) as [d|e] eqn:Hbody; cbn [try_except].
  - exists d. split; [reflexivity|].
    assert (Hd : (In extract_type extraction_types /\ succeeded d)
                 \/ (~ In extract_type extraction_types /\ failed d)).
    { revert Hbody. unfold main_body.
      destruct (html_events L content) as [events|]; [|discriminate]. cbn [bind].
      destruct (String.eqb_spec extract_type "links") as [->|Hlinks].
      { intros H. left. split; [simpl; tauto | eapply extract_links_succeeded, H]. }
      destruct (String.eqb_spec extract_type "text") as [->|Htext].
      { intros H. left. split; [simpl; tauto | eapply extract_text_succeeded, H]. }
      destruct (String.eqb_spec extract_type "metadata") as [->|Hmetadata].
      { intros H. left. split; [simpl; tauto | eapply extract_metadata_succeeded, H]. }
      destruct (String.eqb_spec extract_type "structured") as [->|Hstructured].
      { intros H. left. split; [simpl; tauto | eapply extract_structured_succeeded, H]. }
      destruct (String.eqb_spec extract_type "emails") as [->|Hemails].
      { intros [= <-]. left. split; [simpl; tauto | split; reflexivity]. }
      destruct (String.eqb_spec extract_type "phone_numbers") as [->|Hphones].
      { intros [= <-]. left. split; [simpl; tauto | split; reflexivity]. }
      destruct (String.eqb_spec extract_type "urls") as [->|Hurls].
      { intros H. left. split; [simpl; tauto | eapply extract_urls_succeeded, H]. }
      destruct (String.eqb_spec extract_type "all") as [->|Hall].
      { intros [= <-]. left. split; [simpl; tauto | split; reflexivity]. }
      intros [= <-]. right. split.
      - simpl. intuition congruence.
      - split; [reflexivity | eexists; reflexivity]. }
    destruct Hd as [[Hin [Hs He]]|[Hout Hf]].
    + split; [left; now split|]. split.
      * intros [Hno _]. congruence.
      * intros [Hno|[e He']]; [contradiction | discriminate].
    + split; [now right|]. split; [now left | intros _; exact Hf].
  - eexists. split; [reflexivity|].
    assert (Hf : failed (exception_result extract_type e)).
    { split; [reflexivity | eexists; reflexivity]. }
    split; [now right|]. split; [intros _; right; eauto | intros _; exact Hf].
Qed.

(** *** Links whose href has no value *)

(** [link["href"]] is a string. *)
Definition href_has_value (link : dict) : bool :=
  match dict_get link "href" with
  | Some (PStr _) => true
  | _ => false
  end.

Lemma scanned_links (events : list event) (link : dict) :
  In link (links (feed new_parser events)) ->
  (exists href, dict_get link "href" = Some href /\ is_attr_value href)
  /\ dict_get link "absolute_href" = None.
Proof.
  destruct (feed_records new_parser events) as (-> & _ & _). simpl.
  rewrite in_flat_map. intros (e & _ & He).
  destruct e as [name attrs|data|name]; simpl in He; try contradiction.
  destruct ((name =? "a") && _); [|contradiction].
  destruct He as [<-|[]]. split; [|reflexivity].
  eexists. split; [reflexivity|]. unfold dict_get_default.
  destruct (dict_get (dict_of_attrs attrs) "href") as [v|] eqn:Hv; [|now left].
  exact (dict_of_attrs_values _ _ _ Hv).
Qed.

Lemma category_of_scanned (L : Lib) (base_url : pyval) (link : dict) :
  truthy base_url = false ->
  (exists href, dict_get link "href" = Some href /\ is_attr_value href)
  /\ dict_get link "absolute_href" = None ->
  if href_has_value link
  then exists k, category_of L base_url link = Ok k
  else category_of L base_url link = Raise (attribute_error PNone "startswith").
Proof.
  intros Hbase [(href & Hhref & Hvalue) Habs].
  unfold href_has_value, category_of, link_href, dict_item, dict_get_default.
  rewrite Hhref, Habs. cbn [bind].
  destruct Hvalue as [->|[s ->]]; [reflexivity|]. cbn [py_startswith bind].
  destruct (String.prefix "#" s); [eauto|]. rewrite Hbase.
  destruct (String.prefix "http://" s); cbn [bind]; [eauto|].
  destruct (String.prefix "https://" s); cbn [bind]; eauto.
Qed.

Lemma categorize_all_scanned (L : Lib) (base_url : pyval) (links' : list dict)
  (c : categories) :
  truthy base_url = false ->
  (forall link, In link links' ->
     (exists href, dict_get link "href" = Some href /\ is_attr_value href)
     /\ dict_get link "absolute_href" = None) ->
  if forallb href_has_value links'
  then exists c', foldM (categorize L base_url) links' c = Ok c'
  else foldM (categorize L base_url) links' c
       = Raise (attribute_error PNone "startswith").
Proof.
  intros Hbase. revert c. induction links' as [|link rest IH]; intros c Hall; simpl.
  - eauto.
  - rewrite categorize_place.
    pose proof (category_of_scanned L base_url link Hbase (Hall link (or_introl eq_refl)))
      as Hlink.
    destruct (href_has_value link); simpl.
    + destruct Hlink as [k ->]. cbn [bind]. apply IH.
      intros l Hl. apply Hall. now right.
    + now rewrite Hlink.
Qed.

(** X24. Without a base_url, link extraction of a scanned document
    returns exactly when the href of every [a] tag has a value; a tag such
    as [<a href>] makes it raise
    AttributeError: 'NoneType' object has no attribute 'startswith', which
    [main] turns into the error mapping. *)
Theorem links_need_valued_hrefs (L : Lib) (content : string)
  (options : option dict) (events : list event) :
  html_events L content = Ok events ->
  truthy (dict_get_default match options with Some o => o | None => [] end
            "base_url" (PStr "")) = false ->
  if forallb href_has_value (links (feed new_parser events))
  then exists d,
         main L content "links" options = Ok d
         /\ dict_get d "success" = Some (PBool true)
  else main L content "links" options
       = Ok [("error", PStr "'NoneType' object has no attribute 'startswith'");
             ("extract_type", PStr "links")].
Proof.
  intros Hscan Hbase. unfold main, main_body. rewrite Hscan. cbn [bind].
  change ("links" =? "links") with true. cbv iota.
  unfold extract_links, resolved_links. rewrite Hbase. cbn [bind].
  pose proof (categorize_all_scanned L _ (links (feed new_parser events))
                (mk_categories [] [] []) Hbase (scanned_links events)) as Hall.
  destruct (forallb href_has_value _).
  - destruct Hall as [c ->]. cbn [bind try_except]. eexists. split; reflexivity.
  - rewrite Hall. reflexivity.
Qed.

Lemma links_need_valued_hrefs_witness :
  main ExampleLib "<a href>top</a>" "links" None
  = Ok [("error", PStr "'NoneType' object has no attribute 'startswith'");
        ("extract_type", PStr "links")].
Proof.
  exact (links_need_valued_hrefs ExampleLib "<a href>top</a>" None
           [StartTag "a" [("href", None)]; Data "top"; EndTag "a"]
           eq_refl eq_refl).
Defined.

End WebScraper.

(** ** text_analyzer.py *)

Module TextAnalyzer.

Definition newline : ascii := ascii_of_nat 10.
Definition tab : ascii := ascii_of_nat 9.

(** [text.split('\n\n')]: the pieces between blank lines;
    [split_paragraphs_from s] is the piece that starts [s] and the pieces
    after it. *)
Fixpoint split_paragraphs_from (s : string) : string * list string :=
  match s with
  | EmptyString => ("", [])
  | String c s' =>
      match s' with
      | String c' s'' =>
          if ((c =? newline) && (c' =? newline))%char
          then let (w, ws) := split_paragraphs_from s'' in ("", w :: ws)
          else let (w, ws) := split_paragraphs_from s' in (String c w, ws)
      | EmptyString => (String c "", [])
      end
  end.

Definition split_paragraphs (s : string) : list string :=
  let (w, ws) := split_paragraphs_from s in w :: ws.

(** [text.replace(' ', '').replace('\n', '')]. *)
Fixpoint without_spaces (s : string) : string :=
  match s with
  | EmptyString => EmptyString
  | String c s' =>
      if ((c =? " ") || (c =? newline))%char then without_spaces s'
      else String c (without_spaces s')
  end.

(** [len(words) / len(sentences) if sentences else 0]. *)
Definition average_sentence_length (words sentences : list string) : result pyval :=
  match sentences with
  | [] => Ok (PInt 0)
  | _ => q <- count_truediv (len words) (len sentences) ;; Ok (PFloat q)
  end.

Definition basic_analysis (text : string) : result dict :=
  let words := split_ws text in
  let sentences := nonblank (re_split_sentences text) in
  let paragraphs := split_paragraphs text in
  word_length <- average_word_length words ;;
  sentence_length <- average_sentence_length words sentences ;;
  Ok [("character_count", PInt (str_len text));
      ("character_count_no_spaces", PInt (str_len (without_spaces text)));
      ("word_count", PInt (len words));
      ("sentence_count", PInt (len sentences));
      ("paragraph_count", PInt (len paragraphs));
      ("average_word_length", word_length);
      ("average_sentence_length", sentence_length)].

Definition is_vowel (c : ascii) : bool :=
  ((c =? "a") || (c =? "e") || (c =? "i") || (c =? "o") || (c =? "u"))%char.

(** The loop of [count_syllables]: a vowel that does not follow a vowel
    counts. *)
Fixpoint vowel_groups (previous_was_vowel : bool) (word : string) : Z :=
  match word with
  | EmptyString => 0
  | String c rest =>
      ((if is_vowel c && negb previous_was_vowel then 1 else 0)
       + vowel_groups (is_vowel c) rest)%Z
  end.

Definition count_syllables (word : string) : Z :=
  Z.max 1 (vowel_groups false (lower word)).

Definition total_syllables (words : list string) : Z :=
  fold_right (fun w n => (count_syllables w + n)%Z) 0%Z words.

(** Binary64 arithmetic, and a decimal literal [n / 1000] as the float
    nearest to it. *)
Definition fmul : spec_float -> spec_float -> spec_float := SFmul 53 1024.
Definition fsub : spec_float -> spec_float -> spec_float := SFsub 53 1024.
Definition thousandths (n : Z) : spec_float :=
  SFdiv 53 1024 (float_of_int n) (float_of_int 1000).

(** [f >= n] for a float and an [int] literal. *)
Definition float_ge_int (f : spec_float) (n : Z) : bool :=
  match SFcompare f (float_of_int n) with
  | Some Gt | Some Eq => true
  | _ => false
  end.

(** The integer nearest to [num / den], ties to even ([num >= 0],
    [den > 0]). *)
Definition nearest_even (num den : Z) : Z :=
  let q := (num / den)%Z in
  let r := (num mod den)%Z in
  if (2 * r <? den)%Z then q
  else if (den <? 2 * r)%Z then (q + 1)%Z
  else if Z.even q then q else (q + 1)%Z.

(** [round(f, 2)] for a float: the float nearest to the decimal with two
    places that is nearest to [f]; infinities and nan are left alone. *)
Definition round2 (f : spec_float) : spec_float :=
  match f with
  | S754_finite negative m e =>
      let hundredths :=
        if (0 <=? e)%Z then (Z.pos m * 100 * 2 ^ e)%Z
        else nearest_even (Z.pos m * 100) (2 ^ (- e)) in
      match hundredths with
      | Zpos n => SFdiv 53 1024 (S754_finite negative n 0) (float_of_int 100)
      | _ => S754_zero negative
      end
  | _ => f
  end.

Definition difficulty (flesch_score : spec_float) : string :=
  if float_ge_int flesch_score 90 then "Very Easy"
  else if float_ge_int flesch_score 80 then "Easy"
  else if float_ge_int flesch_score 70 then "Fairly Easy"
  else if float_ge_int flesch_score 60 then "Standard"
  else if float_ge_int flesch_score 50 then "Fairly Difficult"
  else if float_ge_int flesch_score 30 then "Difficult"
  else "Very Difficult".

(** [206.835 - 1.015 * avg_sentence_length - 84.6 * avg_syllables_per_word]. *)
Definition flesch (avg_sentence_length avg_syllables_per_word : spec_float)
  : spec_float :=
  fsub (fsub (thousandths 206835) (fmul (thousandths 1015) avg_sentence_length))
       (fmul (thousandths 84600) avg_syllables_per_word).

Definition readability_analysis (text : string) : result dict :=
  let words := split_ws text in
  let sentences := nonblank (re_split_sentences text) in
  let syllables := total_syllables words in
  score <- (if (0 <? len sentences)%Z && (0 <? len words)%Z then
              avg_sentence_length <- count_truediv (len words) (len sentences) ;;
              avg_syllables_per_word <- count_truediv syllables (len words) ;;
              let flesch_score := flesch avg_sentence_length avg_syllables_per_word in
              Ok (PFloat (round2 flesch_score), difficulty flesch_score)
            else Ok (PInt 0, "Cannot calculate")) ;;
  per_word <- match words with
              | [] => Ok (PInt 0)
              | _ => q <- count_truediv syllables (len words) ;; Ok (PFloat (round2 q))
              end ;;
  Ok [("flesch_reading_ease", fst score);
      ("difficulty_level", PStr (snd score));
      ("total_syllables", PInt syllables);
      ("average_syllables_per_word", per_word)].

(** [Counter(xs)], keys in the order of their first occurrence. *)
Definition Counter (xs : list string) : list (string * Z) :=
  fold_left count_up xs [].

(** [dict(counter.most_common(n))]. *)
Definition most_common (n : nat) (counter : list (string * Z)) : pyval :=
  PDict (map (fun kv => (fst kv, PInt (snd kv))) (take n (sorted_by_count counter))).

(** [[c.lower() for c in text if c not in ' \n\t']]. *)
Fixpoint visible_chars (text : string) : list string :=
  match text with
  | EmptyString => []
  | String c rest =>
      if ((c =? " ") || (c =? newline) || (c =? tab))%char then visible_chars rest
      else String (lower_ascii c) "" :: visible_chars rest
  end.

(** [[f"{words[i]} {words[i+1]}" for i in range(len(words)-1)]]. *)
Fixpoint bigrams (words : list string) : list string :=
  match words with
  | w :: (w' :: _) as rest => (w ++ " " ++ w')%string :: bigrams rest
  | _ => []
  end.

Definition frequency_analysis (text : string) : result dict :=
  let words := findall_words (lower text) in
  let word_freq := Counter words in
  let char_freq := Counter (visible_chars text) in
  let bigram_freq := Counter (bigrams words) in
  diversity <- match words with
               | [] => Ok (PInt 0)
               | _ => q <- count_truediv (len word_freq) (len words) ;; Ok (PFloat q)
               end ;;
  Ok [("unique_words", PInt (len word_freq));
      ("top_10_words", most_common 10 word_freq);
      ("top_10_characters", most_common 10 char_freq);
      ("top_5_bigrams", most_common 5 bigram_freq);
      ("lexical_diversity", diversity)].

(** [re.search(r'\d', s)] finds something. *)
Fixpoint has_digit (s : string) : bool :=
  match s with
  | EmptyString => false
  | String c rest => is_digit c || has_digit rest
  end.

(** [s] without its first [len(pat)] characters. *)
Fixpoint after_prefix (pat s : string) {struct s} : string :=
  match pat, s with
  | String _ pat', String _ s' => after_prefix pat' s'
  | _, _ => s
  end.

(** [re.search(pat + r'\S+', s)] finds something, for a literal [pat]. *)
Fixpoint followed_by_text (pat s : string) : bool :=
  (String.prefix pat s
   && match after_prefix pat s with
      | String c _ => negb (is_space c)
      | EmptyString => false
      end)
  || match s with
     | EmptyString => false
     | String _ rest => followed_by_text pat rest
     end.

(** [re.search(r'https?://\S+', s)] finds something. *)
Definition has_url (s : string) : bool :=
  followed_by_text "http://" s || followed_by_text "https://" s.

(** [re.search] with the e-mail pattern finds something: the one regular
    expression of the module that backtracks, taken from the [re]
    module. *)
Record Lib : Type := { has_email : string -> bool }.

Section Main.

Variable L : Lib.

Definition full_analysis (text : string) : result dict :=
  basic <- basic_analysis text ;;
  readability <- readability_analysis text ;;
  frequency <- frequency_analysis text ;;
  Ok [("basic", PDict basic);
      ("readability", PDict readability);
      ("frequency", PDict frequency);
      ("metadata",
       PDict [("has_numbers", PBool (has_digit text));
              ("has_urls", PBool (has_url text));
              ("has_emails", PBool (has_email L text));
              ("language_hint",
               PStr (if existsb (fun word => contains word (lower text))
                          ["the"; "and"; "is"; "in"; "to"]
                     then "english" else "unknown"))])].

(** The dict [analyses], keys in order. *)
Definition analyses : list (string * (string -> result dict)) :=
  [("basic", basic_analysis);
   ("readability", readability_analysis);
   ("frequency", frequency_analysis);
   ("full", full_analysis)].

Fixpoint lookup {A : Type} (table : list (string * A)) (k : string) : option A :=
  match table with
  | [] => None
  | (k', v) :: rest => if k' =? k then Some v else lookup rest k
  end.

(** [main(text, analysis_type="full")]. *)
Definition main (text analysis_type : string) : result dict :=
  if negb (nonempty text) then Ok [("error", PStr "No text provided")]
  else
    match lookup analyses analysis_type with
    | None =>
        Ok [("error", PStr ("Unknown analysis type: " ++ analysis_type));
            ("available", strs (map fst analyses))]
    | Some analysis => analysis text
    end.

End Main.

(** The texts of the worked examples hold no [@], without which the e-mail
    pattern does not match. *)
Definition ExampleLib : Lib := {| has_email := fun _ => false |}.

Definition keys (d : dict) : list string := map fst d.

(** *** Theorems *)

Lemma count_truediv_ok (a b : Z) :
  b <> 0%Z -> exists q, count_truediv a b = Ok q.
Proof.
  intros Hb. unfold count_truediv.
  destruct (Z.eqb_spec b 0); [contradiction|]. eauto.
Qed.

Lemma len_cons_nonzero {A : Type} (x : A) (l : list A) : len (x :: l) <> 0%Z.
Proof. unfold len. simpl List.length. lia. Qed.

Lemma average_word_length_ok (words : list string) :
  exists v, average_word_length words = Ok v.
Proof.
  destruct words as [|w ws]; [simpl; eauto|].
  destruct (count_truediv_ok (total_length (w :: ws)) (len (w :: ws))
              (len_cons_nonzero w ws)) as [q Hq].
  unfold average_word_length. rewrite Hq. cbn [bind]. eauto.
Qed.

Lemma average_sentence_length_ok (words sentences : list string) :
  exists v, average_sentence_length words sentences = Ok v.
Proof.
  destruct sentences as [|x xs]; [simpl; eauto|].
  destruct (count_truediv_ok (len words) (len (x :: xs)) (len_cons_nonzero x xs))
    as [q Hq].
  unfold average_sentence_length. rewrite Hq. cbn [bind]. eauto.
Qed.

(** No division of [basic_analysis] has a zero divisor. *)
Lemma basic_analysis_ok (text : string) :
  exists d, basic_analysis text = Ok d
            /\ keys d = ["character_count"; "character_count_no_spaces";
                         "word_count"; "sentence_count"; "paragraph_count";
                         "average_word_length"; "average_sentence_length"].
Proof.
  unfold basic_analysis.
  destruct (average_word_length_ok (split_ws text)) as [w ->].
  destruct (average_sentence_length_ok (split_ws text)
              (nonblank (re_split_sentences text))) as [x ->].
  cbn [bind]. eexists. split; reflexivity.
Qed.

Lemma readability_analysis_ok (text : string) :
  exists d, readability_analysis text = Ok d
            /\ keys d = ["flesch_reading_ease"; "difficulty_level";
                         "total_syllables"; "average_syllables_per_word"].
Proof.
  unfold readability_analysis.
  set (words := split_ws text). set (sentences := nonblank (re_split_sentences text)).
  assert (Hscore : exists score,
             (if (0 <? len sentences)%Z && (0 <? len words)%Z then
                avg_sentence_length <- count_truediv (len words) (len sentences) ;;
                avg_syllables_per_word <-
                  count_truediv (total_syllables words) (len words) ;;
                Ok (PFloat (round2 (flesch avg_sentence_length avg_syllables_per_word)),
                    difficulty (flesch avg_sentence_length avg_syllables_per_word))
              else Ok (PInt 0, "Cannot calculate")) = Ok score).
  { destruct ((0 <? len sentences)%Z && (0 <? len words)%Z) eqn:Hboth; [|eauto].
    apply andb_prop in Hboth. destruct Hboth as [Hs Hw].
    apply Z.ltb_lt in Hs, Hw.
    destruct (count_truediv_ok (len words) (len sentences)) as [q1 ->]; [lia|].
    destruct (count_truediv_ok (total_syllables words) (len words)) as [q2 ->]; [lia|].
    cbn [bind]. eauto. }
  destruct Hscore as [score ->]. cbn [bind].
  destruct words as [|w ws] eqn:Hwords.
  - cbn [bind]. eexists. split; reflexivity.
  - destruct (count_truediv_ok (total_syllables (w :: ws)) (len (w :: ws))
                (len_cons_nonzero w ws)) as [q ->].
    cbn [bind]. eexists. split; reflexivity.
Qed.

Lemma frequency_analysis_ok (text : string) :
  exists d, frequency_analysis text = Ok d
            /\ keys d = ["unique_words"; "top_10_words"; "top_10_characters";
                         "top_5_bigrams"; "lexical_diversity"].
Proof.
  unfold frequency_analysis.
  destruct (findall_words (lower text)) as [|w ws] eqn:Hwords.
  - cbn [bind]. eexists. split; reflexivity.
  - destruct (count_truediv_ok (len (Counter (w :: ws))) (len (w :: ws))
                (len_cons_nonzero w ws)) as [q ->].
    cbn [bind]. eexists. split; reflexivity.
Qed.

Lemma full_analysis_ok (L : Lib) (text : string) :
  exists d, full_analysis L text = Ok d
            /\ keys d = ["basic"; "readability"; "frequency"; "metadata"].
Proof.
  unfold full_analysis.
  destruct (basic_analysis_ok text) as [b [-> _]].
  destruct (readability_analysis_ok text) as [r [-> _]].
  destruct (frequency_analysis_ok text) as [f [-> _]].
  cbn [bind]. eexists. split; reflexivity.
Qed.

Lemma nonempty_iff (s : string) : nonempty s = true <-> s <> "".
Proof.
  unfold nonempty. destruct (String.eqb_spec s ""); simpl; split; congruence.
Qed.

(** C3. For every text and analysis type [main] returns a mapping and
    raises nothing.  The empty text gives [{error: "No text provided"}]; a
    type other than basic, readability, frequency and full gives the
    error mapping with the four available types; otherwise the result is
    the mapping of the analysis asked for, and each of the four analyses
    returns its mapping for every text. *)
Theorem main_returns_a_mapping (L : Lib) (text analysis_type : string) :
  (exists d, main L text analysis_type = Ok d)
  /\ (text = "" -> main L text analysis_type = Ok [("error", PStr "No text provided")])
  /\ (text <> "" ->
      ~ In analysis_type ["full"; "basic"; "readability"; "frequency"] ->
      main L text analysis_type
      = Ok [("error", PStr ("Unknown analysis type: " ++ analysis_type));
            ("available", strs ["basic"; "readability"; "frequency"; "full"])])
  /\ (text <> "" ->
      main L text "basic" = basic_analysis text
      /\ main L text "readability" = readability_analysis text
      /\ main L text "frequency" = frequency_analysis text
      /\ main L text "full" = full_analysis L text)
  /\ (exists basic readability frequency full,
        basic_analysis text = Ok basic
        /\ readability_analysis text = Ok readability
        /\ frequency_analysis text = Ok frequency
        /\ full_analysis L text = Ok full
        /\ keys full = ["basic"; "readability"; "frequency"; "metadata"]).
Proof.
  destruct (basic_analysis_ok text) as [b [Hb _]].
  destruct (readability_analysis_ok text) as [r [Hr _]].
  destruct (frequency_analysis_ok text) as [f [Hf _]].
  destruct (full_analysis_ok L text) as [a [Ha Hkeys]].
  split; [|split; [|split; [|split]]].
  - unfold main. destruct (nonempty text); cbn [negb]; [|eauto].
    unfold analyses, lookup.
    destruct (_ =? analysis_type); [eauto|].
    destruct (_ =? analysis_type); [eauto|].
    destruct (_ =? analysis_type); [eauto|].
    destruct (_ =? analysis_type); eauto.
  - intros ->. reflexivity.
  - intros Htext Hno. apply nonempty_iff in Htext. unfold main. rewrite Htext.
    cbn [negb]. unfold analyses, lookup.
    destruct (String.eqb_spec "basic" analysis_type) as [<-|_];
      [exfalso; apply Hno; simpl; tauto|].
    destruct (String.eqb_spec "readability" analysis_type) as [<-|_];
      [exfalso; apply Hno; simpl; tauto|].
    destruct (String.eqb_spec "frequency" analysis_type) as [<-|_];
      [exfalso; apply Hno; simpl; tauto|].
    destruct (String.eqb_spec "full" analysis_type) as [<-|_];
      [exfalso; apply Hno; simpl; tauto|].
    reflexivity.
  - intros Htext. apply nonempty_iff in Htext. unfold main. rewrite Htext.
    repeat split; reflexivity.
  - exists b, r, f, a. auto.
Qed.

Definition cat_text : string := "The cat sat on the mat. It was happy!".

Example cat_text_basic :
  main ExampleLib cat_text "basic"
  = Ok [("character_count", PInt 37);
        ("character_count_no_spaces", PInt 29);
        ("word_count", PInt 9);
        ("sentence_count", PInt 2);
        ("paragraph_count", PInt 1);
        ("average_word_length", PFloat (S754_finite false 7255799399652466 (-51)));
        ("average_sentence_length", PFloat (S754_finite false 5066549580791808 (-50)))].
Proof. reflexivity. Qed.

Lemma main_returns_a_mapping_witness :
  main ExampleLib "" "basic" = Ok [("error", PStr "No text provided")]
  /\ main ExampleLib cat_text "summary"
     = Ok [("error", PStr "Unknown analysis type: summary");
           ("available", strs ["basic"; "readability"; "frequency"; "full"])]
  /\ main ExampleLib cat_text "full" = full_analysis ExampleLib cat_text.
Proof.
  split; [|split].
  - apply (main_returns_a_mapping ExampleLib "" "basic"). reflexivity.
  - apply (main_returns_a_mapping ExampleLib cat_text "summary").
    + discriminate.
    + not_listed.
  - apply (main_returns_a_mapping ExampleLib cat_text "full"). discriminate.
Defined.

(** *** More about the analyses *)

(** The dict of [(key, count)] pairs. *)
Definition tally (top : list (string * Z)) : pyval :=
  PDict (map (fun kv => (fst kv, PInt (snd kv))) top).

(** X17. The frequency analysis of every text returns; each of
    top_10_words, top_10_characters and top_5_bigrams lists at most that
    many of the distinct words (characters, pairs of neighbouring words),
    most frequent first, each with the number of its occurrences, and
    nothing left out occurs more often than something listed;
    unique_words is the number of distinct words. *)
Theorem frequency_lists_the_most_frequent (text : string) :
  exists d words_top chars_top bigrams_top distinct,
    frequency_analysis text = Ok d
    /\ dict_get d "top_10_words" = Some (tally words_top)
    /\ most_frequent 10 (findall_words (lower text)) words_top
    /\ dict_get d "top_10_characters" = Some (tally chars_top)
    /\ most_frequent 10 (visible_chars text) chars_top
    /\ dict_get d "top_5_bigrams" = Some (tally bigrams_top)
    /\ most_frequent 5 (bigrams (findall_words (lower text))) bigrams_top
    /\ dict_get d "unique_words" = Some (PInt (len distinct))
    /\ NoDup distinct
    /\ (forall word, In word distinct <-> In word (findall_words (lower text))).
Proof.
  set (words := findall_words (lower text)).
  assert (Hd : exists diversity,
             frequency_analysis text
             = Ok [("unique_words", PInt (len (Counter words)));
                   ("top_10_words", most_common 10 (Counter words));
                   ("top_10_characters", most_common 10 (Counter (visible_chars text)));
                   ("top_5_bigrams", most_common 5 (Counter (bigrams words)));
                   ("lexical_diversity", diversity)]).
  { unfold frequency_analysis. fold words. destruct words as [|w ws] eqn:Hwords.
    - cbn [bind]. eexists. reflexivity.
    - destruct (count_truediv_ok (len (Counter (w :: ws))) (len (w :: ws))
                  (len_cons_nonzero w ws)) as [q ->].
      cbn [bind]. eexists. reflexivity. }
  destruct Hd as [diversity Hd].
  eexists. exists (take 10 (sorted_by_count (Counter words))),
    (take 10 (sorted_by_count (Counter (visible_chars text)))),
    (take 5 (sorted_by_count (Counter (bigrams words)))),
    (map fst (Counter words)).
  split; [exact Hd|].
  split; [reflexivity|].
  split; [apply take_sorted_most_frequent, count_up_counted|].
  split; [reflexivity|].
  split; [apply take_sorted_most_frequent, count_up_counted|].
  split; [reflexivity|].
  split; [apply take_sorted_most_frequent, count_up_counted|].
  destruct (count_up_counted words) as (Hnodup & Hkeys & _).
  split; [|split; [exact Hnodup | exact Hkeys]].
  cbn [dict_get String.eqb Ascii.eqb Bool.eqb]. unfold len.
  now rewrite length_map.
Qed.

(** The number of characters of [s] that satisfy [keep]. *)
Fixpoint count_chars (keep : ascii -> bool) (s : string) : Z :=
  match s with
  | EmptyString => 0
  | String c s' => ((if keep c then 1 else 0) + count_chars keep s')%Z
  end.

Lemma str_len_cons (c : ascii) (s : string) :
  str_len (String c s) = (1 + str_len s)%Z.
Proof. unfold str_len. simpl String.length. lia. Qed.

Lemma str_len_nonneg (s : string) : (0 <= str_len s)%Z.
Proof. unfold str_len. lia. Qed.

Lemma nonempty_length (s : string) : nonempty s = true -> (1 <= str_len s)%Z.
Proof.
  destruct s; [discriminate|]. intros _. rewrite str_len_cons.
  pose proof (str_len_nonneg s). lia.
Qed.

Lemma total_length_cons (w : string) (ws : list string) :
  total_length (w :: ws) = (str_len w + total_length ws)%Z.
Proof. reflexivity. Qed.

Lemma nonempty_false (s : string) : nonempty s = false -> s = "".
Proof. now destruct s. Qed.

(** The runs hold the characters that satisfy [keep], and no run is
    empty. *)
Lemma runs_from_total (keep : ascii -> bool) (s : string) :
  (str_len (fst (runs_from keep s)) + total_length (snd (runs_from keep s))
   = count_chars keep s)%Z
  /\ Forall (fun w => 1 <= str_len w)%Z (snd (runs_from keep s)).
Proof.
  induction s as [|c s [IHt IHf]]; simpl.
  - split; [reflexivity | constructor].
  - destruct (runs_from keep s) as [w ws]. cbn [fst snd] in IHt, IHf.
    destruct (keep c); cbn [fst snd].
    + rewrite str_len_cons. split; [lia | exact IHf].
    + change (str_len "") with 0%Z.
      destruct (nonempty w) eqn:Hw.
      * rewrite total_length_cons.
        split; [lia|]. constructor; [now apply nonempty_length | exact IHf].
      * apply nonempty_false in Hw. subst w. split; [exact IHt | exact IHf].
Qed.

Lemma runs_total (keep : ascii -> bool) (s : string) :
  total_length (runs keep s) = count_chars keep s
  /\ Forall (fun w => 1 <= str_len w)%Z (runs keep s).
Proof.
  unfold runs. destruct (runs_from_total keep s) as [Ht Hf].
  destruct (runs_from keep s) as [w ws]. cbn [fst snd] in Ht, Hf.
  destruct (nonempty w) eqn:Hw.
  - rewrite total_length_cons.
    split; [lia|]. constructor; [now apply nonempty_length | exact Hf].
  - apply nonempty_false in Hw. subst w. change (str_len "") with 0%Z in Ht.
    split; [lia | exact Hf].
Qed.

Lemma len_le_total_length (words : list string) :
  Forall (fun w => 1 <= str_len w)%Z words -> (len words <= total_length words)%Z.
Proof.
  induction 1 as [|w ws Hw _ IH]; [reflexivity|].
  rewrite total_length_cons. unfold len in *. simpl List.length. lia.
Qed.

Lemma visible_le_without_spaces (s : string) :
  (count_chars (fun c => negb (is_space c)) s <= str_len (without_spaces s))%Z.
Proof.
  induction s as [|c s IH]; simpl; [reflexivity|].
  destruct (Ascii.eqb_spec c " ") as [->|Hs]; [simpl; lia|].
  destruct (Ascii.eqb_spec c newline) as [->|Hn]; [simpl; lia|].
  simpl. rewrite str_len_cons. destruct (negb (is_space c)); lia.
Qed.

Lemma without_spaces_le (s : string) :
  (str_len (without_spaces s) <= str_len s)%Z.
Proof.
  induction s as [|c s IH]; simpl; [reflexivity|].
  rewrite str_len_cons.
  destruct ((c =? " ") || (c =? newline))%char; [lia|].
  rewrite str_len_cons. lia.
Qed.

Lemma re_split_from_total (in_run : bool) (s : string) :
  (str_len (fst (re_split_from in_run s)) + total_length (snd (re_split_from in_run s))
   <= str_len s)%Z.
Proof.
  revert in_run. induction s as [|c s IH]; intros in_run; [reflexivity|].
  rewrite str_len_cons. cbn [re_split_from]. destruct (is_sentence_end c).
  - specialize (IH true). destruct in_run; [lia|].
    destruct (re_split_from true s) as [w ws]. cbn [fst snd] in *.
    rewrite total_length_cons. change (str_len "") with 0%Z. lia.
  - specialize (IH false). destruct (re_split_from false s) as [w ws].
    cbn [fst snd] in *. rewrite str_len_cons. lia.
Qed.

Lemma total_length_nonneg (words : list string) : (0 <= total_length words)%Z.
Proof.
  induction words as [|w ws IH]; [reflexivity|].
  rewrite total_length_cons. pose proof (str_len_nonneg w). lia.
Qed.

Lemma nonblank_le_total_length (pieces : list string) :
  (len (nonblank pieces) <= total_length pieces)%Z.
Proof.
  induction pieces as [|s pieces IH]; [reflexivity|].
  rewrite total_length_cons. unfold nonblank in *. cbn [filter].
  destruct (nonempty (strip s)) eqn:Hs.
  - assert (1 <= str_len s)%Z.
    { destruct s; [discriminate|]. rewrite str_len_cons.
      pose proof (str_len_nonneg s). lia. }
    unfold len in *. simpl List.length. lia.
  - pose proof (str_len_nonneg s). lia.
Qed.

(** X18. The counts of the basic analysis of every text are ordered: there
    are no more words than characters other than spaces and newlines, no
    more of these than characters, no more sentences than characters, and
    there is at least one paragraph. *)
Theorem basic_counts_are_ordered (text : string) :
  exists d words visible characters sentences paragraphs,
    basic_analysis text = Ok d
    /\ dict_get d "word_count" = Some (PInt words)
    /\ dict_get d "character_count_no_spaces" = Some (PInt visible)
    /\ dict_get d "character_count" = Some (PInt characters)
    /\ dict_get d "sentence_count" = Some (PInt sentences)
    /\ dict_get d "paragraph_count" = Some (PInt paragraphs)
    /\ (0 <= words <= visible)%Z
    /\ (visible <= characters)%Z
    /\ (0 <= sentences <= characters)%Z
    /\ (1 <= paragraphs)%Z.
Proof.
  unfold basic_analysis.
  destruct (average_word_length_ok (split_ws text)) as [w ->].
  destruct (average_sentence_length_ok (split_ws text)
              (nonblank (re_split_sentences text))) as [x ->].
  cbn [bind]. do 6 eexists. split; [reflexivity|].
  do 5 (split; [reflexivity|]).
  destruct (runs_total (fun c => negb (is_space c)) text) as [Ht Hf].
  fold (split_ws text) in Ht, Hf.
  pose proof (len_le_total_length _ Hf) as Hwords.
  pose proof (visible_le_without_spaces text) as Hvisible.
  pose proof (without_spaces_le text) as Hall.
  pose proof (nonblank_le_total_length (re_split_sentences text)) as Hsentences.
  pose proof (re_split_from_total false text) as Hpieces.
  unfold re_split_sentences in *.
  destruct (re_split_from false text) as [piece pieces]. simpl in Hpieces.
  simpl total_length in Hsentences.
  split; [unfold len at 1; lia|]. split; [exact Hall|].
  split; [unfold len at 1; lia|].
  unfold split_paragraphs. destruct (split_paragraphs_from text).
  unfold len. simpl List.length. lia.
Qed.

Lemma vowel_groups_bounds (previous_was_vowel : bool) (word : string) :
  (0 <= vowel_groups previous_was_vowel word <= str_len word)%Z.
Proof.
  revert previous_was_vowel. induction word as [|c word IH]; intros b; simpl.
  - change (str_len "") with 0%Z. lia.
  - rewrite str_len_cons. specialize (IH (is_vowel c)).
    destruct (is_vowel c && negb b); lia.
Qed.

Lemma str_len_lower (s : string) : str_len (lower s) = str_len s.
Proof.
  induction s as [|c s IH]; [reflexivity|].
  simpl. now rewrite !str_len_cons, IH.
Qed.

Lemma count_syllables_bounds (word : string) :
  (1 <= count_syllables word <= Z.max 1 (str_len word))%Z.
Proof.
  unfold count_syllables.
  pose proof (vowel_groups_bounds false (lower word)) as H.
  rewrite str_len_lower in H. lia.
Qed.

Lemma total_syllables_bounds (words : list string) :
  Forall (fun w => 1 <= str_len w)%Z words ->
  (len words <= total_syllables words <= total_length words)%Z.
Proof.
  induction 1 as [|w ws Hw _ IH]; [simpl; unfold len; simpl; lia|].
  pose proof (count_syllables_bounds w).
  unfold len in *. simpl. lia.
Qed.

Lemma readability_analysis_syllables (text : string) :
  exists d, readability_analysis text = Ok d
            /\ dict_get d "total_syllables"
               = Some (PInt (total_syllables (split_ws text))).
Proof.
  unfold readability_analysis.
  set (words := split_ws text). set (sentences := nonblank (re_split_sentences text)).
  assert (Hscore : exists score,
             (if (0 <? len sentences)%Z && (0 <? len words)%Z then
                avg_sentence_length <- count_truediv (len words) (len sentences) ;;
                avg_syllables_per_word <-
                  count_truediv (total_syllables words) (len words) ;;
                Ok (PFloat (round2 (flesch avg_sentence_length avg_syllables_per_word)),
                    difficulty (flesch avg_sentence_length avg_syllables_per_word))
              else Ok (PInt 0, "Cannot calculate")) = Ok score).
  { destruct ((0 <? len sentences)%Z && (0 <? len words)%Z) eqn:Hboth; [|eauto].
    apply andb_prop in Hboth. destruct Hboth as [Hs Hw].
    apply Z.ltb_lt in Hs, Hw.
    destruct (count_truediv_ok (len words) (len sentences)) as [q1 ->]; [lia|].
    destruct (count_truediv_ok (total_syllables words) (len words)) as [q2 ->]; [lia|].
    cbn [bind]. eauto. }
  destruct Hscore as [score ->]. cbn [bind].
  destruct words as [|w ws] eqn:Hwords.
  - cbn [bind]. eexists. split; reflexivity.
  - destruct (count_truediv_ok (total_syllables (w :: ws)) (len (w :: ws))
                (len_cons_nonzero w ws)) as [q ->].
    cbn [bind]. eexists. split; reflexivity.
Qed.

(** X19. In every text each word counts at least one syllable and at most
    as many syllables as it has characters: total_syllables of the
    readability analysis lies between word_count and
    character_count_no_spaces of the basic analysis. *)
Theorem syllables_between_words_and_characters (text : string) :
  exists basic readability words syllables visible,
    basic_analysis text = Ok basic
    /\ readability_analysis text = Ok readability
    /\ dict_get basic "word_count" = Some (PInt words)
    /\ dict_get readability "total_syllables" = Some (PInt syllables)
    /\ dict_get basic "character_count_no_spaces" = Some (PInt visible)
    /\ (words <= syllables <= visible)%Z.
Proof.
  destruct (readability_analysis_syllables text) as (r & Hr & Hs).
  unfold basic_analysis.
  destruct (average_word_length_ok (split_ws text)) as [w ->].
  destruct (average_sentence_length_ok (split_ws text)
              (nonblank (re_split_sentences text))) as [x ->].
  cbn [bind]. eexists. exists r. do 3 eexists.
  split; [reflexivity|]. split; [exact Hr|]. split; [reflexivity|].
  split; [exact Hs|]. split; [reflexivity|].
  destruct (runs_total (fun c => negb (is_space c)) text) as [Ht Hf].
  fold (split_ws text) in Ht, Hf.
  pose proof (total_syllables_bounds _ Hf).
  pose proof (visible_le_without_spaces text). lia.
Qed.

End TextAnalyzer.

(** ** data_processor.py *)

Module DataProcessor.

(** [dict(items)]. *)
Definition dict_of_items (items : list (string * pyval)) : dict :=
  fold_left (fun d kv => dict_set d (fst kv) (snd kv)) items [].

(** [isinstance(v, dict)]. *)
Definition is_dict (v : pyval) : bool :=
  match v with
  | PDict _ => true
  | _ => false
  end.

(** [f"{parent_key}{sep}{k}" if parent_key else k]. *)
Definition new_key (parent_key sep k : string) : string :=
  if nonempty parent_key then parent_key ++ sep ++ k else k.

Fixpoint flatten_json (obj : pyval) (parent_key sep : string) : dict :=
  match obj with
  | PDict d =>
      dict_of_items
        ((fix items_of (d : list (string * pyval)) : list (string * pyval) :=
            match d with
            | [] => []
            | (k, v) :: rest =>
                match v with
                | PDict _ => flatten_json v (new_key parent_key sep k) sep
                | _ => [(new_key parent_key sep k, v)]
                end ++ items_of rest
            end) d)
  | _ => dict_of_items [(parent_key, obj)]
  end.

(** The list [items] that the loop of [flatten_json] builds from the
    entries [d] of a dict. *)
Fixpoint flatten_items (parent_key sep : string) (d : list (string * pyval))
  : list (string * pyval) :=
  match d with
  | [] => []
  | (k, v) :: rest =>
      match v with
      | PDict _ => flatten_json v (new_key parent_key sep k) sep
      | _ => [(new_key parent_key sep k, v)]
      end ++ flatten_items parent_key sep rest
  end.

Lemma flatten_json_dict (d : dict) (parent_key sep : string) :
  flatten_json (PDict d) parent_key sep
  = dict_of_items (flatten_items parent_key sep d).
Proof.
  simpl. f_equal. induction d as [|[k v] rest IH]; [reflexivity|].
  simpl. now rewrite IH.
Qed.


(** Induction on a value through the values of its dicts. *)
Fixpoint pyval_dict_ind (P : pyval -> Prop)
  (Hleaf : forall v, is_dict v = false -> P v)
  (Hdict : forall d, Forall (fun kv => P (snd kv)) d -> P (PDict d))
  (v : pyval) {struct v} : P v :=
  match v with
  | PDict d =>
      Hdict d
        ((fix all (d : list (string * pyval)) : Forall (fun kv => P (snd kv)) d :=
            match d with
            | [] => Forall_nil _
            | (k, x) :: rest =>
                Forall_cons (k, x) (pyval_dict_ind P Hleaf Hdict x) (all rest)
            end) d)
  | PNone => Hleaf PNone eq_refl
  | PBool b => Hleaf (PBool b) eq_refl
  | PInt z => Hleaf (PInt z) eq_refl
  | PFloat f => Hleaf (PFloat f) eq_refl
  | PStr s => Hleaf (PStr s) eq_refl
  | PList l => Hleaf (PList l) eq_refl
  end.

Lemma dict_of_items_invariant (R : dict -> Prop) (items : list (string * pyval)) :
  (forall d k v, R d -> In (k, v) items -> R (dict_set d k v)) ->
  forall start, R start ->
  R (fold_left (fun d kv => dict_set d (fst kv) (snd kv)) items start).
Proof.
  induction items as [|[k v] rest IH]; intros Hstep start Hstart; simpl;
    [exact Hstart|].
  apply IH.
  - intros d k' v' Hd Hin. apply Hstep; [exact Hd | now right].
  - apply Hstep; [exact Hstart | now left].
Qed.

(** [dict(items)] has each key once, and only entries of [items]. *)
Lemma dict_of_items_nodup (items : list (string * pyval)) :
  NoDup (dict_keys (dict_of_items items)).
Proof.
  apply (dict_of_items_invariant (fun d => NoDup (dict_keys d))).
  - intros d k v Hd _. now apply dict_set_nodup.
  - constructor.
Qed.

Lemma dict_of_items_Forall (R : string * pyval -> Prop) (items : list (string * pyval)) :
  Forall R items -> Forall R (dict_of_items items).
Proof.
  intros Hitems. apply (dict_of_items_invariant (Forall R)).
  - intros d k v Hd Hin. apply dict_set_Forall; [exact Hd|].
    rewrite Forall_forall in Hitems. now apply Hitems.
  - constructor.
Qed.

(** A list of entries with distinct keys is the dict it builds. *)
Lemma dict_of_items_id (d : dict) : NoDup (dict_keys d) -> dict_of_items d = d.
Proof.
  unfold dict_of_items.
  assert (H : forall start,
             NoDup (dict_keys (start ++ d)) ->
             fold_left (fun d kv => dict_set d (fst kv) (snd kv)) d start = start ++ d).
  { induction d as [|[k v] rest IH]; intros start Hnd; simpl.
    - now rewrite app_nil_r.
    - unfold dict_keys in Hnd. rewrite map_app in Hnd. simpl in Hnd.
      rewrite dict_set_new.
      + rewrite IH; [now rewrite <- app_assoc|].
        unfold dict_keys. rewrite <- app_assoc, !map_app. simpl. exact Hnd.
      + apply NoDup_remove_2 in Hnd. rewrite in_app_iff in Hnd.
        unfold dict_keys. tauto. }
  intros Hnd. apply (H []). exact Hnd.
Qed.

Lemma flatten_items_flat (parent_key sep : string) (d : dict) :
  Forall (fun kv => forall pk, Forall (fun e => is_dict (snd e) = false)
                                 (flatten_json (snd kv) pk sep)) d ->
  Forall (fun e => is_dict (snd e) = false) (flatten_items parent_key sep d).
Proof.
  induction 1 as [|[k v] rest Hv _ IH]; simpl; [constructor|].
  apply Forall_app. split; [|exact IH].
  destruct v; try (repeat constructor); apply Hv.
Qed.

(** X6. Whatever the value and the parent key, the mapping that
    [flatten_json] returns is flat, no value of it is a dict, and each of
    its keys occurs once. *)
Theorem flatten_json_is_flat (obj : pyval) (parent_key sep : string) :
  Forall (fun e => is_dict (snd e) = false) (flatten_json obj parent_key sep)
  /\ NoDup (dict_keys (flatten_json obj parent_key sep)).
Proof.
  split.
  - revert parent_key. induction obj as [v Hleaf|d IH] using pyval_dict_ind;
      intros parent_key.
    + destruct v; try discriminate; repeat constructor.
    + rewrite flatten_json_dict. apply dict_of_items_Forall.
      now apply flatten_items_flat.
  - destruct obj; try (repeat constructor; simpl; tauto).
    rewrite flatten_json_dict. apply dict_of_items_nodup.
Qed.

Lemma flatten_items_of_flat (sep : string) (d : dict) :
  Forall (fun e => is_dict (snd e) = false) d -> flatten_items "" sep d = d.
Proof.
  induction 1 as [|[k v] rest Hv _ IH]; simpl; [reflexivity|].
  rewrite IH. destruct v; try reflexivity. discriminate.
Qed.

(** X7. Flattening is idempotent: flattening the mapping that
    [flatten_json] returned gives that mapping again. *)
Theorem flatten_json_idempotent (obj : pyval) (parent_key sep : string) :
  flatten_json (PDict (flatten_json obj parent_key sep)) "" sep
  = flatten_json obj parent_key sep.
Proof.
  destruct (flatten_json_is_flat obj parent_key sep) as [Hflat Hnodup].
  rewrite flatten_json_dict, flatten_items_of_flat by exact Hflat.
  now apply dict_of_items_id.
Qed.


Lemma flatten_items_app (parent_key sep : string) (d1 d2 : dict) :
  flatten_items parent_key sep (d1 ++ d2)
  = flatten_items parent_key sep d1 ++ flatten_items parent_key sep d2.
Proof.
  induction d1 as [|[k v] rest IH]; simpl; [reflexivity|].
  now rewrite IH, app_assoc.
Qed.

(** X8. An entry whose value is an empty dict leaves no trace: the
    flattened mapping is that of the dict without the entry. *)
Theorem flatten_json_drops_empty_dicts (d1 d2 : dict) (k parent_key sep : string) :
  flatten_json (PDict (d1 ++ (k, PDict []) :: d2)) parent_key sep
  = flatten_json (PDict (d1 ++ d2)) parent_key sep.
Proof.
  rewrite !flatten_json_dict, !flatten_items_app. reflexivity.
Qed.

Lemma new_key_prefix (parent_key sep k : string) :
  nonempty parent_key = true ->
  String.prefix (parent_key ++ sep) (new_key parent_key sep k) = true
  /\ nonempty (new_key parent_key sep k) = true.
Proof.
  intros Hp. unfold new_key. rewrite Hp. split.
  - rewrite <- string_app_assoc. apply prefix_app.
  - destruct parent_key; [discriminate | reflexivity].
Qed.

Lemma flatten_json_prefix (obj : pyval) (sep : string) :
  forall parent_key d,
    obj = PDict d -> nonempty parent_key = true ->
    Forall (fun e => String.prefix (parent_key ++ sep) (fst e) = true)
      (flatten_json obj parent_key sep).
Proof.
  induction obj as [v Hleaf|d IH] using pyval_dict_ind; intros parent_key d' Hobj Hp.
  { subst v. discriminate. }
  clear d' Hobj. rewrite flatten_json_dict. apply dict_of_items_Forall.
  induction IH as [|[k v] rest Hv _ IHrest]; simpl; [constructor|].
  apply Forall_app. split; [|exact IHrest].
  destruct (new_key_prefix parent_key sep k Hp) as [Hprefix Hnonempty].
  destruct v; try (constructor; [exact Hprefix | constructor]).
  specialize (Hv (new_key parent_key sep k) d eq_refl Hnonempty).
  revert Hv. apply Forall_impl. intros e Hkey.
  apply (prefix_trans _ _ _ Hprefix).
  apply (prefix_trans _ (new_key parent_key sep k ++ sep)); [apply prefix_app | exact Hkey].
Qed.

(** X9. Keys are paths: a dict with the one entry [k: d], [d] a dict,
    flattens to what [d] flattens to under the parent key [k]; and under a
    non-empty parent key every key of the flattened dict starts with the
    parent key and the separator. *)
Theorem flatten_json_keys_are_paths (d : dict) (sep : string) :
  (forall k,
     flatten_json (PDict [(k, PDict d)]) "" sep = flatten_json (PDict d) k sep)
  /\ (forall parent_key,
        nonempty parent_key = true ->
        Forall (fun e => String.prefix (parent_key ++ sep) (fst e) = true)
          (flatten_json (PDict d) parent_key sep)).
Proof.
  split.
  - intros k. rewrite (flatten_json_dict [(k, PDict d)]).
    cbn [flatten_items]. rewrite app_nil_r. unfold new_key.
    cbn [nonempty String.eqb negb].
    apply dict_of_items_id, flatten_json_is_flat.
  - intros parent_key Hp. now apply (flatten_json_prefix (PDict d) sep parent_key d).
Qed.

Definition nested_example : dict :=
  [("b", PInt 1); ("c", PDict [("d", PNone); ("e", PDict [])]); ("f", PList [PDict []])].

Example nested_example_flat :
  flatten_json (PDict [("a", PDict nested_example)]) "" "."
  = [("a.b", PInt 1); ("a.c.d", PNone); ("a.f", PList [PDict []])].
Proof. reflexivity. Qed.

Lemma flatten_json_keys_are_paths_witness :
  flatten_json (PDict [("a", PDict nested_example)]) "" "."
  = flatten_json (PDict nested_example) "a" "."
  /\ Forall (fun e => String.prefix "a." (fst e) = true)
       (flatten_json (PDict nested_example) "a" ".").
Proof.
  split.
  - apply (flatten_json_keys_are_paths nested_example ".").
  - exact (proj2 (flatten_json_keys_are_paths nested_example ".") "a" eq_refl).
Defined.

(** *** [process_json] and [main] *)

(** [json.loads] and the function [process_csv], whose [csv.DictReader]
    is not modelled. *)
Record Lib : Type := {
  json_loads : string -> result pyval;
  process_csv : string -> string -> result dict
}.

(** [len(v) if hasattr(v, '__len__') else 1]. *)
Definition size (v : pyval) : Z :=
  match v with
  | PStr s => str_len s
  | PList l => len l
  | PDict d => len d
  | _ => 1%Z
  end.

(** [v is not None]. *)
Definition is_not_none (v : pyval) : bool :=
  match v with
  | PNone => false
  | _ => true
  end.

(** The value [filtered] of the branch [elif operation == "filter":]. *)
Definition without_none (parsed : pyval) : pyval :=
  match parsed with
  | PDict d => PDict (filter (fun kv => is_not_none (snd kv)) d)
  | PList l => PList (filter is_not_none l)
  | _ => parsed
  end.

Section Main.

Variable L : Lib.

Definition process_json (data operation : string) : result dict :=
  parsed <- json_loads L data ;;
  if operation =? "parse" then
    Ok [("success", PBool true);
        ("type", PStr (type_name parsed));
        ("size", PInt (size parsed));
        ("data", parsed)]
  else if operation =? "filter" then
    Ok [("success", PBool true);
        ("original_size", PInt (size parsed));
        ("filtered_size", PInt (size (without_none parsed)));
        ("data", without_none parsed)]
  else if operation =? "transform" then
    Ok [("success", PBool true);
        ("keys", strs (dict_keys (flatten_json parsed "" ".")));
        ("data", PDict (flatten_json parsed "" "."))]
  else
    Ok [("success", PBool false);
        ("error", PStr ("Unknown operation: " ++ operation))].

(** [main(data, format, operation="parse")]. *)
Definition main (data format operation : string) : result dict :=
  try_except
    (if format =? "csv" then process_csv L data operation
     else if format =? "json" then process_json data operation
     else Ok [("success", PBool false);
              ("error", PStr ("Unsupported format: " ++ format))])
    (fun e => [("success", PBool false); ("error", PStr (exn_msg e))]).

End Main.

Lemma filter_shorter {A : Type} (f : A -> bool) (l : list A) :
  (len (filter f l) <= len l)%Z.
Proof. unfold len. pose proof (filter_length_le f l). lia. Qed.

Lemma filter_twice {A : Type} (f : A -> bool) (l : list A) :
  filter f (filter f l) = filter f l.
Proof.
  induction l as [|x l IH]; simpl; [reflexivity|].
  destruct (f x) eqn:Hx; simpl; [now rewrite Hx, IH | exact IH].
Qed.

(** X10. The filter operation on JSON removes the [None] entries of the
    top level and only those: the data is the parsed dict or list without
    its [None] values (another kind of value is returned as it is), no
    [None] is left at the top level, filtered_size is its size and is at
    most original_size, and filtering what was filtered changes nothing. *)
Theorem filter_removes_top_level_none (L : Lib) (data : string) (parsed : pyval) :
  json_loads L data = Ok parsed ->
  main L data "json" "filter"
  = Ok [("success", PBool true);
        ("original_size", PInt (size parsed));
        ("filtered_size", PInt (size (without_none parsed)));
        ("data", without_none parsed)]
  /\ (size (without_none parsed) <= size parsed)%Z
  /\ (forall d, without_none parsed = PDict d -> ~ In PNone (map snd d))
  /\ (forall l, without_none parsed = PList l -> ~ In PNone l)
  /\ without_none (without_none parsed) = without_none parsed.
Proof.
  intros Hparsed. split; [|split; [|split; [|split]]].
  - unfold main, process_json. cbn [String.eqb Ascii.eqb Bool.eqb].
    rewrite Hparsed. reflexivity.
  - destruct parsed; simpl; try lia; apply filter_shorter.
  - intros d Hd Hin. destruct parsed; try discriminate.
    injection Hd as <-. apply in_map_iff in Hin.
    destruct Hin as [[k v] [Hv Hin]]. simpl in Hv. subst v.
    apply filter_In in Hin. destruct Hin as [_ Hnone]. discriminate.
  - intros l Hl Hin. destruct parsed; try discriminate.
    injection Hl as <-. apply filter_In in Hin. destruct Hin as [_ Hnone].
    discriminate.
  - destruct parsed; simpl; try reflexivity; now rewrite filter_twice.
Qed.

(** The JSON of the worked examples; no example is in CSV. *)
Definition ExampleLib : Lib :=
  {| json_loads := WebScraper.example_json_loads;
     process_csv := fun _ _ => Raise (mk_exn "NotImplementedError" "csv") |}.

Lemma filter_removes_top_level_none_witness :
  main ExampleLib "[1, null, [null], 2, null]" "json" "filter"
  = Ok [("success", PBool true);
        ("original_size", PInt 5);
        ("filtered_size", PInt 3);
        ("data", PList [PInt 1; PList [PNone]; PInt 2])].
Proof.
  apply (filter_removes_top_level_none ExampleLib "[1, null, [null], 2, null]"
           (PList [PInt 1; PNone; PList [PNone]; PInt 2; PNone])).
  reflexivity.
Defined.

(** X11. For every format but csv, [main] answers with one of two shapes:
    success = True and no error key, which takes the format json, a
    document that parses and one of the operations parse, filter and
    transform; or exactly [{success: False, error: <message>}].  A
    document that [json.loads] rejects is reported with the message of the
    exception, whatever the operation. *)
Theorem main_reports_success_or_error (L : Lib) (data format operation : string) :
  format <> "csv" ->
  ((exists d parsed,
      main L data format operation = Ok d
      /\ dict_get d "success" = Some (PBool true)
      /\ dict_get d "error" = None
      /\ format = "json"
      /\ In operation ["parse"; "filter"; "transform"]
      /\ json_loads L data = Ok parsed)
   \/ (exists message,
         main L data format operation
         = Ok [("success", PBool false); ("error", PStr message)]))
  /\ (forall e,
        format = "json" -> json_loads L data = Raise e ->
        main L data format operation
        = Ok [("success", PBool false); ("error", PStr (exn_msg e))]).
Proof.
  intros Hcsv. apply String.eqb_neq in Hcsv. unfold main. rewrite Hcsv. split.
  - destruct (String.eqb_spec format "json") as [->|_]; [|right; eexists; reflexivity].
    unfold process_json. destruct (json_loads L data) as [parsed|e];
      [|right; eexists; reflexivity].
    cbn [bind].
    destruct (String.eqb_spec operation "parse") as [->|_].
    { left. eexists _, parsed. repeat split. simpl. tauto. }
    destruct (String.eqb_spec operation "filter") as [->|_].
    { left. eexists _, parsed. repeat split. simpl. tauto. }
    destruct (String.eqb_spec operation "transform") as [->|_].
    { left. eexists _, parsed. repeat split. simpl. tauto. }
    right. eexists. reflexivity.
  - intros e -> He. unfold process_json. rewrite He. reflexivity.
Qed.

Lemma main_reports_success_or_error_witness :
  main ExampleLib "{oops" "json" "shuffle"
  = Ok [("success", PBool false); ("error", PStr "Expecting value")].
Proof.
  apply (proj2 (main_reports_success_or_error ExampleLib "{oops" "json" "shuffle"
                  ltac:(discriminate))
           (mk_exn "JSONDecodeError" "Expecting value"));
    reflexivity.
Defined.

Example main_examples :
  main ExampleLib "[]" "json" "shuffle"
  = Ok [("success", PBool false); ("error", PStr "Unknown operation: shuffle")]
  /\ main ExampleLib "[]" "xml" "parse"
     = Ok [("success", PBool false); ("error", PStr "Unsupported format: xml")]
  /\ main ExampleLib "[1, 2]" "json" "transform"
     = Ok [("success", PBool true); ("keys", strs [""]);
           ("data", PDict [("", PList [PInt 1; PInt 2])])].
Proof. repeat split. Qed.

End DataProcessor.
